(** * School Data Finder: search engine and controller

    A shallow embedding of [src/utils/maps.ts] (normalizers and the two query
    executors) and of the stateful part of [src/components/Home.tsx] (the
    debounced search controller), followed by the properties of the
    specification that concern them.

    Conventions.
    - JavaScript values are the values [Response.json()] can produce
      (null, booleans, IEEE doubles, strings, arrays, objects) plus
      [undefined], which is what reading a missing property gives.
      Objects and arrays carry a reference, because [===] compares them
      by identity.
    - A string is a sequence of UTF-16 code units; the embedding covers the
      code units 0..255 (one [ascii] each).
    - Code that may throw lives in the [Res] monad; an [async] function is
      modelled by the way its promise settles. *)

From Stdlib Require Import SpecFloat.
From stdpp Require Import base strings list sorting gmap.

Set Warnings "-register-all".

(** ** Exceptions and fallible computations *)

Record JsError := mkError { ename : string }.

Definition TypeError : JsError := mkError "TypeError".
Definition SyntaxError : JsError := mkError "SyntaxError".
Definition AbortError : JsError := mkError "AbortError".

Inductive Res (A : Type) : Type :=
| Ok (a : A)
| Throw (e : JsError).
Arguments Ok {A} a.
Arguments Throw {A} e.

#[global] Instance Res_ret : MRet Res := fun _ a => Ok a.
#[global] Instance Res_bind : MBind Res := fun _ _ f m =>
  match m with
  | Ok a => f a
  | Throw e => Throw e
  end.

Definition returns {A} (m : Res A) : Prop := exists a, m = Ok a.

(** ** Values *)

Inductive JsVal :=
| JUndefined
| JNull
| JBool (b : bool)
| JNum (n : spec_float)
| JStr (s : string)
| JArr (ref : nat) (elems : list JsVal)
| JObj (ref : nat) (props : list (string * JsVal)).

(** [ToBoolean]: what [||], [!] and [if] look at. *)
Definition truthy (v : JsVal) : bool :=
  match v with
  | JUndefined | JNull => false
  | JBool b => b
  | JNum (S754_zero _) | JNum S754_nan => false
  | JNum _ => true
  | JStr s => negb (String.eqb s "")
  | JArr _ _ | JObj _ _ => true
  end.

Definition nullish (v : JsVal) : bool :=
  match v with
  | JUndefined | JNull => true
  | _ => false
  end.

(** Own properties of a parsed object: the first binding of a key. *)
Fixpoint own (props : list (string * JsVal)) (k : string) : option JsVal :=
  match props with
  | [] => None
  | (k', v) :: rest => if String.eqb k' k then Some v else own rest k
  end.

(** Property read [v.k]. Reading from [null] or [undefined] throws a
    TypeError. On every other value the keys this program reads are either own
    properties of a parsed object or missing: none of them is a member of a
    built-in prototype. *)
Definition get (v : JsVal) (k : string) : Res JsVal :=
  match v with
  | JUndefined | JNull => Throw TypeError
  | JObj _ props => Ok (default JUndefined (own props k))
  | _ => Ok JUndefined
  end.

(** Strict equality [===]. *)
Definition strict_equals (a b : JsVal) : bool :=
  match a, b with
  | JUndefined, JUndefined => true
  | JNull, JNull => true
  | JBool x, JBool y => Bool.eqb x y
  | JNum x, JNum y => SFeqb x y
  | JStr x, JStr y => String.eqb x y
  | JArr r _, JArr r' _ => Nat.eqb r r'
  | JObj r _, JObj r' _ => Nat.eqb r r'
  | _, _ => false
  end.

(** [a || b] with both operands fallible; the right one is evaluated only when
    the left one is falsy. *)
Definition js_or (x y : Res JsVal) : Res JsVal :=
  v ← x; if truthy v then Ok v else y.

(** A string literal as an operand. *)
Definition str (s : string) : Res JsVal := Ok (JStr s).

Declare Scope js_scope.
Delimit Scope js_scope with js.
Notation "x ||| y" := (js_or x y) (at level 50, left associativity) : js_scope.
Notation "a # k" := (get a k) (at level 25, left associativity) : js_scope.
Open Scope js_scope.

(** ** Strings *)

(** White space and line terminators removed by [String.prototype.trim]. *)
Definition is_white (c : Ascii.ascii) : bool :=
  let n := Ascii.nat_of_ascii c in
  (Nat.leb 9 n && Nat.leb n 13) || Nat.eqb n 32 || Nat.eqb n 160.

Fixpoint trimStart (s : string) : string :=
  match s with
  | EmptyString => EmptyString
  | String c rest => if is_white c then trimStart rest else s
  end.

Definition trim (s : string) : string :=
  String.rev (trimStart (String.rev (trimStart s))).

Fixpoint join (sep : string) (l : list string) : string :=
  match l with
  | [] => ""
  | [s] => s
  | s :: rest => s +:+ sep +:+ join sep rest
  end.

Fixpoint sequence {A} (l : list (Res A)) : Res (list A) :=
  match l with
  | [] => Ok []
  | m :: rest => a ← m; r ← sequence rest; Ok (a :: r)
  end.

Fixpoint has_key (k : string) (props : list (string * JsVal)) : bool :=
  match props with
  | [] => false
  | (k', _) :: rest => String.eqb k' k || has_key k rest
  end.

Section Runtime.

(** [Number::toString] belongs to the language runtime. *)
Variable number_to_string : spec_float -> string.

(** [ToString], as a template literal applies it. An array is joined with
    commas ([null] and [undefined] elements print as nothing). An object prints
    as [[object Object]], unless it has an own [toString] property: a parsed
    value is never callable, so the conversion finds no primitive and throws. *)
Fixpoint toString (v : JsVal) : Res string :=
  match v with
  | JUndefined => Ok "undefined"
  | JNull => Ok "null"
  | JBool true => Ok "true"
  | JBool false => Ok "false"
  | JNum n => Ok (number_to_string n)
  | JStr s => Ok s
  | JArr _ elems =>
      parts ← sequence (map (fun x => if nullish x then Ok "" else toString x) elems);
      Ok (join "," parts)
  | JObj _ props =>
      if has_key "toString" props then Throw TypeError else Ok "[object Object]"
  end.

End Runtime.

(** ** Canonical records

    The fields are typed [string] and [number] in the source, but the
    normalizers copy whatever the raw record holds, so a field is a value.
    [STFIP] of the school interface is never assigned. *)

Module School.
Record t := mk {
  NCESSCH : JsVal; LEAID : JsVal; NAME : JsVal; OPSTFIPS : JsVal;
  STREET : JsVal; CITY : JsVal; STATE : JsVal; ZIP : JsVal;
  CNTY : JsVal; NMCNTY : JsVal; LOCALE : JsVal;
  LAT : JsVal; LON : JsVal; OBJECTID : JsVal
}.
End School.

Module District.
Record t := mk {
  OBJECTID : JsVal; LEAID : JsVal; NAME : JsVal;
  LSTREE : JsVal; LCITY : JsVal; LSTATE : JsVal; LZIP : JsVal; LZIP4 : JsVal;
  STFIP15 : JsVal; CNTY15 : JsVal; NMCNTY15 : JsVal;
  LAT1516 : JsVal; LON1516 : JsVal; ST : JsVal
}.
End District.

(** ** Normalizer *)

(** The geometry fallback of [normalizeSchoolAttributes]: entered when either
    coordinate is falsy and a geometry is supplied; inside, each coordinate is
    the geometry's when that is truthy. *)
Definition resolveCoordinates (lat lon geometry : JsVal) : Res (JsVal * JsVal) :=
  if (negb (truthy lat) || negb (truthy lon)) && truthy geometry then
    lat' ← geometry # "y" ||| Ok lat;
    lon' ← geometry # "x" ||| Ok lon;
    Ok (lat', lon')
  else Ok (lat, lon).

Definition normalizeSchoolAttributes (a geometry : JsVal) : Res School.t :=
  NAME ← a # "NAME" ||| a # "SCH_NAME" ||| a # "SCHOOL_NAME" ||| a # "SchoolName" ||| a # "NAME_" ||| str "";
  STREET ← a # "STREET" ||| a # "MAIL_STREET" ||| a # "LSTREET1" ||| a # "ADDRESS" ||| a # "LSTREET" ||| str "";
  CITY ← a # "CITY" ||| a # "MAIL_CITY" ||| a # "LCITY" ||| a # "TOWN" ||| str "";
  STATE ← a # "STATE" ||| a # "ST" ||| a # "MAIL_STATE" ||| a # "LSTATE" ||| str "";
  ZIP ← a # "ZIP" ||| a # "MAIL_ZIP" ||| a # "LZIP" ||| a # "POSTAL" ||| a # "ZIP_CODE" ||| str "";
  NCESSCH ← a # "NCESSCH" ||| a # "SCHID" ||| a # "NCES_ID" ||| a # "NCES" ||| str "";
  LEAID ← a # "LEAID" ||| a # "LEA_ID" ||| a # "LEA" ||| str "";
  OBJECTID ← a # "OBJECTID" ||| a # "OBJECT_ID";
  LAT ← a # "LAT" ||| a # "Y" ||| a # "lat" ||| a # "latitude";
  LON ← a # "LON" ||| a # "X" ||| a # "lon" ||| a # "longitude";
  coords ← resolveCoordinates LAT LON geometry;
  OPSTFIPS ← a # "OPSTFIPS" ||| a # "STFIP";
  CNTY ← a # "CNTY" ||| a # "COUNTY";
  NMCNTY ← a # "NMCNTY" ||| a # "COUNTYNAME";
  LOCALE ← a # "LOCALE";
  Ok {| School.NAME := NAME; School.STREET := STREET; School.CITY := CITY;
        School.STATE := STATE; School.ZIP := ZIP; School.NCESSCH := NCESSCH;
        School.LEAID := LEAID; School.OBJECTID := OBJECTID;
        School.LAT := coords.1; School.LON := coords.2;
        School.OPSTFIPS := OPSTFIPS; School.CNTY := CNTY;
        School.NMCNTY := NMCNTY; School.LOCALE := LOCALE |}.

Section Normalizer.

Variable number_to_string : spec_float -> string.

(** The template literal [`District ${a.LEAID || 'Unknown'}`]. *)
Definition districtLabel (a : JsVal) : Res JsVal :=
  id ← a # "LEAID" ||| str "Unknown";
  s ← toString number_to_string id;
  str ("District " +:+ s).

Definition normalizeDistrictAttributes (a : JsVal) : Res District.t :=
  OBJECTID ← a # "OBJECTID" ||| a # "OBJECT_ID";
  LEAID ← a # "LEAID" ||| a # "LEA_ID" ||| a # "LEA" ||| str "";
  NAME ← a # "DISTRICT" ||| a # "LEA_NAME" ||| a # "LEANM" ||| districtLabel a;
  LSTREE ← a # "LSTREE" ||| a # "LSTREET" ||| a # "STREET" ||| str "";
  LCITY ← a # "LCITY" ||| a # "CITY" ||| str "";
  LSTATE ← a # "LSTATE" ||| a # "STATE" ||| a # "ST" ||| str "";
  LZIP ← a # "LZIP" ||| a # "ZIP" ||| str "";
  LZIP4 ← a # "LZIP4";
  ST ← a # "LSTATE" ||| a # "ST" ||| a # "STATE" ||| a # "STATE_CODE" ||| str "";
  LAT1516 ← a # "LAT1516" ||| a # "LAT" ||| a # "latitude";
  LON1516 ← a # "LON1516" ||| a # "LON" ||| a # "longitude";
  STFIP15 ← a # "STFIP15" ||| a # "STFIP";
  CNTY15 ← a # "CNTY15" ||| a # "CNTY";
  NMCNTY15 ← a # "NMCNTY15" ||| a # "NMCNTY";
  Ok {| District.OBJECTID := OBJECTID; District.LEAID := LEAID; District.NAME := NAME;
        District.LSTREE := LSTREE; District.LCITY := LCITY; District.LSTATE := LSTATE;
        District.LZIP := LZIP; District.LZIP4 := LZIP4; District.ST := ST;
        District.LAT1516 := LAT1516; District.LON1516 := LON1516;
        District.STFIP15 := STFIP15; District.CNTY15 := CNTY15;
        District.NMCNTY15 := NMCNTY15 |}.

End Normalizer.

(** ** Deduplicator *)

(** [Array.prototype.findIndex]; [None] stands for the -1 of a failed search,
    which is equal to no index. *)
Fixpoint findIndex {A} (p : A -> bool) (l : list A) : option nat :=
  match l with
  | [] => None
  | x :: rest => if p x then Some 0 else S <$> findIndex p rest
  end.

(** [Array.prototype.filter] with the [(element, index, self)] callback. *)
Fixpoint filter_from {A} (i : nat) (keep : A -> nat -> bool) (l : list A) : list A :=
  match l with
  | [] => []
  | x :: rest =>
      if keep x i then x :: filter_from (S i) keep rest else filter_from (S i) keep rest
  end.

Definition sameId (school s : School.t) : bool :=
  strict_equals (School.NCESSCH s) (School.NCESSCH school).

Definition samePlace (school s : School.t) : bool :=
  strict_equals (School.NAME s) (School.NAME school)
  && strict_equals (School.CITY s) (School.CITY school)
  && strict_equals (School.STATE s) (School.STATE school).

Definition is_index (found : option nat) (index : nat) : bool :=
  match found with
  | Some i => Nat.eqb i index
  | None => false
  end.

(** The callback of the [filter] that builds [unique]. *)
Definition firstOfItsKind (self : list School.t) (school : School.t) (index : nat) : bool :=
  if truthy (School.NCESSCH school)
  then is_index (findIndex (sameId school) self) index
  else is_index (findIndex (samePlace school) self) index.

Definition unique (normalized : list School.t) : list School.t :=
  filter_from 0 (firstOfItsKind normalized) normalized.

(** ** Query executor *)

(** How a [fetch] settles: it rejects (network error, abort), or a response
    arrives, with its [ok] flag and the way reading its body as JSON ends. *)
Record Response := mkResponse { ok : bool; json : Res JsVal }.

Inductive FetchOutcome :=
| Rejects (e : JsError)
| Arrives (r : Response).

(** The upstream services, as the injected [fetch] sees them. *)
Definition Net := string -> FetchOutcome.

Inductive Event :=
| Fetch (url : string)
| ConsoleError (label : string) (e : JsError).

(** Fallible computations that also perform requests and write to the console.
    For an [async] function, [Ok] is a fulfilled promise and [Throw] a rejected
    one. *)
Record Eff (A : Type) := mkEff { trace : list Event; outcome : Res A }.
Arguments mkEff {A} trace outcome.
Arguments trace {A} _.
Arguments outcome {A} _.

#[global] Instance Eff_ret : MRet Eff := fun _ a => mkEff [] (Ok a).
#[global] Instance Eff_bind : MBind Eff := fun _ _ f m =>
  match outcome m with
  | Ok a => mkEff (trace m ++ trace (f a)) (outcome (f a))
  | Throw e => mkEff (trace m) (Throw e)
  end.

Definition lift {A} (r : Res A) : Eff A := mkEff [] r.
Definition emit (e : Event) : Eff unit := mkEff [e] (Ok tt).

Definition try_catch {A} (body : Eff A) (handler : JsError -> Eff A) : Eff A :=
  match outcome body with
  | Ok _ => body
  | Throw e => mkEff (trace body ++ trace (handler e)) (outcome (handler e))
  end.

(** [fetch(url, { signal })]: with the signal aborted the promise rejects with
    an AbortError whatever the service would have answered. *)
Definition fetch (net : Net) (aborted : bool) (url : string) : Eff FetchOutcome :=
  emit (Fetch url);; mret (if aborted then Rejects AbortError else net url).

(** The object [{ ok: false }] the [.catch] handlers return; it has no [json]
    method. *)
Definition notOk : Response := mkResponse false (Throw TypeError).

(** The object [{ features: [] }]. *)
Definition noFeatures : JsVal := JObj 0 [("features", JArr 0 [])].

(** [Array.isArray(json.features) ? json.features : []] *)
Definition featuresOf (json : JsVal) : Res (list JsVal) :=
  fs ← json # "features";
  Ok (match fs with JArr _ elems => elems | _ => [] end).

(** [res.ok ? await res.json() : { features: [] }] *)
Definition bodyOf (res : Response) : Res JsVal :=
  if ok res then json res else Ok noFeatures.

Definition hex_digit (n : nat) : Ascii.ascii :=
  nth n (String.list_ascii_of_string "0123456789ABCDEF") (Ascii.ascii_of_nat 48).

Definition percent (n : nat) : string :=
  "%" +:+ String (hex_digit (n / 16)) (String (hex_digit (n mod 16)) "").

Definition unreserved (c : Ascii.ascii) : bool :=
  let n := Ascii.nat_of_ascii c in
  (Nat.leb 65 n && Nat.leb n 90) || (Nat.leb 97 n && Nat.leb n 122)
  || (Nat.leb 48 n && Nat.leb n 57)
  || bool_decide (c ∈ String.list_ascii_of_string "-_.!~*'()").

(** [encodeURIComponent]: everything but the unreserved marks is written as
    the percent-escaped bytes of its UTF-8 encoding. On the code units 0..255
    of the strings embedded here the function always returns; the URIError it
    throws on a lone surrogate is outside them. *)
Fixpoint encodeURIComponent (s : string) : string :=
  match s with
  | EmptyString => ""
  | String c rest =>
      let n := Ascii.nat_of_ascii c in
      (if unreserved c then String c ""
       else if Nat.ltb n 128 then percent n
       else percent (192 + n / 64) +:+ percent (128 + n mod 64))
      +:+ encodeURIComponent rest
  end.

Definition services : string :=
  "https://services1.arcgis.com/Ua5sjt3LWTPigjyD/arcgis/rest/services/".

Definition endpoint (layer whereClause count : string) : string :=
  services +:+ layer +:+ "/FeatureServer/0/query?where=" +:+ encodeURIComponent whereClause
  +:+ "&outFields=*&outSR=4326&f=json&resultRecordCount=" +:+ count.

Definition privateLayer : string := "Private_School_Locations_Current".
Definition publicLayer : string := "Public_School_Location_201819".

Definition likeName (text : string) : string :=
  "UPPER(NAME) LIKE UPPER('%" +:+ text +:+ "%')".

(** [f => normalizeSchoolAttributes(f.attributes || f, f.geometry)] *)
Definition normalizeFeature (f : JsVal) : Res School.t :=
  a ← f # "attributes" ||| Ok f;
  geometry ← f # "geometry";
  normalizeSchoolAttributes a geometry.

(** The [SameValueZero] comparison of [Map] keys. *)
Definition same_value_zero (a b : JsVal) : bool :=
  match a, b with
  | JNum S754_nan, JNum S754_nan => true
  | _, _ => strict_equals a b
  end.

(** A [Map<string, District>]: the entries in insertion order. *)
Definition DistrictMap : Type := list (JsVal * District.t).

Definition map_has (m : DistrictMap) (k : JsVal) : bool :=
  existsb (fun kv => same_value_zero kv.1 k) m.

(** [set] of a key the map does not hold. *)
Definition map_set (m : DistrictMap) (k : JsVal) (d : District.t) : DistrictMap :=
  m ++ [(k, d)].

Definition map_values (m : DistrictMap) : list District.t := m.*2.

Fixpoint forEach {A S} (body : S -> A -> Res S) (l : list A) (s : S) : Res S :=
  match l with
  | [] => Ok s
  | x :: rest => s' ← body s x; forEach body rest s'
  end.

Section Executor.

Variable number_to_string : spec_float -> string.

(** [String.prototype.localeCompare] and [Array.prototype.sort] belong to the
    runtime: the collation is the host's, and the order in which [sort] hands
    elements to the comparator (which may throw) is the engine's. *)
Variable localeCompare : string -> string -> Z.
Variable array_sort : forall A : Type, (A -> A -> Res Z) -> list A -> Res (list A).

(** [(a, b) => (a.NAME || '').localeCompare(b.NAME || '')]; only a string has
    the method. *)
Definition byName (a b : District.t) : Res Z :=
  x ← Ok (District.NAME a) ||| str "";
  y ← Ok (District.NAME b) ||| str "";
  match x with
  | JStr s => t ← toString number_to_string y; Ok (localeCompare s t)
  | _ => Throw TypeError
  end.

(** The body of the [forEach] that fills [districtMap]. *)
Definition collect (districtMap : DistrictMap) (f : JsVal) : Res DistrictMap :=
  attrs ← f # "attributes" ||| Ok f;
  leaId ← attrs # "LEAID" ||| attrs # "LEA_ID" ||| attrs # "LEA";
  if truthy leaId && negb (map_has districtMap leaId) then
    district ← normalizeDistrictAttributes number_to_string attrs;
    Ok (map_set districtMap leaId district)
  else Ok districtMap.

(** The handler [(e) => { console.error(label, e); return { ok: false } }] of
    [.catch] on a [fetch] promise. *)
Definition caughtLogged (label : string) (o : FetchOutcome) : Eff Response :=
  match o with
  | Arrives res => mret res
  | Rejects e => emit (ConsoleError label e);; mret notOk
  end.

(** The handler [() => ({ ok: false })]. *)
Definition caughtQuiet (o : FetchOutcome) : Eff Response :=
  match o with
  | Arrives res => mret res
  | Rejects _ => mret notOk
  end.

(** [await Promise.all([fetch(url1).catch(h1), fetch(url2).catch(h2)])]: both
    requests are sent before either promise settles, and the handlers run
    afterwards. When both requests are rejected each handler runs when its own
    request is, in an order the network decides; the trace below lists the
    first request's handler first, and what is said of the console lines of two
    rejected requests is said up to their order. *)
Definition fetchBoth (net : Net) (aborted : bool)
    (url1 : string) (h1 : FetchOutcome -> Eff Response)
    (url2 : string) (h2 : FetchOutcome -> Eff Response) : Eff (Response * Response) :=
  o1 ← fetch net aborted url1;
  o2 ← fetch net aborted url2;
  r1 ← h1 o1;
  r2 ← h2 o2;
  mret (r1, r2).

(** The [catch] clause of both executors. *)
Definition onError {A} (label : string) (err : JsError) : Eff (list A) :=
  (if negb (String.eqb (ename err) "AbortError")
   then emit (ConsoleError label err) else mret tt);;
  mret [].

Definition searchSchoolDistricts (net : Net) (aborted : bool) (name : string)
  : Eff (list District.t) :=
  if String.eqb name "" || Nat.ltb (String.length (trim name)) 2 then mret []
  else
    try_catch
      (let whereClause := likeName (trim name) in
       let privateSchoolEndpoint := endpoint privateLayer whereClause "500" in
       let publicSchoolEndpoint := endpoint publicLayer whereClause "500" in
       '(privateRes, publicRes) ←
         fetchBoth net aborted
           privateSchoolEndpoint (caughtLogged "Private fetch error:")
           publicSchoolEndpoint (caughtLogged "Public fetch error:");
       privateJson ← lift (bodyOf privateRes);
       publicJson ← lift (bodyOf publicRes);
       privateFeatures ← lift (featuresOf privateJson);
       publicFeatures ← lift (featuresOf publicJson);
       let allSchools := privateFeatures ++ publicFeatures in
       districtMap ← lift (forEach collect allSchools []);
       lift (array_sort _ byName (map_values districtMap)))
      (onError "District search error:").

(** The [where] clause of a school search. *)
Definition schoolWhere (name : string) (districtLEAID : JsVal) : Res string :=
  let nameQuery := trim name in
  let whereClause :=
    if negb (String.eqb nameQuery "") && Nat.leb 2 (String.length nameQuery)
    then likeName nameQuery else "1=1" in
  if truthy districtLEAID then
    id ← toString number_to_string districtLEAID;
    Ok (whereClause +:+ " AND LEAID = '" +:+ id +:+ "'")
  else Ok whereClause.

Definition searchSchools (net : Net) (aborted : bool) (name : string)
    (districtLEAID : JsVal) : Eff (list School.t) :=
  try_catch
    (whereClause ← lift (schoolWhere name districtLEAID);
     let privateSchoolEndpoint := endpoint privateLayer whereClause "100" in
     let publicSchoolEndpoint := endpoint publicLayer whereClause "100" in
     '(privateRes, publicRes) ←
       fetchBoth net aborted privateSchoolEndpoint caughtQuiet
                             publicSchoolEndpoint caughtQuiet;
     privateJson ← lift (bodyOf privateRes);
     publicJson ← lift (bodyOf publicRes);
     privateFeatures ← lift (featuresOf privateJson);
     publicFeatures ← lift (featuresOf publicJson);
     let combined := privateFeatures ++ publicFeatures in
     normalized ← lift (sequence (map normalizeFeature combined));
     mret (unique normalized))
    (onError "School search error:").

End Executor.

(** ** Debounced search controller: the school pipeline of [Home] *)

Record Session := mkSession {
  debouncedSchoolQuery : string;
  districts : list District.t;
  schools : list School.t;
  selectedDistrict : option District.t;
  selectedSchool : option School.t;
  loadingSchools : bool;
  (** [schoolCache.current]; every key holds a hyphen, so none is a member of
      [Object.prototype]. *)
  schoolCache : gmap string (list School.t)
}.

Definition setDebouncedSchoolQuery (v : string) (st : Session) : Session :=
  mkSession v (districts st) (schools st) (selectedDistrict st) (selectedSchool st)
    (loadingSchools st) (schoolCache st).
Definition setSchools (v : list School.t) (st : Session) : Session :=
  mkSession (debouncedSchoolQuery st) (districts st) v (selectedDistrict st)
    (selectedSchool st) (loadingSchools st) (schoolCache st).
Definition setSelectedDistrict (v : option District.t) (st : Session) : Session :=
  mkSession (debouncedSchoolQuery st) (districts st) (schools st) v (selectedSchool st)
    (loadingSchools st) (schoolCache st).
Definition setSelectedSchool (v : option School.t) (st : Session) : Session :=
  mkSession (debouncedSchoolQuery st) (districts st) (schools st) (selectedDistrict st) v
    (loadingSchools st) (schoolCache st).
Definition setLoadingSchools (v : bool) (st : Session) : Session :=
  mkSession (debouncedSchoolQuery st) (districts st) (schools st) (selectedDistrict st)
    (selectedSchool st) v (schoolCache st).
Definition setSchoolCache (v : gmap string (list School.t)) (st : Session) : Session :=
  mkSession (debouncedSchoolQuery st) (districts st) (schools st) (selectedDistrict st)
    (selectedSchool st) (loadingSchools st) v.

(** What one run of the school effect leaves behind when it starts a request:
    the arguments of [searchSchools], the values its [.then] callback closes
    over, and the state of its [AbortController]. *)
Record SchoolQuery := mkSchoolQuery {
  q_text : string;
  q_district : JsVal;
  q_cacheKey : string;
  q_selectedSchool : option School.t;
  q_aborted : bool
}.

(** The cleanup of the effect: [() => controller.abort()]. *)
Definition abort (query : SchoolQuery) : SchoolQuery :=
  mkSchoolQuery (q_text query) (q_district query) (q_cacheKey query)
    (q_selectedSchool query) true.

(** [selectedDistrict?.LEAID] *)
Definition districtFilter (st : Session) : JsVal :=
  match selectedDistrict st with
  | Some d => District.LEAID d
  | None => JUndefined
  end.

(** The predicate of [res.find] in the [.then] callback. *)
Definition stillMatches (selected s : School.t) : bool :=
  strict_equals (School.NCESSCH s) (School.NCESSCH selected)
  || (strict_equals (School.NAME s) (School.NAME selected)
      && strict_equals (School.CITY s) (School.CITY selected)).

(** The [.then] callback of the school effect. *)
Definition schoolThen (query : SchoolQuery) (res : list School.t) (st : Session) : Session :=
  let st := setSchools res st in
  let st := setSchoolCache (<[q_cacheKey query := res]> (schoolCache st)) st in
  match q_selectedSchool query with
  | Some selected =>
      if existsb (stillMatches selected) res then st else setSelectedSchool None st
  | None => st
  end.

(** [handleDistrictChange], with [leaId] the value of the select element. *)
Definition handleDistrictChange (leaId : string) (st : Session) : Session :=
  let st' :=
    if String.eqb leaId "" then setSelectedDistrict None st
    else setSelectedDistrict
           (find (fun d => strict_equals (District.LEAID d) (JStr leaId)) (districts st)) st in
  let st' := setSelectedSchool None st' in
  let currentQuery := trim (debouncedSchoolQuery st) in
  let newCacheKey := (if String.eqb leaId "" then "all" else leaId) +:+ "-" +:+ currentQuery in
  match schoolCache st' !! newCacheKey with
  | Some _ => setSchoolCache (delete newCacheKey (schoolCache st')) st'
  | None => st'
  end.

Section Controller.

Variable number_to_string : spec_float -> string.

(** The key [`${selectedDistrict?.LEAID || "all"}-${q}`]. *)
Definition cacheKeyOf (st : Session) (q : string) : Res string :=
  id ← toString number_to_string
         (if truthy (districtFilter st) then districtFilter st else JStr "all");
  Ok (id +:+ "-" +:+ q).

(** The synchronous part of the school effect: the state it leaves and the
    request it starts, if any. *)
Definition schoolEffect (st : Session) : Res (Session * option SchoolQuery) :=
  let q := trim (debouncedSchoolQuery st) in
  if (String.eqb q "" || Nat.ltb (String.length q) 2)
     && negb (bool_decide (is_Some (selectedDistrict st)))
  then Ok (setSelectedSchool None (setSchools [] st), None)
  else
    cacheKey ← cacheKeyOf st q;
    match schoolCache st !! cacheKey with
    | Some cached => Ok (setSchools cached st, None)
    | None =>
        Ok (setLoadingSchools true st,
            Some (mkSchoolQuery q (districtFilter st) cacheKey (selectedSchool st) false))
    end.

(** The promise chain [searchSchools(...).then(...).catch(...).finally(...)]
    of a started request, once the request settles against [net]. *)
Definition schoolSettles (net : Net) (query : SchoolQuery) (st : Session)
  : Session * list Event :=
  let run := searchSchools number_to_string net (q_aborted query)
               (q_text query) (q_district query) in
  match outcome run with
  | Ok res => (setLoadingSchools false (schoolThen query res st), trace run)
  | Throw err =>
      (setLoadingSchools false st,
       trace run ++ (if negb (String.eqb (ename err) "AbortError")
                     then [ConsoleError "School search error:" err] else []))
  end.

(** The page over time: the session and the requests started so far, the
    latest of which is the one the pending cleanup will abort. *)
Record Page := mkPage {
  session : Session;
  started : list SchoolQuery;
  cleanup : option nat
}.

Inductive Action :=
| Debounced (text : string)
| Settles (i : nat) (net : Net).

(** [Debounced text]: the debounced school text changes to [text]; React runs
    the cleanup of the previous effect, then the effect again.
    [Settles i net]: the promise of the [i]-th started request settles, the
    services answering as [net]. *)
Definition step (p : Page) (a : Action) : Res Page :=
  match a with
  | Debounced text =>
      let started' :=
        match cleanup p with
        | Some i => alter abort i (started p)
        | None => started p
        end in
      '(st, query) ← schoolEffect (setDebouncedSchoolQuery text (session p));
      match query with
      | Some query => Ok (mkPage st (started' ++ [query]) (Some (length started')))
      | None => Ok (mkPage st started' None)
      end
  | Settles i net =>
      match started p !! i with
      | Some query =>
          Ok (mkPage (schoolSettles net query (session p)).1 (started p) (cleanup p))
      | None => Ok p
      end
  end.

Fixpoint steps (p : Page) (l : list Action) : Res Page :=
  match l with
  | [] => Ok p
  | a :: rest => p' ← step p a; steps p' rest
  end.

End Controller.

Definition initialSession : Session := mkSession "" [] [] None None false ∅.
Definition initialPage : Page := mkPage initialSession [] None.

(** ** A runtime for the examples

    The properties below hold for every runtime. The examples run on a
    concrete one: a stable insertion sort, code-unit collation, and a number
    printer that is never reached, since the sample data print strings only. *)

Fixpoint insertBy {A} (cmp : A -> A -> Res Z) (x : A) (l : list A) : Res (list A) :=
  match l with
  | [] => Ok [x]
  | y :: rest =>
      c ← cmp x y;
      if (c <=? 0)%Z then Ok (x :: y :: rest)
      else rest' ← insertBy cmp x rest; Ok (y :: rest')
  end.

Fixpoint sortBy (A : Type) (cmp : A -> A -> Res Z) (l : list A) : Res (list A) :=
  match l with
  | [] => Ok []
  | x :: rest => sorted ← sortBy A cmp rest; insertBy cmp x sorted
  end.

Definition codeUnitCompare (s t : string) : Z :=
  match String.compare s t with
  | Lt => (-1)%Z
  | Eq => 0%Z
  | Gt => 1%Z
  end.

Definition printNothing (n : spec_float) : string := "".

(** The double nearest to an integer. *)
Definition number (z : Z) : JsVal := JNum (binary_normalize 53 1024 z 0 false).

(** ** Vocabulary of the properties *)

(** The value of [a.k] when [a] is neither [null] nor [undefined]. *)
Definition prop (a : JsVal) (k : string) : JsVal :=
  match a with
  | JObj _ props => default JUndefined (own props k)
  | _ => JUndefined
  end.

Definition is_zero (x : spec_float) : Prop :=
  match x with
  | S754_zero _ => True
  | _ => False
  end.

(** The first truthy value of a list of alternatives, else the last resort. *)
Fixpoint firstTruthy (vs : list JsVal) (otherwise : JsVal) : JsVal :=
  match vs with
  | [] => otherwise
  | v :: rest => if truthy v then v else firstTruthy rest otherwise
  end.

(** A canonical field resolved through an ordered list of source keys. *)
Definition pick (a : JsVal) (keys : list string) (otherwise : JsVal) : JsVal :=
  firstTruthy (prop a <$> keys) otherwise.

Definition primitive (v : JsVal) : bool :=
  match v with
  | JArr _ _ | JObj _ _ => false
  | _ => true
  end.

Definition attrLat (a : JsVal) : JsVal := pick a ["LAT"; "Y"; "lat"] (prop a "latitude").
Definition attrLon (a : JsVal) : JsVal := pick a ["LON"; "X"; "lon"] (prop a "longitude").

(** The coordinates after the geometry fallback. *)
Definition coordinatesOf (lat lon geometry : JsVal) : JsVal * JsVal :=
  if (negb (truthy lat) || negb (truthy lon)) && truthy geometry
  then (firstTruthy [prop geometry "y"] lat, firstTruthy [prop geometry "x"] lon)
  else (lat, lon).

(** The school record, field by field, as a table of source keys. *)
Definition schoolByKeys (a geometry : JsVal) : School.t :=
  let coords := coordinatesOf (attrLat a) (attrLon a) geometry in
  {| School.NAME := pick a ["NAME"; "SCH_NAME"; "SCHOOL_NAME"; "SchoolName"; "NAME_"] (JStr "");
     School.STREET := pick a ["STREET"; "MAIL_STREET"; "LSTREET1"; "ADDRESS"; "LSTREET"] (JStr "");
     School.CITY := pick a ["CITY"; "MAIL_CITY"; "LCITY"; "TOWN"] (JStr "");
     School.STATE := pick a ["STATE"; "ST"; "MAIL_STATE"; "LSTATE"] (JStr "");
     School.ZIP := pick a ["ZIP"; "MAIL_ZIP"; "LZIP"; "POSTAL"; "ZIP_CODE"] (JStr "");
     School.NCESSCH := pick a ["NCESSCH"; "SCHID"; "NCES_ID"; "NCES"] (JStr "");
     School.LEAID := pick a ["LEAID"; "LEA_ID"; "LEA"] (JStr "");
     School.OBJECTID := pick a ["OBJECTID"] (prop a "OBJECT_ID");
     School.LAT := coords.1;
     School.LON := coords.2;
     School.OPSTFIPS := pick a ["OPSTFIPS"] (prop a "STFIP");
     School.CNTY := pick a ["CNTY"] (prop a "COUNTY");
     School.NMCNTY := pick a ["NMCNTY"] (prop a "COUNTYNAME");
     School.LOCALE := prop a "LOCALE" |}.

(** The source name fields of a district, in the order they are tried. *)
Definition districtNameKeys : list string := ["DISTRICT"; "LEA_NAME"; "LEANM"].

(** The district identifier of a raw record, as the normalizer resolves it. *)
Definition districtId (a : JsVal) : JsVal := pick a ["LEAID"; "LEA_ID"; "LEA"] (JStr "").

(** The district record around its name, as a table of source keys. *)
Definition districtByKeys (a NAME : JsVal) : District.t :=
  {| District.OBJECTID := pick a ["OBJECTID"] (prop a "OBJECT_ID");
     District.LEAID := districtId a;
     District.NAME := NAME;
     District.LSTREE := pick a ["LSTREE"; "LSTREET"; "STREET"] (JStr "");
     District.LCITY := pick a ["LCITY"; "CITY"] (JStr "");
     District.LSTATE := pick a ["LSTATE"; "STATE"; "ST"] (JStr "");
     District.LZIP := pick a ["LZIP"; "ZIP"] (JStr "");
     District.LZIP4 := prop a "LZIP4";
     District.ST := pick a ["LSTATE"; "ST"; "STATE"; "STATE_CODE"] (JStr "");
     District.LAT1516 := pick a ["LAT1516"; "LAT"] (prop a "latitude");
     District.LON1516 := pick a ["LON1516"; "LON"] (prop a "longitude");
     District.STFIP15 := pick a ["STFIP15"] (prop a "STFIP");
     District.CNTY15 := pick a ["CNTY15"] (prop a "CNTY");
     District.NMCNTY15 := pick a ["NMCNTY15"] (prop a "NMCNTY") |}.

(** The statement of the specification about C7, C8 and C9, at one input. *)
Definition neverThrows (a geometry : JsVal) (number_to_string : spec_float -> string) : Prop :=
  returns (normalizeSchoolAttributes a geometry)
  /\ returns (normalizeDistrictAttributes number_to_string a).

Definition keepsAttributeCoordinates (a geometry : JsVal) : Prop :=
  forall r, normalizeSchoolAttributes a geometry = Ok r ->
    (truthy (attrLat a) = true -> School.LAT r = attrLat a)
    /\ (truthy (attrLon a) = true -> School.LON r = attrLon a).

Definition labelHoldsIdentifier (number_to_string : spec_float -> string) (a : JsVal) : Prop :=
  forall d id, normalizeDistrictAttributes number_to_string a = Ok d ->
    truthy (pick a districtNameKeys JUndefined) = false ->
    toString number_to_string (District.LEAID d) = Ok id ->
    District.NAME d = JStr ("District " +:+ id).

(** ** Sample data *)

Definition lincolnAttrs : JsVal :=
  JObj 2 [("NAME", JStr "Lincoln High"); ("CITY", JStr "Ogden"); ("STATE", JStr "UT");
          ("NCESSCH", JStr "111"); ("LEAID", JStr "4900600"); ("OBJECTID", number 7)].

Definition ogdenPoint : JsVal := JObj 3 [("x", number (-112)); ("y", number 41)].

(** A record that has its latitude but not its longitude. *)
Definition halfLocated : JsVal := JObj 1 [("LAT", number 40)].

(** A record that names its district through [LEA_ID] only. *)
Definition leaIdOnly : JsVal := JObj 1 [("LEA_ID", JStr "0100005")].

Definition emptyRecord : JsVal := JObj 1 [].

(** A record whose district identifier is an object that cannot be printed, as
    the JSON text [{"LEAID": {"toString": "x"}}] gives. *)
Definition unprintableLeaid : JsVal :=
  JObj 4 [("LEAID", JObj 5 [("toString", JStr "x")])].

(** A record whose last source fields hold falsy values. *)
Definition falsyHolder : JsVal :=
  JObj 6 [("OBJECT_ID", JNull); ("latitude", JBool false); ("longitude", number 0);
          ("LOCALE", JNull)].

(** Both services answer successfully, each with its own features. *)
Definition answering (privateFeatures publicFeatures : list JsVal) : Net :=
  fun url =>
    if String.prefix (services +:+ privateLayer) url
    then Arrives (mkResponse true (Ok (JObj 10 [("features", JArr 11 privateFeatures)])))
    else Arrives (mkResponse true (Ok (JObj 12 [("features", JArr 13 publicFeatures)]))).

Definition feature (ref : nat) (attributes : list (string * JsVal)) : JsVal :=
  JObj ref [("attributes", JObj (S ref) attributes); ("geometry", ogdenPoint)].

(** The same school from both catalogs, under the same identifier. *)
Definition lincoln111 (objectId : Z) : list (string * JsVal) :=
  [("NAME", JStr "Lincoln High"); ("CITY", JStr "Ogden"); ("STATE", JStr "UT");
   ("NCESSCH", JStr "111"); ("OBJECTID", number objectId)].

(** The same school, but the private catalog has no identifier for it. *)
Definition lincolnUnidentified : list (string * JsVal) :=
  [("NAME", JStr "Lincoln High"); ("CITY", JStr "Ogden"); ("STATE", JStr "UT");
   ("OBJECTID", number 7)].

(** ** Statements about the deduplicator *)

Definition earlier {A} (l : list A) (x y : A) : Prop :=
  exists i j, i < j /\ l !! i = Some x /\ l !! j = Some y.

(** C2, as stated: no two records share a non-empty identifier, and no two
    share (name, city, state) when either of them lacks an identifier. *)
Definition deduplicated (out : list School.t) : Prop :=
  forall x y, earlier out x y ->
    (truthy (School.NCESSCH x) = true -> sameId x y = false)
    /\ (truthy (School.NCESSCH x) = false \/ truthy (School.NCESSCH y) = false ->
        samePlace x y = false).

(** What the filter gives: a record is compared with the records before it, by
    identifier when it has one and by (name, city, state) when it has none. *)
Definition deduplicatedAgainstEarlier (out : list School.t) : Prop :=
  forall x y, earlier out x y ->
    if truthy (School.NCESSCH y) then sameId y x = false else samePlace y x = false.

(** Exactly one record of [out] carries the identifier of [s]. *)
Definition onceIn (out : list School.t) (s : School.t) : Prop :=
  exists i x, out !! i = Some x /\ sameId s x = true
    /\ forall j y, out !! j = Some y -> sameId s y = true -> j = i.

(** The way the filter compares a record with another one: by identifier when
    the record has one, by (name, city, state) when it has none. *)
Definition twin (school s : School.t) : bool :=
  if truthy (School.NCESSCH school) then sameId school s else samePlace school s.

Definition is_nan (v : JsVal) : bool :=
  match v with
  | JNum S754_nan => true
  | _ => false
  end.

(** First-seen order: [out] holds, in the order of [normalized], exactly the
    records that are the first of their kind, those which no record before them
    is a twin of. (A record is its own twin unless it has no identifier and its
    name, city or state is NaN, which no JSON text holds.) *)
Definition firstSeenOnly (normalized out : list School.t) : Prop :=
  exists positions,
    StronglySorted lt positions
    /\ Forall2 (fun i s => normalized !! i = Some s) positions out
    /\ forall i s, normalized !! i = Some s ->
         (i ∈ positions <->
          twin s s = true
          /\ forall j x, j < i -> normalized !! j = Some x -> twin s x = false).

(** ** Statements about the query executor *)

(** The response an executor works with once a [fetch] has settled and its
    [.catch] has run. *)
Definition caught (o : FetchOutcome) : Response :=
  match o with
  | Arrives res => res
  | Rejects _ => notOk
  end.

Definition settled (net : Net) (aborted : bool) (url : string) : Response :=
  caught (if aborted then Rejects AbortError else net url).

(** The features of both responses, private first. *)
Definition merged (privateRes publicRes : Response) : Res (list JsVal) :=
  privateJson ← bodyOf privateRes;
  publicJson ← bodyOf publicRes;
  privateFeatures ← featuresOf privateJson;
  publicFeatures ← featuresOf publicJson;
  Ok (privateFeatures ++ publicFeatures).

(** What a [try] block gives once its [catch] clause has swallowed the
    exception and returned the empty array. *)
Definition recovered {A} (body : Res (list A)) : Res (list A) :=
  match body with
  | Ok l => Ok l
  | Throw _ => Ok []
  end.

(** A source fails: the request is rejected, or the response is not a
    success. *)
Definition fails (o : FetchOutcome) : bool :=
  match o with
  | Rejects _ => true
  | Arrives res => negb (ok res)
  end.

(** The service at [url] answers with a success and no feature. *)
Definition emptyAt (url : string) (net : Net) : Net :=
  fun url' =>
    if String.eqb url' url then Arrives (mkResponse true (Ok noFeatures)) else net url'.

(** Both services answer with a success and no feature. *)
Definition nothingFound : Net := fun _ => Arrives (mkResponse true (Ok noFeatures)).

(** C3, as stated: a short text without district filter gives an empty list
    from both executors, with no request sent. *)
Definition silentWhenShort (number_to_string : spec_float -> string)
    (localeCompare : string -> string -> Z)
    (array_sort : forall A : Type, (A -> A -> Res Z) -> list A -> Res (list A))
    (net : Net) (name : string) : Prop :=
  String.length (trim name) < 2 ->
  searchSchoolDistricts number_to_string localeCompare array_sort net false name
    = mkEff [] (Ok [])
  /\ searchSchools number_to_string net false name JUndefined = mkEff [] (Ok []).

(** ** Statements about the controller *)

(** C5, as stated: a district change clears the school selection and drops
    the cache entry of the old filter and the current text. *)
Definition evictsOldFilter (number_to_string : spec_float -> string)
    (leaId : string) (st : Session) : Prop :=
  forall oldKey,
    cacheKeyOf number_to_string st (trim (debouncedSchoolQuery st)) = Ok oldKey ->
    selectedSchool (handleDistrictChange leaId st) = None
    /\ schoolCache (handleDistrictChange leaId st) !! oldKey = None.

(** The key [handleDistrictChange] computes. *)
Definition newCacheKey (leaId : string) (st : Session) : string :=
  (if String.eqb leaId "" then "all" else leaId) +:+ "-" +:+ trim (debouncedSchoolQuery st).

(** C6, as stated: the selection is matched by identifier, or by name and city
    when the identifier is absent. *)
Definition appearsPerSpec (selected s : School.t) : bool :=
  if truthy (School.NCESSCH selected)
  then strict_equals (School.NCESSCH s) (School.NCESSCH selected)
  else strict_equals (School.NAME s) (School.NAME selected)
       && strict_equals (School.CITY s) (School.CITY selected).

Definition keepsIffAppears (query : SchoolQuery) (res : list School.t) (st : Session) : Prop :=
  forall selected,
    q_selectedSchool query = Some selected ->
    selectedSchool st = Some selected ->
    (selectedSchool (schoolThen query res st) = Some selected
     <-> exists s, s ∈ res /\ appearsPerSpec selected s = true).

Definition sameNameAndCity (selected s : School.t) : bool :=
  strict_equals (School.NAME s) (School.NAME selected)
  && strict_equals (School.CITY s) (School.CITY selected).

(** Two districts of the sample state, and two schools of the same name and
    city under different identifiers. *)
Definition ogden : District.t :=
  districtByKeys (JObj 40 [("LEAID", JStr "4900600")]) (JStr "Ogden City District").
Definition weber : District.t :=
  districtByKeys (JObj 41 [("LEAID", JStr "4901140")]) (JStr "Weber District").

Definition school5 : School.t :=
  schoolByKeys (JObj 50 [("NCESSCH", JStr "5"); ("NAME", JStr "Lincoln High");
                         ("CITY", JStr "Ogden")]) JUndefined.
Definition school6 : School.t :=
  schoolByKeys (JObj 51 [("NCESSCH", JStr "6"); ("NAME", JStr "Lincoln High");
                         ("CITY", JStr "Ogden")]) JUndefined.

(** Another school of the same city. *)
Definition school7 : School.t :=
  schoolByKeys (JObj 52 [("NCESSCH", JStr "7"); ("NAME", JStr "Washington Elementary");
                         ("CITY", JStr "Ogden")]) JUndefined.

(** Ogden is selected, the text is "Lincoln", and the answer for that pair is
    cached. *)
Definition browsingOgden : Session :=
  mkSession "Lincoln" [ogden; weber] [school5] (Some ogden) (Some school5) false
    {["4900600-Lincoln" := [school5]]}.

Definition lincolnQuery : SchoolQuery :=
  mkSchoolQuery "Lincoln" (JStr "4900600") "4900600-Lincoln" (Some school5) false.

(** Both services know Lincoln High, whatever they are asked. *)
Definition lincolnEverywhere : Net :=
  answering [feature 20 (lincoln111 7)] [feature 30 (lincoln111 9)].

(** ** Further vocabulary: records, districts, traces *)

(** A text field of a canonical record: a truthy value or the empty string,
    never [null] or [undefined]. *)
Definition textual (v : JsVal) : Prop := truthy v = true \/ v = JStr "".

(** [f.attributes || f] and [attrs.LEAID || attrs.LEA_ID || attrs.LEA], for a
    feature that is neither [null] nor [undefined]. *)
Definition attributesOf (f : JsVal) : JsVal := firstTruthy [prop f "attributes"] f.
Definition leaKey (a : JsVal) : JsVal :=
  firstTruthy [prop a "LEAID"; prop a "LEA_ID"] (prop a "LEA").

Definition sameDistrict (d d' : District.t) : bool :=
  strict_equals (District.LEAID d) (District.LEAID d').

(** No two elements of the list are the same. *)
Inductive Apart {A} (same : A -> A -> bool) : list A -> Prop :=
| Apart_nil : Apart same []
| Apart_cons x l :
    Forall (fun y => same x y = false) l -> Apart same l -> Apart same (x :: l).

(** What a [.catch] handler of the district search writes to the console. *)
Definition rejection (label : string) (o : FetchOutcome) : list Event :=
  match o with
  | Rejects e => [ConsoleError label e]
  | Arrives _ => []
  end.

(** What [fetch] settles with. *)
Definition fetched (net : Net) (aborted : bool) (url : string) : FetchOutcome :=
  if aborted then Rejects AbortError else net url.

Definition is_fetch (ev : Event) : bool :=
  match ev with
  | Fetch _ => true
  | ConsoleError _ _ => false
  end.

(** What the [forEach] of the district search has collected from the features
    [fs] into [districtMap]: every entry is keyed by the truthy identifier of
    its district, which has a name; no two districts share an identifier; every
    district is the normalization of the first feature that carries its
    identifier; and every identified feature has its district in the map. *)
Definition Collected (number_to_string : spec_float -> string)
    (fs : list JsVal) (districtMap : DistrictMap) : Prop :=
  Forall (fun kd => truthy kd.1 = true /\ District.LEAID kd.2 = kd.1
                    /\ truthy (District.NAME kd.2) = true) districtMap
  /\ Apart sameDistrict (map_values districtMap)
  /\ (forall k d, (k, d) ∈ districtMap ->
        exists i f, fs !! i = Some f
          /\ leaKey (attributesOf f) = k
          /\ normalizeDistrictAttributes number_to_string (attributesOf f) = Ok d
          /\ forall j f', j < i -> fs !! j = Some f' ->
               strict_equals (leaKey (attributesOf f')) k = false)
  /\ (forall i f, fs !! i = Some f -> truthy (leaKey (attributesOf f)) = true ->
        exists d, d ∈ map_values districtMap
          /\ strict_equals (District.LEAID d) (leaKey (attributesOf f)) = true).

(** Three features, the first and the last of the same district. *)
Definition threeFeatures : list JsVal := [lincolnAttrs; leaIdOnly; lincolnAttrs].

Definition twoDistricts : DistrictMap :=
  [(JStr "4900600", districtByKeys lincolnAttrs (JStr "District 4900600"));
   (JStr "0100005", districtByKeys leaIdOnly (JStr "District Unknown"))].

(** The school record of a feature that is neither [null] nor [undefined],
    as a table of source keys. *)
Definition recordOf (f : JsVal) : School.t :=
  schoolByKeys (attributesOf f) (prop f "geometry").

Definition stringOrMissing (v : JsVal) : bool :=
  match v with
  | JStr _ | JUndefined | JNull => true
  | _ => false
  end.

(** A feature whose district can be named and sorted: its attributes hold
    strings, if anything, for the identifier the label prints and for the
    district names. *)
Definition plainFeature (f : JsVal) : Prop :=
  nullish f = false
  /\ Forall (fun k => stringOrMissing (prop (attributesOf f) k) = true)
       ("LEAID" :: districtNameKeys).

(** The private service is down; the public one knows Lincoln High and its
    district. *)
Definition lincolnOfOgden : JsVal := feature 30 (("LEAID", JStr "4900600") :: lincoln111 9).

Definition privateDown : Net :=
  fun url =>
    if String.prefix (services +:+ privateLayer) url
    then Rejects TypeError
    else answering [] [lincolnOfOgden] url.

(** What the [catch] clause of an executor writes to the console for the way
    its [try] block ended. *)
Definition swallowed {A} (label : string) (r : Res A) : list Event :=
  match r with
  | Ok _ => []
  | Throw e =>
      if negb (String.eqb (ename e) "AbortError") then [ConsoleError label e] else []
  end.

(** The characters [encodeURIComponent] lets through or produces: the
    unreserved ones, the percent sign and the hexadecimal digits. *)
Definition urlSafe (c : Ascii.ascii) : bool :=
  unreserved c || Nat.eqb (Ascii.nat_of_ascii c) 37.

(** The characters that delimit the parameters of a query string, and the
    space. *)
Definition delimiters : list Ascii.ascii :=
  Ascii.ascii_of_nat <$> [32; 35; 38; 43; 47; 61; 63].

(** ** Further vocabulary: the controller *)

(** The school effect goes past its guard: the text is long enough, or a
    district is selected. *)
Definition searchable (st : Session) : bool :=
  negb ((String.eqb (trim (debouncedSchoolQuery st)) ""
         || Nat.ltb (String.length (trim (debouncedSchoolQuery st))) 2)
        && negb (bool_decide (is_Some (selectedDistrict st)))).

(** Only the request the pending cleanup will abort has a live signal, and it
    is the last one started. *)
Definition OnlyLatestLive (p : Page) : Prop :=
  (forall i, cleanup p = Some i -> S i = length (started p))
  /\ (forall i query, started p !! i = Some query -> q_aborted query = false ->
        cleanup p = Some i).

(** The marker handed to the map for the selected school. *)
Record MarkerShape := mkMarker {
  m_id : JsVal;
  m_lat : JsVal;
  m_lng : JsVal;
  m_label : JsVal
}.

Section Details.

Variable number_to_string : spec_float -> string.

(** [v?.toString()]. The method of a number, a boolean, a string, an array and
    a plain object prints what [ToString] prints; an own [toString] property of
    a parsed object is not callable. *)
Definition optionalToString (v : JsVal) : Res JsVal :=
  if nullish v then Ok JUndefined
  else s ← toString number_to_string v; Ok (JStr s).

(** The location block of the details panel: rendered when the selected school
    has both coordinates, with one marker. *)
Definition mapMarker (selectedSchool : School.t) : Res (option MarkerShape) :=
  if truthy (School.LAT selectedSchool) && truthy (School.LON selectedSchool) then
    id ← Ok (School.NCESSCH selectedSchool)
         ||| optionalToString (School.OBJECTID selectedSchool) ||| str "school";
    label ← Ok (School.NAME selectedSchool) ||| str "School";
    Ok (Some (mkMarker id (School.LAT selectedSchool) (School.LON selectedSchool) label))
  else Ok None.

End Details.

(** A record located by its geometry only, and the session in which the
    request [lincolnQuery] was started. *)
Definition unlocated : JsVal := JObj 60 [("NAME", JStr "Lincoln High"); ("OBJECTID", number 7)].

(** The answer of a service that reports an error under a success status. *)
Definition errorEnvelope : JsVal :=
  JObj 70 [("error", JObj 71 [("code", number 400); ("message", JStr "Invalid query")])].

(** The private service answers with the error envelope, the public one knows
    Lincoln High. *)
Definition privateInError : Net :=
  fun url =>
    if String.prefix (services +:+ privateLayer) url
    then Arrives (mkResponse true (Ok errorEnvelope))
    else answering [] [feature 30 (lincoln111 9)] url.

(** ** Debounced search controller: the district pipeline of [Home] *)

(** The state the district effect owns besides the session. [districtCache]
    holds the own properties of [districtCache.current], a plain object keyed
    by the text searched. *)
Record DistrictSide := mkDistrictSide {
  debouncedDistrictQuery : string;
  loadingDistricts : bool;
  districtCache : gmap string (list District.t)
}.

Definition setDistricts (v : list District.t) (st : Session) : Session :=
  mkSession (debouncedSchoolQuery st) v (schools st) (selectedDistrict st)
    (selectedSchool st) (loadingSchools st) (schoolCache st).

(** The members every plain object inherits from [Object.prototype]; each is a
    function, or for [__proto__] the prototype itself, hence truthy. *)
Definition objectPrototype : list string :=
  ["constructor"; "__defineGetter__"; "__defineSetter__"; "hasOwnProperty";
   "__lookupGetter__"; "__lookupSetter__"; "isPrototypeOf"; "propertyIsEnumerable";
   "toString"; "valueOf"; "__proto__"; "toLocaleString"].

(** The read [districtCache.current[q]]: an own property, else an inherited
    member, else [undefined]. *)
Inductive CacheRead :=
| Cached (l : list District.t)
| Inherited
| Missing.

Definition readDistrictCache (cache : gmap string (list District.t)) (q : string)
  : CacheRead :=
  match cache !! q with
  | Some l => Cached l
  | None => if bool_decide (q ∈ objectPrototype) then Inherited else Missing
  end.

(** What [setDistricts] makes of an inherited member [Object.prototype[q]].
    React takes a function for a state updater and calls it, without a
    receiver, on the current list. [constructor] is [Object], which returns the
    array it is given: the state stays as it is. [toString] returns the string
    "[object Undefined]", which becomes the state; the other methods throw a
    TypeError for want of a receiver when React runs the updater while
    rendering; and [__proto__] is no function but [Object.prototype] itself,
    which becomes the state. In every case but the first the next render of
    [Home] throws, in the updater or on [districts.map]. *)
Definition updaterKeepsState (member : string) : bool := String.eqb member "constructor".

(** What one run of the district effect does: it shows a list without a
    request; or it starts a search for a text; or it breaks the page, the next
    render of [Home] throwing. *)
Inductive DistrictRun :=
| Shows (st : Session) (side : DistrictSide)
| Starts (st : Session) (side : DistrictSide) (q : string)
| Breaks.

Definition districtEffect (st : Session) (side : DistrictSide) : DistrictRun :=
  let q := trim (debouncedDistrictQuery side) in
  if String.eqb q "" || Nat.ltb (String.length q) 2 then
    Shows (setSelectedSchool None (setSelectedDistrict None (setDistricts [] st))) side
  else
    match readDistrictCache (districtCache side) q with
    | Cached l => Shows (setDistricts l st) side
    | Inherited => if updaterKeepsState q then Shows st side else Breaks
    | Missing =>
        Starts st (mkDistrictSide (debouncedDistrictQuery side) true (districtCache side)) q
    end.

Record DistrictQuery := mkDistrictQuery {
  dq_text : string;
  dq_aborted : bool
}.

Definition abortDistrict (query : DistrictQuery) : DistrictQuery :=
  mkDistrictQuery (dq_text query) true.

Record DistrictPage := mkDistrictPage {
  d_session : Session;
  d_side : DistrictSide;
  d_started : list DistrictQuery;
  d_cleanup : option nat
}.

Inductive DistrictAction :=
| DebouncedDistrict (text : string)
| SettlesDistrict (i : nat) (net : Net).

Section DistrictController.

Variable number_to_string : spec_float -> string.
Variable localeCompare : string -> string -> Z.
Variable array_sort : forall A : Type, (A -> A -> Res Z) -> list A -> Res (list A).

(** The promise chain [searchSchoolDistricts(...).then(...).catch(...)
    .finally(...)] of a started request, once it settles against [net]. The
    assignment [districtCache.current[q] = res] makes an own property: a request
    is started only for a text that is no member of [Object.prototype]. *)
Definition districtSettles (net : Net) (query : DistrictQuery)
    (st : Session) (side : DistrictSide) : Session * DistrictSide :=
  match outcome (searchSchoolDistricts number_to_string localeCompare array_sort
                   net (dq_aborted query) (dq_text query)) with
  | Ok res =>
      (setDistricts res st,
       mkDistrictSide (debouncedDistrictQuery side) false
         (<[dq_text query := res]> (districtCache side)))
  | Throw _ =>
      (st, mkDistrictSide (debouncedDistrictQuery side) false (districtCache side))
  end.

(** The district field over time, like [step] for the school field.
    [DebouncedDistrict text]: the debounced district text changes to [text];
    React runs the cleanup of the previous effect, then the effect again.
    [SettlesDistrict i net]: the promise of the [i]-th started request settles.
    [None] is the page broken by [Breaks]. *)
Definition districtStep (p : DistrictPage) (a : DistrictAction) : option DistrictPage :=
  match a with
  | DebouncedDistrict text =>
      let started' :=
        match d_cleanup p with
        | Some i => alter abortDistrict i (d_started p)
        | None => d_started p
        end in
      let side := mkDistrictSide text (loadingDistricts (d_side p))
                    (districtCache (d_side p)) in
      match districtEffect (d_session p) side with
      | Shows st side' => Some (mkDistrictPage st side' started' None)
      | Starts st side' q =>
          Some (mkDistrictPage st side' (started' ++ [mkDistrictQuery q false])
                  (Some (length started')))
      | Breaks => None
      end
  | SettlesDistrict i net =>
      match d_started p !! i with
      | Some query =>
          let '(st, side) := districtSettles net query (d_session p) (d_side p) in
          Some (mkDistrictPage st side (d_started p) (d_cleanup p))
      | None => Some p
      end
  end.

Fixpoint districtSteps (p : DistrictPage) (l : list DistrictAction) : option DistrictPage :=
  match l with
  | [] => Some p
  | a :: rest => p' ← districtStep p a; districtSteps p' rest
  end.

End DistrictController.

Definition initialDistrictPage : DistrictPage :=
  mkDistrictPage initialSession (mkDistrictSide "" false ∅) [] None.

(** The texts the district cache and the started requests hold are searchable
    texts, none of them a member of [Object.prototype]. *)
Definition PlainKeys (p : DistrictPage) : Prop :=
  (forall k l, districtCache (d_side p) !! k = Some l -> k ∉ objectPrototype)
  /\ Forall (fun query => dq_text query ∉ objectPrototype) (d_started p).

(** * Properties *)

(** ** Fallible computations *)

Lemma bind_Ok {A B} (a : A) (f : A -> Res B) : (Ok a ≫= f) = f a.
Proof. reflexivity. Qed.

Lemma bind_returns {A B} (m : Res A) (f : A -> Res B) b :
  (m ≫= f) = Ok b -> exists a, m = Ok a /\ f a = Ok b.
Proof. destruct m as [a|e]; simpl; [eauto | discriminate]. Qed.

Lemma get_prop a k : nullish a = false -> a # k = Ok (prop a k).
Proof. by destruct a. Qed.

Lemma get_returns a k v : a # k = Ok v -> nullish a = false.
Proof. by destruct a. Qed.

Lemma truthy_not_nullish v : truthy v = true -> nullish v = false.
Proof. by destruct v. Qed.

Lemma js_or_Ok v y : (Ok v ||| y) = if truthy v then Ok v else y.
Proof. reflexivity. Qed.

Lemma js_or_values v w : (Ok v ||| Ok w) = Ok (firstTruthy [v] w).
Proof. rewrite js_or_Ok. simpl. by destruct (truthy v). Qed.

Lemma firstTruthy_snoc vs d w :
  firstTruthy [firstTruthy vs d] w = firstTruthy (vs ++ [d]) w.
Proof.
  induction vs as [|v vs IH]; simpl; [done|].
  destruct (truthy v) eqn:Hv; simpl in *; [by rewrite Hv | exact IH].
Qed.

Lemma js_or_more vs d w :
  (Ok (firstTruthy vs d) ||| Ok w) = Ok (firstTruthy (vs ++ [d]) w).
Proof. by rewrite js_or_values, firstTruthy_snoc. Qed.

Lemma firstTruthy_falsy vs d :
  Forall (fun v => truthy v = false) vs -> firstTruthy vs d = d.
Proof. induction 1 as [|v vs Hv _ IH]; simpl; [done | by rewrite Hv]. Qed.

Lemma firstTruthy_truthy vs d :
  truthy (firstTruthy vs d) = false -> Forall (fun v => truthy v = false) vs /\ truthy d = false.
Proof.
  induction vs as [|v vs IH]; simpl; [by auto|].
  destruct (truthy v) eqn:Hv; [congruence|].
  intros H. destruct (IH H). auto.
Qed.

(** Rewrites a chain [x || y || ... || z] of property reads into the table
    form, leftmost operand first. *)
Ltac chains :=
  unfold str;
  repeat (rewrite js_or_more; simpl app) ;
  repeat (rewrite js_or_values; repeat (rewrite js_or_more; simpl app)).

(** ** Normalizer *)

Lemma resolveCoordinates_closed lat lon geometry :
  resolveCoordinates lat lon geometry = Ok (coordinatesOf lat lon geometry).
Proof.
  unfold resolveCoordinates, coordinatesOf.
  destruct ((negb (truthy lat) || negb (truthy lon)) && truthy geometry) eqn:E; [|done].
  apply andb_prop in E as [_ Hg]. apply truthy_not_nullish in Hg.
  rewrite !(get_prop _ _ Hg). by chains.
Qed.

Lemma normalizeSchoolAttributes_closed a geometry :
  nullish a = false ->
  normalizeSchoolAttributes a geometry = Ok (schoolByKeys a geometry).
Proof.
  intros Ha. unfold normalizeSchoolAttributes.
  rewrite !(get_prop _ _ Ha). chains. simpl.
  rewrite resolveCoordinates_closed. reflexivity.
Qed.

Lemma normalizeSchoolAttributes_nullish a geometry :
  nullish a = true -> normalizeSchoolAttributes a geometry = Throw TypeError.
Proof. by destruct a. Qed.

Section NormalizerFacts.

Variable number_to_string : spec_float -> string.
#[local] Abbreviation toString := (toString number_to_string).
#[local] Abbreviation normalizeDistrictAttributes :=
  (normalizeDistrictAttributes number_to_string).
#[local] Abbreviation districtLabel := (districtLabel number_to_string).

Lemma toString_primitive v : primitive v = true -> returns (toString v).
Proof. destruct v as [| |[]| | | |]; simpl; try discriminate; intros _; eexists; reflexivity. Qed.

Lemma districtLabel_closed a :
  nullish a = false ->
  districtLabel a =
    (id ← toString (firstTruthy [prop a "LEAID"] (JStr "Unknown"));
     Ok (JStr ("District " +:+ id))).
Proof. intros Ha. unfold districtLabel. rewrite (get_prop _ _ Ha). by chains. Qed.

Lemma firstTruthy_names x y z :
  firstTruthy [x; y; z] JUndefined =
    if truthy (firstTruthy [x; y] z) then firstTruthy [x; y] z else JUndefined.
Proof.
  simpl. destruct (truthy x) eqn:Hx; [by rewrite Hx|].
  destruct (truthy y) eqn:Hy; [by rewrite Hy | done].
Qed.

Lemma normalizeDistrictAttributes_closed a :
  nullish a = false ->
  normalizeDistrictAttributes a =
    (NAME ← (if truthy (pick a districtNameKeys JUndefined)
             then Ok (pick a districtNameKeys JUndefined) else districtLabel a);
     Ok (districtByKeys a NAME)).
Proof.
  intros Ha. unfold normalizeDistrictAttributes.
  rewrite !(get_prop _ _ Ha). chains. rewrite !bind_Ok.
  unfold pick, districtNameKeys. simpl fmap. rewrite firstTruthy_names, js_or_Ok.
  destruct (truthy (firstTruthy _ (prop a "LEANM"))) eqn:Hn.
  - rewrite Hn. reflexivity.
  - simpl truthy. cbv iota. destruct (districtLabel a); reflexivity.
Qed.

Lemma normalizeDistrictAttributes_nullish a :
  nullish a = true -> normalizeDistrictAttributes a = Throw TypeError.
Proof. by destruct a. Qed.

Lemma normalizeDistrictAttributes_unprintable a ref props :
  nullish a = false ->
  truthy (pick a districtNameKeys JUndefined) = false ->
  prop a "LEAID" = JObj ref props -> has_key "toString" props = true ->
  normalizeDistrictAttributes a = Throw TypeError.
Proof.
  intros Ha Hn Hid Hkey.
  rewrite (normalizeDistrictAttributes_closed _ Ha), Hn, (districtLabel_closed _ Ha).
  simpl firstTruthy. rewrite Hid. simpl. by rewrite Hkey.
Qed.

(** C7, as amended. With [null] or [undefined] as the raw record both
    normalizers throw a TypeError on the first property read. Any other raw
    value is normalized without an exception: the school record always; the
    district record whenever a source name field is truthy or the [LEAID]
    attribute is a primitive value, while it throws a TypeError when no source
    name is truthy and [LEAID] is an object with an own [toString] property,
    which the label cannot print. Every canonical field is the first truthy
    value among its source fields; when none of them is truthy it is the last
    resort of its chain: the empty string for the fields that end in [""], and
    for the others the value of the last source field as it is, [undefined]
    when the record lacks it and else the falsy value the record holds there. *)
Theorem normalizers_return a geometry :
  (nullish a = true ->
   normalizeSchoolAttributes a geometry = Throw TypeError
   /\ normalizeDistrictAttributes a = Throw TypeError)
  /\ (nullish a = false ->
      normalizeSchoolAttributes a geometry = Ok (schoolByKeys a geometry)
      /\ (truthy (pick a districtNameKeys JUndefined) = true
          \/ primitive (prop a "LEAID") = true ->
          exists NAME, normalizeDistrictAttributes a = Ok (districtByKeys a NAME))
      /\ (truthy (pick a districtNameKeys JUndefined) = false ->
          forall ref props,
            prop a "LEAID" = JObj ref props -> has_key "toString" props = true ->
            normalizeDistrictAttributes a = Throw TypeError)
      /\ (forall keys otherwise,
            Forall (fun k => truthy (prop a k) = false) keys ->
            pick a keys otherwise = otherwise)
      /\ (forall keys otherwise k before after,
            keys = before ++ k :: after ->
            Forall (fun k' => truthy (prop a k') = false) before ->
            truthy (prop a k) = true ->
            pick a keys otherwise = prop a k)).
Proof.
  split.
  { intros Ha. split;
      [by apply normalizeSchoolAttributes_nullish | by apply normalizeDistrictAttributes_nullish]. }
  intros Ha. split; [by apply normalizeSchoolAttributes_closed|]. split; [|split; [|split]].
  - intros H. rewrite (normalizeDistrictAttributes_closed _ Ha).
    destruct (truthy (pick a districtNameKeys JUndefined)) eqn:Hn; [by eexists|].
    destruct H as [H|H]; [done|].
    rewrite (districtLabel_closed _ Ha).
    destruct (toString_primitive (firstTruthy [prop a "LEAID"] (JStr "Unknown"))) as [s Hs].
    { simpl. by destruct (truthy (prop a "LEAID")). }
    rewrite Hs. by eexists.
  - intros Hn ref props Hid Hkey.
    by apply (normalizeDistrictAttributes_unprintable a ref props).
  - intros keys otherwise Hk. unfold pick. apply firstTruthy_falsy.
    by apply Forall_fmap.
  - intros keys otherwise k before after -> Hbefore Hk. unfold pick.
    rewrite fmap_app, fmap_cons.
    induction before as [|k' before IH]; simpl.
    + by rewrite Hk.
    + apply Forall_cons in Hbefore as [-> Hbefore]. by apply IH.
Qed.

(** C9, as amended. The district name is the first truthy one of the source
    name fields [DISTRICT], [LEA_NAME], [LEANM]. When none is, it is the label
    made of "District " and the record's [LEAID] attribute if that is present,
    and "District Unknown" if the record carries no identifier at all. *)
Theorem district_name a d :
  normalizeDistrictAttributes a = Ok d ->
  let named := pick a districtNameKeys JUndefined in
  (truthy named = true -> District.NAME d = named)
  /\ (truthy named = false -> truthy (prop a "LEAID") = true ->
      exists id, toString (prop a "LEAID") = Ok id
                 /\ District.NAME d = JStr ("District " +:+ id))
  /\ (truthy named = false -> truthy (districtId a) = false ->
      District.NAME d = JStr "District Unknown").
Proof.
  intros Hd named.
  assert (Ha : nullish a = false).
  { destruct a; try done; discriminate Hd. }
  rewrite (normalizeDistrictAttributes_closed _ Ha) in Hd. fold named in Hd.
  apply bind_returns in Hd as (NAME & HN & Hd). injection Hd as <-. simpl.
  repeat split.
  - intros Hn. rewrite Hn in HN. congruence.
  - intros Hn Hid. rewrite Hn, (districtLabel_closed _ Ha) in HN.
    simpl firstTruthy in HN. rewrite Hid in HN.
    apply bind_returns in HN as (id & Hs & HN). exists id.
    split; [exact Hs | by injection HN as <-].
  - intros Hn Hid. rewrite Hn, (districtLabel_closed _ Ha) in HN.
    apply firstTruthy_truthy in Hid as [Hfalsy _].
    apply Forall_cons in Hfalsy as [Hlea _].
    simpl firstTruthy in HN. rewrite Hlea in HN. by injection HN as <-.
Qed.

End NormalizerFacts.

(** C8, as amended. Latitude and longitude are first resolved from the
    attribute fields. When both are truthy, or no geometry is supplied, they are
    the result. When either is falsy and a geometry is supplied, each coordinate
    is the geometry's [y] / [x] if that is truthy, and the attribute's value
    otherwise. *)
Theorem coordinates_resolution a geometry r :
  normalizeSchoolAttributes a geometry = Ok r ->
  (School.LAT r, School.LON r) =
    if (negb (truthy (attrLat a)) || negb (truthy (attrLon a))) && truthy geometry
    then (firstTruthy [prop geometry "y"] (attrLat a),
          firstTruthy [prop geometry "x"] (attrLon a))
    else (attrLat a, attrLon a).
Proof.
  intros Hr.
  assert (Ha : nullish a = false).
  { destruct a; try done; discriminate Hr. }
  rewrite (normalizeSchoolAttributes_closed _ _ Ha) in Hr. injection Hr as <-.
  simpl. unfold coordinatesOf.
  by destruct ((negb (truthy (attrLat a)) || negb (truthy (attrLon a))) && truthy geometry).
Qed.

(** A record with falsy values in its last source fields keeps them: the
    object id is [null], the latitude [false], the longitude 0, the locale
    [null]; its text fields are empty strings. *)
Lemma normalizers_return_witness :
  nullish falsyHolder = false
  /\ exists r, normalizeSchoolAttributes falsyHolder JUndefined = Ok r
       /\ School.OBJECTID r = JNull /\ School.LAT r = JBool false
       /\ School.LON r = number 0 /\ School.LOCALE r = JNull
       /\ School.NAME r = JStr "" /\ School.NCESSCH r = JStr "".
Proof.
  split; [reflexivity|].
  exists (schoolByKeys falsyHolder JUndefined).
  split; [|by repeat split].
  exact (proj1 (proj2 (normalizers_return printNothing falsyHolder JUndefined) eq_refl)).
Defined.

(** C7 as stated fails: the district label cannot print an object that has an
    own [toString] property, and the normalizer throws. *)
Lemma unprintable_leaid_throws : ~ neverThrows unprintableLeaid JUndefined printNothing.
Proof. intros [_ [d Hd]]. discriminate Hd. Qed.

(** That record reaches the normalizer from a response: the district search
    swallows the TypeError, logs it and resolves with no district at all, the
    well-formed record of the other source included. *)
Example unprintable_leaid_voids_search :
  searchSchoolDistricts printNothing codeUnitCompare sortBy
    (answering [JObj 7 [("attributes", unprintableLeaid)]] [feature 30 (lincoln111 9)])
    false "Lincoln"
  = mkEff [Fetch (endpoint privateLayer (likeName "Lincoln") "500");
           Fetch (endpoint publicLayer (likeName "Lincoln") "500");
           ConsoleError "District search error:" TypeError]
          (Ok []).
Proof. vm_compute. reflexivity. Qed.

Lemma district_name_witness :
  normalizeDistrictAttributes printNothing lincolnAttrs
    = Ok (districtByKeys lincolnAttrs (JStr "District 4900600"))
  /\ exists id, toString printNothing (prop lincolnAttrs "LEAID") = Ok id
                /\ JStr "District 4900600" = JStr ("District " +:+ id).
Proof.
  split; [reflexivity|].
  exact (proj1 (proj2 (district_name printNothing lincolnAttrs
                         (districtByKeys lincolnAttrs (JStr "District 4900600")) eq_refl))
           eq_refl eq_refl).
Defined.

(** C9 as stated fails: a record without any identifier is labelled
    "District Unknown", which is not "District " followed by its (empty)
    identifier. *)
Lemma unknown_district_label : ~ labelHoldsIdentifier printNothing emptyRecord.
Proof.
  intros H.
  specialize (H (districtByKeys emptyRecord (JStr "District Unknown")) ""
                eq_refl eq_refl eq_refl).
  discriminate H.
Qed.

(** The label reads [LEAID] only: a record identified through [LEA_ID] gets
    the identifier in its [LEAID] field and "District Unknown" as its name. *)
Example lea_id_only_label :
  normalizeDistrictAttributes printNothing leaIdOnly
    = Ok (districtByKeys leaIdOnly (JStr "District Unknown"))
  /\ districtId leaIdOnly = JStr "0100005".
Proof. split; reflexivity. Qed.

Lemma coordinates_resolution_witness :
  normalizeSchoolAttributes halfLocated ogdenPoint = Ok (schoolByKeys halfLocated ogdenPoint)
  /\ (School.LAT (schoolByKeys halfLocated ogdenPoint),
      School.LON (schoolByKeys halfLocated ogdenPoint)) = (number 41, number (-112)).
Proof.
  split; [reflexivity|].
  exact (coordinates_resolution halfLocated ogdenPoint
           (schoolByKeys halfLocated ogdenPoint) eq_refl).
Defined.

(** C8 as stated fails: the latitude the attributes hold (40) is replaced by
    the geometry's (41) because the longitude is missing. *)
Lemma latitude_overwritten : ~ keepsAttributeCoordinates halfLocated ogdenPoint.
Proof.
  intros H. destruct (H (schoolByKeys halfLocated ogdenPoint) eq_refl) as [Hlat _].
  specialize (Hlat eq_refl). vm_compute in Hlat. discriminate Hlat.
Qed.

(** ** Strict equality *)

Lemma SFeqb_spec x y :
  SFeqb x y = true <-> (is_zero x /\ is_zero y) \/ (x = y /\ x <> S754_nan).
Proof.
  unfold SFeqb. split.
  - destruct x as [s| [] | |[] m e], y as [s'|[]| |[] m' e']; simpl; try discriminate;
      try (intros _; left; by split); try (intros _; right; by split).
    + destruct (Z.compare_spec e e') as [->| |]; try discriminate.
      rewrite Pos.compare_cont_spec. simpl Pos.switch_Eq.
      destruct (Pos.compare_spec m m') as [->| |]; simpl; try discriminate.
      intros _. right. by split.
    + destruct (Z.compare_spec e e') as [->| |]; try discriminate.
      rewrite Pos.compare_cont_spec. simpl Pos.switch_Eq.
      destruct (Pos.compare_spec m m') as [->| |]; simpl; try discriminate.
      intros _. right. by split.
  - intros [[Hx Hy]|[<- Hx]].
    + by destruct x, y.
    + destruct x as [s| [] | |[] m e]; simpl; try done;
        by rewrite Z.compare_refl, Pos.compare_cont_refl.
Qed.

Lemma SFeqb_congruence x y z : SFeqb x y = true -> SFeqb z x = SFeqb z y.
Proof.
  intros Hxy. apply Bool.eq_iff_eq_true. rewrite !SFeqb_spec.
  apply SFeqb_spec in Hxy as [[Hx Hy]|[<- _]]; [|done].
  split; (intros [[Hz _]|[-> Hn]]; [by left | by left]).
Qed.

Lemma SFeqb_sym x y : SFeqb x y = SFeqb y x.
Proof.
  apply Bool.eq_iff_eq_true. rewrite !SFeqb_spec.
  split; (intros [[? ?]|[-> ?]]; [by left | by right]).
Qed.

Lemma strict_equals_sym a b : strict_equals a b = strict_equals b a.
Proof.
  destruct a, b; simpl; try done.
  - by destruct b, b0.
  - apply SFeqb_sym.
  - apply String.eqb_sym.
  - apply Nat.eqb_sym.
  - apply Nat.eqb_sym.
Qed.

Lemma strict_equals_congruence a b c :
  strict_equals a b = true -> strict_equals c a = strict_equals c b.
Proof.
  destruct a, b; simpl; try discriminate; intros H; destruct c; simpl; try done.
  - apply Bool.eqb_prop in H. by subst.
  - by apply SFeqb_congruence.
  - apply String.eqb_eq in H. by subst.
  - apply Nat.eqb_eq in H. by subst.
  - apply Nat.eqb_eq in H. by subst.
Qed.

Lemma strict_equals_truthy a b : strict_equals a b = true -> truthy a = truthy b.
Proof.
  destruct a, b; simpl; try discriminate; try done.
  - intros H. apply Bool.eqb_prop in H. by subst.
  - intros H. apply SFeqb_spec in H as [[Hx Hy]|[<- _]]; [|done].
    by destruct n, n0.
  - intros H. apply String.eqb_eq in H. by subst.
Qed.

Lemma strict_equals_refl v : truthy v = true -> strict_equals v v = true.
Proof.
  destruct v; simpl; try done.
  - by destruct b.
  - intros H. apply SFeqb_spec. right. split; [done|]. by intros ->.
  - intros _. apply String.eqb_refl.
  - intros _. apply Nat.eqb_refl.
  - intros _. apply Nat.eqb_refl.
Qed.

(** ** Deduplicator *)

Section ArrayCallbacks.

Context {A : Type}.
Implicit Types (l : list A) (p : A -> bool) (keep : A -> nat -> bool).

Lemma findIndex_Some p l j :
  findIndex p l = Some j ->
  (exists y, l !! j = Some y /\ p y = true)
  /\ forall i x, i < j -> l !! i = Some x -> p x = false.
Proof.
  revert j. induction l as [|z l IH]; intros j; simpl; [discriminate|].
  destruct (p z) eqn:Hz.
  - intros [= <-]. split; [by exists z | intros; lia].
  - destruct (findIndex p l) as [j'|]; simpl; [|discriminate].
    intros [= <-]. destruct (IH j' eq_refl) as [Hat Hbefore]. split; [exact Hat|].
    intros [|i] x Hi; simpl; [by intros [= <-]|].
    apply Hbefore. lia.
Qed.

Lemma findIndex_first p l j y :
  l !! j = Some y -> p y = true ->
  exists i, i <= j /\ findIndex p l = Some i.
Proof.
  revert j. induction l as [|z l IH]; intros j; [done|]. simpl.
  destruct (p z) eqn:Hz; [exists 0; split; [lia | done]|].
  destruct j as [|j]; simpl.
  - intros [= ->]. congruence.
  - intros Hj Hy. destruct (IH j Hj Hy) as (i & Hi & ->). exists (S i). split; [lia | done].
Qed.

Lemma findIndex_exact p l j y :
  l !! j = Some y -> p y = true ->
  (forall i x, i < j -> l !! i = Some x -> p x = false) ->
  findIndex p l = Some j.
Proof.
  intros Hj Hy Hbefore.
  destruct (findIndex_first p l j y Hj Hy) as (i & Hi & Hfound).
  destruct (findIndex_Some p l i Hfound) as [(z & Hz & Hpz) _].
  destruct (decide (i = j)) as [->|Hne]; [done|].
  assert (i < j) as Hlt by lia. rewrite (Hbefore i z Hlt Hz) in Hpz. discriminate.
Qed.

Lemma is_index_Some found index : is_index found index = true -> found = Some index.
Proof. destruct found as [i|]; simpl; [|done]. by intros ->%Nat.eqb_eq. Qed.

Lemma filter_from_sublist i keep l : sublist (filter_from i keep l) l.
Proof.
  revert i. induction l as [|z l IH]; intros i; simpl; [constructor|].
  destruct (keep z i); by constructor.
Qed.

Lemma filter_from_lookup i keep l a x :
  filter_from i keep l !! a = Some x ->
  exists m, l !! m = Some x /\ keep x (i + m) = true.
Proof.
  revert i a. induction l as [|z l IH]; intros i a; simpl; [done|].
  destruct (keep z i) eqn:Hz.
  - destruct a as [|a]; simpl.
    + intros [= <-]. exists 0. by rewrite Nat.add_0_r.
    + intros (m & Hm & Hk)%IH. exists (S m). by rewrite Nat.add_succ_r.
  - intros (m & Hm & Hk)%IH. exists (S m). by rewrite Nat.add_succ_r.
Qed.

Lemma filter_from_kept i keep l m x :
  l !! m = Some x -> keep x (i + m) = true ->
  exists a, filter_from i keep l !! a = Some x.
Proof.
  revert i m. induction l as [|z l IH]; intros i m; [done|].
  destruct m as [|m]; simpl.
  - intros [= ->]. rewrite Nat.add_0_r. intros ->. by exists 0.
  - rewrite Nat.add_succ_r. intros Hm Hk.
    destruct (IH (S i) m Hm Hk) as [a Ha].
    destruct (keep z i); [by exists (S a) | by exists a].
Qed.

Lemma filter_from_earlier i keep l x y :
  earlier (filter_from i keep l) x y ->
  exists m n, m < n /\ l !! m = Some x /\ l !! n = Some y
              /\ keep x (i + m) = true /\ keep y (i + n) = true.
Proof.
  intros (a & b & Hab & Ha & Hb). revert i a b Hab Ha Hb.
  induction l as [|z l IH]; intros i a b Hab; simpl; [done|].
  assert (Hshift : forall a b, a < b ->
            filter_from (S i) keep l !! a = Some x ->
            filter_from (S i) keep l !! b = Some y ->
            exists m n, m < n /\ (z :: l) !! m = Some x /\ (z :: l) !! n = Some y
                        /\ keep x (i + m) = true /\ keep y (i + n) = true).
  { intros a' b' Hab' Ha' Hb'.
    destruct (IH (S i) a' b' Hab' Ha' Hb') as (m & n & Hmn & Hm & Hn & Hkm & Hkn).
    exists (S m), (S n). rewrite !Nat.add_succ_r. repeat split; [lia|done..]. }
  destruct (keep z i) eqn:Hz; [|by apply Hshift].
  destruct a as [|a], b as [|b]; simpl; try lia.
  - intros [= <-] (n & Hn & Hk)%filter_from_lookup.
    exists 0, (S n). rewrite Nat.add_0_r, Nat.add_succ_r. repeat split; [lia|done..].
  - apply Hshift. lia.
Qed.

Lemma is_index_first p l m x :
  l !! m = Some x ->
  is_index (findIndex p l) m = true
  <-> p x = true /\ forall j y, j < m -> l !! j = Some y -> p y = false.
Proof.
  intros Hm. split.
  - intros [(y & Hy & Hp) Hbefore]%is_index_Some%findIndex_Some.
    split; [congruence | exact Hbefore].
  - intros [Hp Hbefore]. rewrite (findIndex_exact p l m x Hm Hp Hbefore).
    simpl. apply Nat.eqb_refl.
Qed.

(** The elements a [filter] keeps, by their positions in the array. *)
Lemma filter_from_positions i keep l :
  exists positions,
    StronglySorted lt positions
    /\ Forall2 (fun m x => l !! m = Some x) positions (filter_from i keep l)
    /\ forall m x, l !! m = Some x -> (m ∈ positions <-> keep x (i + m) = true).
Proof.
  revert i. induction l as [|z l IH]; intros i.
  - exists []. split; [constructor|]. split; [constructor|]. by intros m x.
  - destruct (IH (S i)) as (positions & Hsorted & Hat & Hiff).
    assert (Hsorted' : StronglySorted lt (S <$> positions)).
    { apply (StronglySorted_fmap S lt lt); [|exact Hsorted]. intros a b. lia. }
    assert (Hat' : Forall2 (fun m x => (z :: l) !! m = Some x) (S <$> positions)
                     (filter_from (S i) keep l)).
    { apply Forall2_fmap_l. exact Hat. }
    assert (Hzero : 0 ∉ S <$> positions).
    { intros (a & Ha & _)%list_elem_of_fmap. lia. }
    assert (Hsucc : forall m, S m ∈ S <$> positions <-> m ∈ positions).
    { intros m. split.
      - intros (a & [= ->] & Ha)%list_elem_of_fmap. exact Ha.
      - intros Hm. apply list_elem_of_fmap. by exists m. }
    simpl. destruct (keep z i) eqn:Hz.
    + exists (0 :: (S <$> positions)). split; [|split].
      * constructor; [exact Hsorted'|].
        apply Forall_forall. intros a (b & -> & _)%list_elem_of_fmap. lia.
      * by constructor.
      * intros [|m] x; simpl.
        -- intros [= <-]. rewrite Nat.add_0_r, Hz. split; [done|]. intros _. by left.
        -- intros Hm. rewrite Nat.add_succ_r, <- (Hiff m x Hm), <- Hsucc.
           split; [by intros [[=]|H]%elem_of_cons | by right].
    + exists (S <$> positions). split; [exact Hsorted'|]. split; [exact Hat'|].
      intros [|m] x; simpl.
      * intros [= <-]. rewrite Nat.add_0_r, Hz. split; [by intros ?%Hzero | done].
      * intros Hm. by rewrite Nat.add_succ_r, <- (Hiff m x Hm), Hsucc.
Qed.

End ArrayCallbacks.

Lemma strict_equals_self v : is_nan v = false -> strict_equals v v = true.
Proof.
  destruct v as [| |b|n|s|r l|r l]; simpl; try done.
  - by destruct b.
  - intros Hn. apply SFeqb_spec. right. split; [done|]. by intros ->.
  - intros _. apply String.eqb_refl.
  - intros _. apply Nat.eqb_refl.
  - intros _. apply Nat.eqb_refl.
Qed.

Lemma twin_self s :
  is_nan (School.NAME s) = false -> is_nan (School.CITY s) = false ->
  is_nan (School.STATE s) = false ->
  twin s s = true.
Proof.
  intros Hn Hc Hs. unfold twin, sameId, samePlace.
  destruct (truthy (School.NCESSCH s)) eqn:E; [by apply strict_equals_refl|].
  by rewrite !strict_equals_self.
Qed.

Lemma firstOfItsKind_twin self school index :
  firstOfItsKind self school index = is_index (findIndex (twin school) self) index.
Proof. unfold firstOfItsKind, twin. by destruct (truthy (School.NCESSCH school)). Qed.

(** The filter keeps the records that are the first of their kind, where they
    were. *)
Lemma unique_first_seen normalized : firstSeenOnly normalized (unique normalized).
Proof.
  destruct (filter_from_positions 0 (firstOfItsKind normalized) normalized)
    as (positions & Hsorted & Hat & Hiff).
  exists positions. split; [exact Hsorted|]. split; [exact Hat|].
  intros i s Hi. rewrite (Hiff i s Hi). simpl.
  rewrite firstOfItsKind_twin. by apply is_index_first.
Qed.

Lemma unique_sublist normalized : sublist (unique normalized) normalized.
Proof. apply filter_from_sublist. Qed.

Lemma unique_against_earlier normalized : deduplicatedAgainstEarlier (unique normalized).
Proof.
  intros x y (m & n & Hmn & Hm & Hn & _ & Hy)%filter_from_earlier.
  unfold firstOfItsKind in Hy. simpl in Hy.
  destruct (truthy (School.NCESSCH y));
    apply is_index_Some, findIndex_Some in Hy as [_ Hbefore]; by apply (Hbefore m).
Qed.

Lemma sameId_congruence s x y : sameId s x = true -> sameId x y = sameId s y.
Proof.
  unfold sameId. intros H. by apply strict_equals_congruence.
Qed.

Lemma findIndex_ext {A} (p q : A -> bool) l :
  (forall x, p x = q x) -> findIndex p l = findIndex q l.
Proof. intros H. induction l as [|z l IH]; simpl; [done|]. by rewrite H, IH. Qed.

Lemma unique_once normalized s :
  s ∈ normalized -> truthy (School.NCESSCH s) = true -> onceIn (unique normalized) s.
Proof.
  intros (j & Hj)%list_elem_of_lookup Hs.
  assert (Hss : sameId s s = true) by by apply strict_equals_refl.
  destruct (findIndex_first (sameId s) normalized j s Hj Hss) as (i & _ & Hi).
  destruct (findIndex_Some _ _ _ Hi) as [(z & Hz & Hsz) _].
  assert (Hzt : truthy (School.NCESSCH z) = true).
  { unfold sameId in Hsz. apply strict_equals_truthy in Hsz. congruence. }
  assert (Hkeep : firstOfItsKind normalized z (0 + i) = true).
  { unfold firstOfItsKind. rewrite Hzt.
    rewrite (findIndex_ext (sameId z) (sameId s)), Hi; [simpl; apply Nat.eqb_refl|].
    intros t. by apply sameId_congruence. }
  destruct (filter_from_kept 0 _ _ _ _ Hz Hkeep) as [a Ha].
  exists a, z. split; [exact Ha|]. split; [exact Hsz|].
  intros b y Hb Hsy.
  assert (Hyz : sameId y z = true).
  { rewrite (sameId_congruence s y z Hsy). exact Hsz. }
  assert (Hzy : sameId z y = true).
  { rewrite (sameId_congruence s z y Hsz). exact Hsy. }
  assert (Hyt : truthy (School.NCESSCH y) = true).
  { unfold sameId in Hsy. apply strict_equals_truthy in Hsy. congruence. }
  destruct (Nat.lt_trichotomy b a) as [Hlt|[->|Hlt]]; [|done|].
  - pose proof (unique_against_earlier normalized y z) as H.
    rewrite Hzt in H. rewrite H in Hzy; [done|]. by exists b, a.
  - pose proof (unique_against_earlier normalized z y) as H.
    rewrite Hyt in H. rewrite H in Hyz; [done|]. by exists a, b.
Qed.

Lemma unique_deduplicates normalized :
  sublist (unique normalized) normalized
  /\ deduplicatedAgainstEarlier (unique normalized)
  /\ forall s, s ∈ normalized -> truthy (School.NCESSCH s) = true ->
       onceIn (unique normalized) s.
Proof.
  split; [apply unique_sublist|]. split; [apply unique_against_earlier|].
  apply unique_once.
Qed.

(** C2 as stated fails: a record without identifier is not compared with a
    later record that has one. The private catalog knows Lincoln High without
    an identifier, the public one with it, and both records are returned. *)
Lemma unidentified_twin_survives :
  exists out,
    outcome (searchSchools printNothing
               (answering [feature 20 lincolnUnidentified] [feature 30 (lincoln111 9)])
               false "Lincoln" JUndefined) = Ok out
    /\ ~ deduplicated out.
Proof.
  eexists. split; [vm_compute; reflexivity|].
  intros H.
  match type of H with deduplicated [?x; ?y] =>
    assert (He : earlier [x; y] x y) by (exists 0, 1; repeat split; lia);
    destruct (H x y He) as [_ Hplace]
  end.
  specialize (Hplace (or_introl eq_refl)). vm_compute in Hplace. discriminate Hplace.
Qed.

(** The scenario of the specification: the same identifier from both catalogs,
    under different object ids, gives one record, the private one. *)
Example one_lincoln :
  outcome (searchSchools printNothing
             (answering [feature 20 (lincoln111 7)] [feature 30 (lincoln111 9)])
             false "Lincoln" JUndefined)
  = Ok [schoolByKeys (JObj 21 (lincoln111 7)) ogdenPoint].
Proof. vm_compute. reflexivity. Qed.

(** ** Query executor *)

Section ExecutorFacts.

Variable number_to_string : spec_float -> string.
Variable localeCompare : string -> string -> Z.
Variable array_sort : forall A : Type, (A -> A -> Res Z) -> list A -> Res (list A).

#[local] Abbreviation schools := (searchSchools number_to_string).
#[local] Abbreviation districtsFor :=
  (searchSchoolDistricts number_to_string localeCompare array_sort).
#[local] Abbreviation whereOf := (schoolWhere number_to_string).

Lemma outcome_bind {A B} (m : Eff A) (f : A -> Eff B) :
  outcome (m ≫= f) = (outcome m ≫= fun a => outcome (f a)).
Proof. unfold mbind, Eff_bind, Res_bind. by destruct (outcome m). Qed.

Lemma outcome_lift {A} (r : Res A) : outcome (lift r) = r.
Proof. reflexivity. Qed.

Lemma outcome_onError {A} label e : outcome (@onError A label e) = Ok [].
Proof. unfold onError. by destruct (String.eqb (ename e) "AbortError"). Qed.

Lemma outcome_try_catch {A} (body : Eff (list A)) label :
  outcome (try_catch body (onError label)) = recovered (outcome body).
Proof.
  unfold try_catch, recovered. destruct (outcome body) eqn:E; [done|].
  apply outcome_onError.
Qed.

Lemma outcome_caughtQuiet o : outcome (caughtQuiet o) = Ok (caught o).
Proof. by destruct o. Qed.

Lemma outcome_caughtLogged label o : outcome (caughtLogged label o) = Ok (caught o).
Proof. by destruct o. Qed.

Lemma outcome_fetchBoth net aborted url1 h1 url2 h2 :
  (forall o, outcome (h1 o) = Ok (caught o)) ->
  (forall o, outcome (h2 o) = Ok (caught o)) ->
  outcome (fetchBoth net aborted url1 h1 url2 h2)
  = Ok (settled net aborted url1, settled net aborted url2).
Proof.
  intros H1 H2. unfold fetchBoth.
  rewrite outcome_bind. change (outcome (fetch net aborted url1)) with
    (Ok (if aborted then Rejects AbortError else net url1)).
  rewrite bind_Ok, outcome_bind. change (outcome (fetch net aborted url2)) with
    (Ok (if aborted then Rejects AbortError else net url2)).
  by rewrite bind_Ok, outcome_bind, H1, bind_Ok, outcome_bind, H2, bind_Ok.
Qed.

(** What a school search resolves with, freed of its trace. *)
Lemma searchSchools_outcome net aborted name districtLEAID :
  outcome (schools net aborted name districtLEAID) =
    recovered
      (whereClause ← whereOf name districtLEAID;
       combined ← merged (settled net aborted (endpoint privateLayer whereClause "100"))
                         (settled net aborted (endpoint publicLayer whereClause "100"));
       normalized ← sequence (map normalizeFeature combined);
       Ok (unique normalized)).
Proof.
  unfold searchSchools. rewrite outcome_try_catch. f_equal.
  rewrite outcome_bind, outcome_lift.
  destruct (whereOf name districtLEAID) as [w|e]; [|done]. rewrite !bind_Ok.
  rewrite outcome_bind, outcome_fetchBoth, bind_Ok by apply outcome_caughtQuiet.
  unfold merged.
  rewrite outcome_bind, outcome_lift.
  destruct (bodyOf (settled net aborted (endpoint privateLayer w "100"))); [|done].
  rewrite !bind_Ok, outcome_bind, outcome_lift.
  destruct (bodyOf (settled net aborted (endpoint publicLayer w "100"))); [|done].
  rewrite !bind_Ok, outcome_bind, outcome_lift.
  destruct (featuresOf a); [|done].
  rewrite !bind_Ok, outcome_bind, outcome_lift.
  destruct (featuresOf a0); [|done].
  rewrite !bind_Ok, outcome_bind, outcome_lift.
  by destruct (sequence _).
Qed.

Lemma searchSchoolDistricts_short net aborted name :
  String.length (trim name) < 2 ->
  districtsFor net aborted name = mkEff [] (Ok []).
Proof.
  intros Hshort. unfold searchSchoolDistricts.
  apply Nat.ltb_lt in Hshort. rewrite Hshort, orb_true_r. reflexivity.
Qed.

(** C2, as amended. A school search resolves with the deduplicated list of
    the normalized records of both sources, private first (of no record, when
    an exception was swallowed). That list keeps the records in first-seen
    order; no record of it has the non-empty identifier of a record before it;
    no record without identifier has the (name, city, state) of a record before
    it; and an identifier present among the normalized records is carried by
    exactly one record of the result. First-seen order is meant in full: the
    result holds, at increasing positions of the normalized list, exactly the
    records that no earlier record is a twin of, so a record without earlier
    twin is always kept, whether or not it has an identifier. *)
Theorem searchSchools_deduplicates net aborted name districtLEAID :
  exists normalized,
    outcome (schools net aborted name districtLEAID) = Ok (unique normalized)
    /\ (forall whereClause combined records,
          whereOf name districtLEAID = Ok whereClause ->
          merged (settled net aborted (endpoint privateLayer whereClause "100"))
                 (settled net aborted (endpoint publicLayer whereClause "100")) = Ok combined ->
          sequence (map normalizeFeature combined) = Ok records ->
          normalized = records)
    /\ sublist (unique normalized) normalized
    /\ deduplicatedAgainstEarlier (unique normalized)
    /\ (forall s, s ∈ normalized -> truthy (School.NCESSCH s) = true ->
         onceIn (unique normalized) s)
    /\ firstSeenOnly normalized (unique normalized)
    /\ (forall s, is_nan (School.NAME s) = false -> is_nan (School.CITY s) = false ->
         is_nan (School.STATE s) = false -> twin s s = true).
Proof.
  assert (Hall : forall normalized,
            sublist (unique normalized) normalized
            /\ deduplicatedAgainstEarlier (unique normalized)
            /\ (forall s, s ∈ normalized -> truthy (School.NCESSCH s) = true ->
                 onceIn (unique normalized) s)
            /\ firstSeenOnly normalized (unique normalized)
            /\ (forall s, is_nan (School.NAME s) = false ->
                 is_nan (School.CITY s) = false ->
                 is_nan (School.STATE s) = false -> twin s s = true)).
  { intros normalized. destruct (unique_deduplicates normalized) as (H1 & H2 & H3).
    repeat split; [exact H1 | exact H2 | exact H3 | apply unique_first_seen | apply twin_self]. }
  rewrite searchSchools_outcome.
  destruct (whereOf name districtLEAID) as [w|] eqn:Hw; simpl;
    [|exists []; split; [done|]; split; [done|]; apply Hall].
  destruct (merged _ _) as [combined|] eqn:Hm; simpl;
    [|exists []; split; [done|]; split; [|apply Hall];
      intros ? ? ? [= <-]; congruence].
  destruct (sequence _) as [records|] eqn:Hs; simpl.
  - exists records. split; [done|]. split; [|apply Hall].
    intros ? ? ? [= <-]. congruence.
  - exists []. split; [done|]. split; [|apply Hall].
    intros ? ? ? [= <-]. congruence.
Qed.

(** What a district search that is long enough resolves with. *)
Lemma searchSchoolDistricts_outcome net aborted name :
  2 <= String.length (trim name) ->
  outcome (districtsFor net aborted name) =
    recovered
      (let whereClause := likeName (trim name) in
       allSchools ← merged (settled net aborted (endpoint privateLayer whereClause "500"))
                           (settled net aborted (endpoint publicLayer whereClause "500"));
       districtMap ← forEach (collect number_to_string) allSchools [];
       array_sort _ (byName number_to_string localeCompare) (map_values districtMap)).
Proof.
  intros Hlong. unfold searchSchoolDistricts.
  assert (String.eqb name "" = false) as ->.
  { apply String.eqb_neq. intros ->. simpl in Hlong. lia. }
  assert (Nat.ltb (String.length (trim name)) 2 = false) as -> by (apply Nat.ltb_ge; lia).
  simpl orb. cbv iota. rewrite outcome_try_catch. f_equal. cbv zeta.
  rewrite outcome_bind, outcome_fetchBoth, bind_Ok by apply outcome_caughtLogged.
  unfold merged.
  rewrite outcome_bind, outcome_lift.
  destruct (bodyOf (settled net aborted (endpoint privateLayer _ "500"))); [|done].
  rewrite !bind_Ok, outcome_bind, outcome_lift.
  destruct (bodyOf (settled net aborted (endpoint publicLayer _ "500"))); [|done].
  rewrite !bind_Ok, outcome_bind, outcome_lift.
  destruct (featuresOf a); [|done].
  rewrite !bind_Ok, outcome_bind, outcome_lift.
  destruct (featuresOf a0); [|done].
  rewrite !bind_Ok, outcome_bind, outcome_lift.
  by destruct (forEach _ _ _).
Qed.

Lemma recovered_returns {A} (body : Res (list A)) : returns (recovered body).
Proof. destruct body; eexists; reflexivity. Qed.

Lemma searchSchools_returns net aborted name districtLEAID :
  returns (outcome (schools net aborted name districtLEAID)).
Proof. rewrite searchSchools_outcome. apply recovered_returns. Qed.

Lemma searchSchoolDistricts_returns net aborted name :
  returns (outcome (districtsFor net aborted name)).
Proof.
  destruct (Nat.lt_ge_cases (String.length (trim name)) 2) as [Hshort|Hlong].
  - rewrite searchSchoolDistricts_short by done. by eexists.
  - rewrite searchSchoolDistricts_outcome by done. apply recovered_returns.
Qed.

(** *** Traces *)

Lemma trace_lift_bind {A B} (r : Res A) (f : A -> Eff B) :
  trace (lift r ≫= f) = match r with Ok a => trace (f a) | Throw _ => [] end.
Proof. by destruct r. Qed.

Lemma trace_bind {A B} (m : Eff A) (f : A -> Eff B) :
  trace (m ≫= f) = trace m ++ match outcome m with Ok a => trace (f a) | Throw _ => [] end.
Proof.
  unfold mbind, Eff_bind. destruct (outcome m); simpl; [done|]. by rewrite app_nil_r.
Qed.

Lemma after_two_events (a b : Event) l log :
  l ++ log = log -> ([a; b] ++ l) ++ log = a :: b :: log.
Proof. intros H. by rewrite <- app_assoc, H. Qed.

Lemma trace_fetchBoth_quiet net aborted url1 url2 :
  trace (fetchBoth net aborted url1 caughtQuiet url2 caughtQuiet) = [Fetch url1; Fetch url2].
Proof.
  unfold fetchBoth, fetch.
  by destruct (if aborted then Rejects AbortError else net url1),
              (if aborted then Rejects AbortError else net url2).
Qed.

Lemma trace_try_catch {A} (body : Eff A) handler :
  exists log, trace (try_catch body handler) = trace body ++ log.
Proof.
  unfold try_catch. destruct (outcome body).
  - exists []. by rewrite app_nil_r.
  - by eexists.
Qed.

(** A school search sends both requests whatever its text. *)
Lemma searchSchools_trace net aborted name districtLEAID whereClause :
  whereOf name districtLEAID = Ok whereClause ->
  exists log,
    trace (schools net aborted name districtLEAID) =
      Fetch (endpoint privateLayer whereClause "100")
      :: Fetch (endpoint publicLayer whereClause "100") :: log.
Proof.
  intros Hw. unfold searchSchools.
  match goal with |- context [trace (try_catch ?body ?handler)] =>
    destruct (trace_try_catch body handler) as [log ->]
  end.
  exists log. rewrite trace_lift_bind, Hw. cbv zeta.
  rewrite trace_bind, trace_fetchBoth_quiet, outcome_fetchBoth by apply outcome_caughtQuiet.
  apply after_two_events.
  rewrite trace_lift_bind. destruct (bodyOf _); [|done].
  rewrite trace_lift_bind. destruct (bodyOf _); [|done].
  rewrite trace_lift_bind. destruct (featuresOf _); [|done].
  rewrite trace_lift_bind. destruct (featuresOf _); [|done].
  rewrite trace_lift_bind. by destruct (sequence _).
Qed.

End ExecutorFacts.

Lemma endpoint_layers_differ w c w' c' :
  endpoint privateLayer w c <> endpoint publicLayer w' c'.
Proof. unfold endpoint, services, privateLayer, publicLayer. simpl. discriminate. Qed.

Lemma bodyOf_emptyAt net url :
  fails (net url) = true ->
  bodyOf (settled (emptyAt url net) false url) = bodyOf (settled net false url).
Proof.
  unfold settled, caught, emptyAt, bodyOf. rewrite String.eqb_refl. simpl.
  destruct (net url) as [e|res]; simpl; [done|].
  by intros ->%negb_true_iff.
Qed.

Lemma settled_emptyAt_other net url url' :
  url' <> url -> settled (emptyAt url net) false url' = settled net false url'.
Proof. intros Hne. unfold settled, emptyAt. by apply String.eqb_neq in Hne as ->. Qed.

(** With a failing source, the features merged are those merged had the source
    found nothing. *)
Lemma merged_emptyAt net layer w count :
  layer ∈ [privateLayer; publicLayer] ->
  fails (net (endpoint layer w count)) = true ->
  merged (settled (emptyAt (endpoint layer w count) net) false (endpoint privateLayer w count))
         (settled (emptyAt (endpoint layer w count) net) false (endpoint publicLayer w count))
  = merged (settled net false (endpoint privateLayer w count))
           (settled net false (endpoint publicLayer w count)).
Proof.
  intros Hlayer Hfails. unfold merged.
  apply list_elem_of_In in Hlayer. destruct Hlayer as [<-|[<-|[]]].
  - rewrite (bodyOf_emptyAt _ _ Hfails), settled_emptyAt_other; [done|].
    intros H. symmetry in H. by apply endpoint_layers_differ in H.
  - rewrite (bodyOf_emptyAt _ _ Hfails), settled_emptyAt_other; [done|].
    apply endpoint_layers_differ.
Qed.

Lemma bodyOf_fails net url :
  fails (net url) = true -> bodyOf (settled net false url) = Ok noFeatures.
Proof.
  unfold settled, caught, bodyOf. destruct (net url) as [e|res]; simpl; [done|].
  by intros ->%negb_true_iff.
Qed.

(** With one source failing and the other answering, the features merged are
    the features of the answer. *)
Lemma merged_survivor net failing surviving w count res fs :
  (failing, surviving) ∈ [(privateLayer, publicLayer); (publicLayer, privateLayer)] ->
  fails (net (endpoint failing w count)) = true ->
  net (endpoint surviving w count) = Arrives res ->
  ok res = true ->
  (json res ≫= featuresOf) = Ok fs ->
  merged (settled net false (endpoint privateLayer w count))
         (settled net false (endpoint publicLayer w count)) = Ok fs.
Proof.
  intros Hpair Hfails Hres Hok Hfs.
  apply bind_returns in Hfs as (body & Hbody & Hfs).
  assert (Hsurv : bodyOf (settled net false (endpoint surviving w count)) = Ok body).
  { unfold settled, caught, bodyOf. by rewrite Hres, Hok. }
  apply list_elem_of_In in Hpair. destruct Hpair as [[= <- <-]|[[= <- <-]|[]]]; unfold merged.
  - rewrite (bodyOf_fails _ _ Hfails), Hsurv, !bind_Ok, Hfs. reflexivity.
  - rewrite (bodyOf_fails _ _ Hfails), Hsurv, !bind_Ok, Hfs.
    change (featuresOf noFeatures) with (@Ok (list JsVal) []).
    by rewrite !bind_Ok, app_nil_r.
Qed.

(** A response whose body cannot be read leaves nothing to merge. *)
Lemma merged_unreadable net aborted layer w count res e :
  layer ∈ [privateLayer; publicLayer] ->
  settled net aborted (endpoint layer w count) = res ->
  ok res = true -> json res = Throw e ->
  exists e', merged (settled net aborted (endpoint privateLayer w count))
                    (settled net aborted (endpoint publicLayer w count)) = Throw e'.
Proof.
  intros Hlayer Hres Hok He.
  assert (Hbody : bodyOf (settled net aborted (endpoint layer w count)) = Throw e).
  { unfold bodyOf. by rewrite Hres, Hok. }
  apply list_elem_of_In in Hlayer. destruct Hlayer as [<-|[<-|[]]]; unfold merged.
  - rewrite Hbody. eexists. reflexivity.
  - rewrite Hbody.
    destruct (bodyOf (settled net aborted (endpoint privateLayer w count)));
      eexists; reflexivity.
Qed.

Lemma schoolWhere_short number_to_string name :
  String.length (trim name) < 2 -> schoolWhere number_to_string name JUndefined = Ok "1=1".
Proof.
  intros Hshort. unfold schoolWhere.
  assert (Nat.leb 2 (String.length (trim name)) = false) as -> by (apply Nat.leb_gt; lia).
  by rewrite andb_false_r.
Qed.

(** C3, as amended. For a text whose trimmed length is below 2,
    [searchSchoolDistricts] returns the empty list without a request, and the
    school effect of the controller, with no district selected, empties the
    school results and starts no search. [searchSchools] itself has no such
    guard: called with that text and no district filter, it sends both
    requests, asking for every school. *)
Theorem short_query_is_silent number_to_string localeCompare array_sort net aborted name st :
  String.length (trim name) < 2 ->
  searchSchoolDistricts number_to_string localeCompare array_sort net aborted name
    = mkEff [] (Ok [])
  /\ (debouncedSchoolQuery st = name -> selectedDistrict st = None ->
      schoolEffect number_to_string st = Ok (setSelectedSchool None (setSchools [] st), None))
  /\ exists log,
       trace (searchSchools number_to_string net aborted name JUndefined) =
         Fetch (endpoint privateLayer "1=1" "100")
         :: Fetch (endpoint publicLayer "1=1" "100") :: log.
Proof.
  intros Hshort. split; [by apply searchSchoolDistricts_short|]. split.
  - intros Hq Hd. unfold schoolEffect. rewrite Hq, Hd.
    apply Nat.ltb_lt in Hshort. rewrite Hshort, orb_true_r. reflexivity.
  - apply searchSchools_trace. by apply schoolWhere_short.
Qed.

Lemma short_query_is_silent_witness :
  String.length (trim " a ") < 2
  /\ searchSchoolDistricts printNothing codeUnitCompare sortBy nothingFound false " a "
       = mkEff [] (Ok []).
Proof.
  split; [simpl; lia|].
  refine (proj1 (short_query_is_silent printNothing codeUnitCompare sortBy nothingFound
                   false " a " initialSession _)).
  simpl; lia.
Defined.

(** C3 as stated fails for [searchSchools]: with an empty text and no district
    filter it queries both services and returns what they answer. *)
Lemma searchSchools_has_no_guard :
  ~ silentWhenShort printNothing codeUnitCompare sortBy
      (answering [feature 20 (lincoln111 7)] []) "".
Proof.
  intros H. destruct H as [_ H]; [simpl; lia|].
  apply (f_equal trace) in H. vm_compute in H. discriminate H.
Qed.

(** The private service is down and the public one knows Lincoln High: its
    record is returned. *)
Example public_source_survives :
  outcome (searchSchools printNothing
             (fun url => if String.prefix (services +:+ privateLayer) url
                         then Rejects TypeError
                         else answering [] [feature 30 (lincoln111 9)] url)
             false "Lincoln" JUndefined)
  = Ok [schoolByKeys (JObj 31 (lincoln111 9)) ogdenPoint].
Proof. vm_compute. reflexivity. Qed.

Lemma insertBy_permutes {A} (cmp : A -> A -> Res Z) x l l' :
  insertBy cmp x l = Ok l' -> l' ≡ₚ x :: l.
Proof.
  revert l'. induction l as [|y l IH]; intros l'; simpl.
  - by intros [= <-].
  - destruct (cmp x y) as [c|]; simpl; [|discriminate].
    destruct (c <=? 0)%Z; [by intros [= <-]|].
    destruct (insertBy cmp x l) as [rest|]; simpl; [|discriminate].
    intros [= <-]. rewrite (IH rest eq_refl). apply Permutation_swap.
Qed.

Lemma sortBy_permutes A (cmp : A -> A -> Res Z) l l' :
  sortBy A cmp l = Ok l' -> l' ≡ₚ l.
Proof.
  revert l'. induction l as [|x l IH]; intros l'; simpl.
  - by intros [= <-].
  - destruct (sortBy A cmp l) as [sorted|]; simpl; [|discriminate].
    intros ->%insertBy_permutes. by rewrite (IH sorted eq_refl).
Qed.

Lemma merged_aborted net url url' :
  merged (settled net true url) (settled net true url') = Ok [].
Proof. reflexivity. Qed.

Lemma merged_nothingFound url url' :
  merged (settled nothingFound false url) (settled nothingFound false url') = Ok [].
Proof. reflexivity. Qed.

Lemma no_schools_without_merge number_to_string net aborted name districtLEAID :
  (forall url url', merged (settled net aborted url) (settled net aborted url') = Ok []) ->
  outcome (searchSchools number_to_string net aborted name districtLEAID) = Ok [].
Proof.
  intros Hmerged. rewrite searchSchools_outcome.
  destruct (schoolWhere number_to_string name districtLEAID); [|done].
  by rewrite !bind_Ok, Hmerged.
Qed.

(** An aborted school search resolves, with the empty array. *)
Lemma searchSchools_aborted number_to_string net name districtLEAID :
  outcome (searchSchools number_to_string net true name districtLEAID) = Ok [].
Proof. apply no_schools_without_merge, merged_aborted. Qed.

Section Cancellation.

Variable number_to_string : spec_float -> string.
Variable localeCompare : string -> string -> Z.
Variable array_sort : forall A : Type, (A -> A -> Res Z) -> list A -> Res (list A).

(** What the properties ask of the engine's [sort]: when it returns, it
    returns a rearrangement of the array. *)
Hypothesis array_sort_permutes :
  forall A (cmp : A -> A -> Res Z) l l', array_sort A cmp l = Ok l' -> l' ≡ₚ l.

Lemma no_districts_without_features :
  recovered
    (allSchools ← Ok [];
     districtMap ← forEach (collect number_to_string) allSchools [];
     array_sort _ (byName number_to_string localeCompare) (map_values districtMap)) = Ok [].
Proof.
  simpl. destruct (array_sort _ _ []) as [l|] eqn:E; simpl; [|done].
  apply array_sort_permutes, Permutation_nil_r in E. by subst.
Qed.

Lemma no_districts_without_merge net aborted name :
  (forall url url', merged (settled net aborted url) (settled net aborted url') = Ok []) ->
  outcome (searchSchoolDistricts number_to_string localeCompare array_sort
             net aborted name) = Ok [].
Proof.
  intros Hmerged.
  destruct (Nat.lt_ge_cases (String.length (trim name)) 2) as [Hshort|Hlong].
  - by rewrite searchSchoolDistricts_short.
  - rewrite searchSchoolDistricts_outcome by done. cbv zeta.
    rewrite Hmerged. apply no_districts_without_features.
Qed.

(** C10. Both executors resolve with an array whatever their input and
    whatever the requests do. With the signal aborted they resolve with the
    empty array, as they do when the body of a response cannot be read (which is
    how an abort that lands after the headers shows); and the empty array is
    also what they resolve with when both services find nothing. *)
Theorem searches_always_resolve net aborted name districtLEAID :
  returns (outcome (searchSchools number_to_string net aborted name districtLEAID))
  /\ returns (outcome (searchSchoolDistricts number_to_string localeCompare array_sort
                         net aborted name))
  /\ outcome (searchSchools number_to_string net true name districtLEAID) = Ok []
  /\ outcome (searchSchoolDistricts number_to_string localeCompare array_sort net true name)
     = Ok []
  /\ (forall layer whereClause res e,
        layer ∈ [privateLayer; publicLayer] ->
        schoolWhere number_to_string name districtLEAID = Ok whereClause ->
        net (endpoint layer whereClause "100") = Arrives res ->
        ok res = true -> json res = Throw e ->
        outcome (searchSchools number_to_string net false name districtLEAID) = Ok [])
  /\ (forall layer res e,
        layer ∈ [privateLayer; publicLayer] ->
        net (endpoint layer (likeName (trim name)) "500") = Arrives res ->
        ok res = true -> json res = Throw e ->
        outcome (searchSchoolDistricts number_to_string localeCompare array_sort
                   net false name) = Ok [])
  /\ outcome (searchSchools number_to_string nothingFound false name districtLEAID) = Ok []
  /\ outcome (searchSchoolDistricts number_to_string localeCompare array_sort
                nothingFound false name) = Ok [].
Proof.
  split; [apply searchSchools_returns|]. split; [apply searchSchoolDistricts_returns|].
  split; [apply searchSchools_aborted|].
  split; [apply no_districts_without_merge, merged_aborted|].
  split; [|split; [|split]].
  - intros layer w res e Hlayer Hw Hres Hok He.
    rewrite searchSchools_outcome, Hw, bind_Ok.
    destruct (merged_unreadable net false layer w "100" res e Hlayer) as [e' ->]; try done.
    unfold settled. by rewrite Hres.
  - intros layer res e Hlayer Hres Hok He.
    destruct (Nat.lt_ge_cases (String.length (trim name)) 2) as [Hshort|Hlong].
    + by rewrite searchSchoolDistricts_short.
    + rewrite searchSchoolDistricts_outcome by done. cbv zeta.
      destruct (merged_unreadable net false layer (likeName (trim name)) "500" res e Hlayer)
        as [e' ->]; try done.
      unfold settled. by rewrite Hres.
  - apply no_schools_without_merge, merged_nothingFound.
  - apply no_districts_without_merge, merged_nothingFound.
Qed.

End Cancellation.

Lemma searches_always_resolve_witness :
  (forall A (cmp : A -> A -> Res Z) l l', sortBy A cmp l = Ok l' -> l' ≡ₚ l)
  /\ outcome (searchSchoolDistricts printNothing codeUnitCompare sortBy
                (answering [feature 20 (lincoln111 7)] []) true "Lincoln") = Ok [].
Proof.
  split; [exact sortBy_permutes|].
  exact (proj1 (proj2 (proj2 (proj2
    (searches_always_resolve printNothing codeUnitCompare sortBy sortBy_permutes
       (answering [feature 20 (lincoln111 7)] []) true "Lincoln" JUndefined))))).
Defined.

(** ** Controller *)

Lemma strict_equals_JStr v s : strict_equals v (JStr s) = true -> v = JStr s.
Proof. destruct v; simpl; try discriminate. by intros ->%String.eqb_eq. Qed.

Lemma handleDistrictChange_cache leaId st key :
  schoolCache (handleDistrictChange leaId st) !! key =
    if decide (key = newCacheKey leaId st) then None else schoolCache st !! key.
Proof.
  unfold handleDistrictChange. fold (newCacheKey leaId st). cbv zeta.
  set (st1 := setSelectedSchool None _).
  assert (Hcache : schoolCache st1 = schoolCache st).
  { unfold st1. by destruct (String.eqb leaId ""). }
  rewrite Hcache. destruct (schoolCache st !! newCacheKey leaId st) eqn:E.
  - change (schoolCache (setSchoolCache ?v ?s)) with v.
    rewrite lookup_delete.
    destruct (decide (key = _)) as [->|Hne]; [by rewrite decide_True|].
    by rewrite decide_False.
  - rewrite Hcache. by destruct (decide _) as [->|].
Qed.

Lemma handleDistrictChange_selectedSchool leaId st :
  selectedSchool (handleDistrictChange leaId st) = None.
Proof.
  unfold handleDistrictChange.
  by destruct (schoolCache _ !! _), (String.eqb leaId "").
Qed.

Lemma handleDistrictChange_text leaId st :
  debouncedSchoolQuery (handleDistrictChange leaId st) = debouncedSchoolQuery st.
Proof.
  unfold handleDistrictChange.
  by destruct (schoolCache _ !! _), (String.eqb leaId "").
Qed.

Lemma handleDistrictChange_district leaId st :
  selectedDistrict (handleDistrictChange leaId st) =
    if String.eqb leaId "" then None
    else find (fun d => strict_equals (District.LEAID d) (JStr leaId)) (districts st).
Proof.
  unfold handleDistrictChange.
  by destruct (schoolCache _ !! _), (String.eqb leaId "").
Qed.

Section ControllerFacts.

Variable number_to_string : spec_float -> string.

Lemma schoolEffect_miss st key :
  (String.eqb (trim (debouncedSchoolQuery st)) ""
   || Nat.ltb (String.length (trim (debouncedSchoolQuery st))) 2)
  && negb (bool_decide (is_Some (selectedDistrict st))) = false ->
  cacheKeyOf number_to_string st (trim (debouncedSchoolQuery st)) = Ok key ->
  schoolCache st !! key = None ->
  schoolEffect number_to_string st =
    Ok (setLoadingSchools true st,
        Some (mkSchoolQuery (trim (debouncedSchoolQuery st)) (districtFilter st) key
                (selectedSchool st) false)).
Proof. intros Hguard Hkey Hmiss. unfold schoolEffect. by rewrite Hguard, Hkey, bind_Ok, Hmiss. Qed.

(** C5, as amended. A district change clears the school selection and drops
    the cache entry of the new filter and the current text, leaving every other
    entry (that of the old filter included) in place. The school effect that
    follows therefore finds no cached list and starts a request, whenever the
    new filter is a district of the list, or is empty and the text is long
    enough to search. *)
Theorem district_change_evicts_new_key leaId st :
  let st' := handleDistrictChange leaId st in
  selectedSchool st' = None
  /\ schoolCache st' !! newCacheKey leaId st = None
  /\ (forall key, key <> newCacheKey leaId st -> schoolCache st' !! key = schoolCache st !! key)
  /\ ((leaId = "" /\ 2 <= String.length (trim (debouncedSchoolQuery st)))
      \/ (leaId <> "" /\ exists d, d ∈ districts st /\ District.LEAID d = JStr leaId) ->
      schoolEffect number_to_string st' =
        Ok (setLoadingSchools true st',
            Some (mkSchoolQuery (trim (debouncedSchoolQuery st)) (districtFilter st')
                    (newCacheKey leaId st) None false))).
Proof.
  intros st'.
  assert (Hsel : selectedSchool st' = None) by apply handleDistrictChange_selectedSchool.
  assert (Hgone : schoolCache st' !! newCacheKey leaId st = None).
  { unfold st'. rewrite handleDistrictChange_cache. by rewrite decide_True. }
  split; [exact Hsel|]. split; [exact Hgone|]. split.
  { intros key Hne. unfold st'. rewrite handleDistrictChange_cache. by rewrite decide_False. }
  intros Hfilter.
  pose proof (handleDistrictChange_text leaId st) as Htext. fold st' in Htext.
  pose proof (handleDistrictChange_district leaId st) as Hdistrict. fold st' in Hdistrict.
  rewrite <- Hsel, <- Htext.
  apply schoolEffect_miss; rewrite ?Htext.
  - destruct Hfilter as [[-> Hlong]|[Hne (d & Hd & Hid)]].
    + apply andb_false_intro1, orb_false_intro.
      * apply String.eqb_neq. intros Hq. rewrite Hq in Hlong. simpl in Hlong. lia.
      * apply Nat.ltb_ge. lia.
    + apply andb_false_intro2. rewrite Hdistrict.
      pose proof Hne as Hne'. apply String.eqb_neq in Hne' as ->.
      destruct (find _ _) eqn:F; [done|].
      apply list_elem_of_In in Hd. apply (find_none _ _ F) in Hd.
      simpl in Hd. by rewrite Hid, (strict_equals_refl (JStr leaId)) in Hd;
        [|simpl; apply negb_true_iff, String.eqb_neq].
  - unfold cacheKeyOf, districtFilter, newCacheKey. rewrite Hdistrict.
    destruct Hfilter as [[-> _]|[Hne (d & Hd & Hid)]]; [reflexivity|].
    pose proof Hne as Hne'. apply String.eqb_neq in Hne' as ->.
    destruct (find _ _) as [d'|] eqn:F.
    + apply find_some in F as [_ F]. apply strict_equals_JStr in F. rewrite F.
      simpl truthy. by apply String.eqb_neq in Hne as ->.
    + apply list_elem_of_In in Hd. apply (find_none _ _ F) in Hd.
      simpl in Hd. rewrite Hid in Hd. simpl in Hd. by rewrite String.eqb_refl in Hd.
  - exact Hgone.
Qed.

End ControllerFacts.

(** C5 as stated fails: after the change from Ogden to Weber, the list cached
    for Ogden and "Lincoln" is still there. *)
Lemma old_filter_entry_stays : ~ evictsOldFilter printNothing "4901140" browsingOgden.
Proof.
  intros H. destruct (H "4900600-Lincoln" eq_refl) as [_ Hgone].
  vm_compute in Hgone. discriminate Hgone.
Qed.

(** After that change the effect starts a request for Weber. *)
Example weber_is_fetched :
  exists st, schoolEffect printNothing (handleDistrictChange "4901140" browsingOgden)
             = Ok (st, Some (mkSchoolQuery "Lincoln" (JStr "4901140") "4901140-Lincoln"
                               None false)).
Proof. eexists. vm_compute. reflexivity. Qed.

Lemma stillMatches_unfold selected s :
  stillMatches selected s = sameId selected s || sameNameAndCity selected s.
Proof. reflexivity. Qed.

(** C6, as amended. When a school fetch completes with a school selected at
    the time the request was started, the result list is shown and cached, and
    the selection is kept if some record of the result has the selection's
    non-empty identifier, or its name and city (whatever the identifiers are);
    it is cleared if no record of the result has an identifier strictly equal to
    the selection's and none has its name and city. *)
Theorem selection_after_fetch query res st selected :
  q_selectedSchool query = Some selected ->
  let st' := schoolThen query res st in
  schools st' = res
  /\ schoolCache st' !! q_cacheKey query = Some res
  /\ ((exists s, s ∈ res
         /\ (truthy (School.NCESSCH selected) && sameId selected s
             || sameNameAndCity selected s) = true) ->
      selectedSchool st' = selectedSchool st)
  /\ ((forall s, s ∈ res -> sameId selected s = false /\ sameNameAndCity selected s = false) ->
      selectedSchool st' = None).
Proof.
  intros Hsel st'. unfold st', schoolThen. rewrite Hsel.
  destruct (existsb (stillMatches selected) res) eqn:E.
  - split; [done|]. split; [apply lookup_insert_eq|]. split; [done|].
    intros Hnone. apply existsb_exists in E as (s & Hs & Hm).
    apply list_elem_of_In in Hs. destruct (Hnone s Hs) as [Hid Hplace].
    by rewrite stillMatches_unfold, Hid, Hplace in Hm.
  - split; [done|]. split; [apply lookup_insert_eq|]. split; [|done].
    intros (s & Hs & Hm).
    assert (Hex : existsb (stillMatches selected) res = true).
    { apply existsb_exists. exists s. split; [by apply list_elem_of_In|].
      rewrite stillMatches_unfold. destruct (sameNameAndCity selected s); [apply orb_true_r|].
      rewrite orb_false_r in Hm. apply andb_prop in Hm as [_ ->]. done. }
    congruence.
Qed.

(** The selection is school 5, "Lincoln High" of Ogden. A result made of
    another school and of school 5 keeps it, by identifier; a result made of
    another school and of a namesake of the same city keeps it, by name and
    city; a result made of another school only clears it. *)
Lemma selection_after_fetch_witness :
  q_selectedSchool lincolnQuery = Some school5
  /\ selectedSchool (schoolThen lincolnQuery [school7; school5] browsingOgden) = Some school5
  /\ selectedSchool (schoolThen lincolnQuery [school7; school6] browsingOgden) = Some school5
  /\ schools (schoolThen lincolnQuery [school7] browsingOgden) = [school7]
  /\ schoolCache (schoolThen lincolnQuery [school7] browsingOgden) !! "4900600-Lincoln"
     = Some [school7]
  /\ selectedSchool (schoolThen lincolnQuery [school7] browsingOgden) = None.
Proof.
  split; [reflexivity|].
  split.
  { refine (proj1 (proj2 (proj2
      (selection_after_fetch lincolnQuery [school7; school5] browsingOgden school5 eq_refl))) _).
    exists school5. split; [|vm_compute; reflexivity].
    apply list_elem_of_further, list_elem_of_here. }
  split.
  { refine (proj1 (proj2 (proj2
      (selection_after_fetch lincolnQuery [school7; school6] browsingOgden school5 eq_refl))) _).
    exists school6. split; [|vm_compute; reflexivity].
    apply list_elem_of_further, list_elem_of_here. }
  destruct (selection_after_fetch lincolnQuery [school7] browsingOgden school5 eq_refl)
    as (Hshown & Hcached & _ & Hcleared).
  split; [exact Hshown|]. split; [exact Hcached|].
  apply Hcleared. intros s Hs. apply list_elem_of_In in Hs. destruct Hs as [<-|[]].
  split; vm_compute; reflexivity.
Defined.

(** C6 as stated fails: the selection has identifier "5"; the new result holds
    a school of the same name and city under identifier "6", and the selection
    is kept although no record carries its identifier. *)
Lemma kept_by_name_and_city : ~ keepsIffAppears lincolnQuery [school6] browsingOgden.
Proof.
  intros H. destruct (H school5 eq_refl eq_refl) as [Hkept _].
  destruct (Hkept eq_refl) as (s & Hs & Happears).
  apply list_elem_of_In in Hs. destruct Hs as [<-|[]].
  vm_compute in Happears. discriminate Happears.
Qed.

(** The [.then] callback of an aborted search runs like any other, on the empty
    list: nothing in the chain looks at the state of the signal. *)
Lemma aborted_search_is_applied number_to_string net query st :
  q_aborted query = true ->
  (schoolSettles number_to_string net query st).1
  = setLoadingSchools false (schoolThen query [] st).
Proof.
  intros Haborted. unfold schoolSettles.
  by rewrite Haborted, searchSchools_aborted.
Qed.

(** C1 fails on the code. "Lincoln High" is searched and its answer cached.
    The text becomes "Lincoln", which starts a second search, and before that
    one is answered the text is "Lincoln High" again: the second search is
    aborted and the cached list is shown. The aborted search then resolves, with
    the empty list [searchSchools] makes of an abort, and its [.then] callback
    runs all the same: the visible results become empty under the text
    "Lincoln High", and the empty list is cached for "Lincoln", to be served
    later without a request. *)
Theorem superseded_result_is_applied :
  exists shown p,
    steps printNothing initialPage
      [Debounced "Lincoln High"; Settles 0 lincolnEverywhere;
       Debounced "Lincoln"; Debounced "Lincoln High"] = Ok shown
    /\ q_aborted <$> started shown !! 1 = Some true
    /\ cleanup shown = None
    /\ schools (session shown) = [schoolByKeys (JObj 21 (lincoln111 7)) ogdenPoint]
    /\ step printNothing shown (Settles 1 lincolnEverywhere) = Ok p
    /\ debouncedSchoolQuery (session p) = "Lincoln High"
    /\ schoolCache (session p) !! "all-Lincoln High"
       = Some [schoolByKeys (JObj 21 (lincoln111 7)) ogdenPoint]
    /\ schools (session p) = []
    /\ schoolCache (session p) !! "all-Lincoln" = Some []
    /\ exists p', step printNothing p (Debounced "Lincoln") = Ok p'
                  /\ schools (session p') = []
                  /\ length (started p') = length (started p).
Proof.
  do 2 eexists. split; [vm_compute; reflexivity|].
  do 3 (split; [vm_compute; reflexivity|]).
  split; [vm_compute; reflexivity|].
  do 4 (split; [vm_compute; reflexivity|]).
  eexists. split; [vm_compute; reflexivity|]. split; vm_compute; reflexivity.
Qed.

(** * Further properties of the code *)

(** ** Normalized records *)

Lemma firstTruthy_textual vs : textual (firstTruthy vs (JStr "")).
Proof.
  induction vs as [|v vs IH]; simpl; [by right|].
  destruct (truthy v) eqn:Hv; [by left | exact IH].
Qed.

(** The seven text fields of a normalized school are never [null] or
    [undefined]: each holds a truthy value of the raw record or the empty
    string. *)
Theorem school_text_fields a geometry r :
  normalizeSchoolAttributes a geometry = Ok r ->
  textual (School.NAME r) /\ textual (School.STREET r) /\ textual (School.CITY r)
  /\ textual (School.STATE r) /\ textual (School.ZIP r)
  /\ textual (School.NCESSCH r) /\ textual (School.LEAID r).
Proof.
  intros Hr.
  assert (Ha : nullish a = false) by (destruct a; try done; discriminate Hr).
  rewrite (normalizeSchoolAttributes_closed _ _ Ha) in Hr. injection Hr as <-.
  repeat split; apply firstTruthy_textual.
Qed.

Lemma school_text_fields_witness :
  normalizeSchoolAttributes emptyRecord JUndefined = Ok (schoolByKeys emptyRecord JUndefined)
  /\ textual (School.NAME (schoolByKeys emptyRecord JUndefined)).
Proof.
  split; [reflexivity|].
  exact (proj1 (school_text_fields emptyRecord JUndefined
                  (schoolByKeys emptyRecord JUndefined) eq_refl)).
Defined.

Lemma normalizeDistrictAttributes_fields number_to_string a d :
  normalizeDistrictAttributes number_to_string a = Ok d ->
  nullish a = false
  /\ District.LEAID d = districtId a
  /\ truthy (District.NAME d) = true.
Proof.
  intros Hd.
  assert (Ha : nullish a = false) by (destruct a; try done; discriminate Hd).
  split; [exact Ha|].
  rewrite (normalizeDistrictAttributes_closed _ _ Ha) in Hd.
  apply bind_returns in Hd as (NAME & HN & Hd). injection Hd as <-. split; [done|]. simpl.
  destruct (truthy (pick a districtNameKeys JUndefined)) eqn:Hn; [congruence|].
  rewrite (districtLabel_closed _ _ Ha) in HN.
  apply bind_returns in HN as (id & _ & HN). by injection HN as <-.
Qed.

(** A normalized district always has a name: a truthy source name or the
    synthesized label, never the empty string. Its identifier and its address
    fields are truthy values or the empty string. *)
Theorem district_always_named number_to_string a d :
  normalizeDistrictAttributes number_to_string a = Ok d ->
  truthy (District.NAME d) = true
  /\ textual (District.LEAID d) /\ textual (District.LSTREE d)
  /\ textual (District.LCITY d) /\ textual (District.LSTATE d)
  /\ textual (District.LZIP d) /\ textual (District.ST d).
Proof.
  intros Hd. destruct (normalizeDistrictAttributes_fields _ _ _ Hd) as (Ha & _ & Hname).
  split; [exact Hname|].
  rewrite (normalizeDistrictAttributes_closed _ _ Ha) in Hd.
  apply bind_returns in Hd as (NAME & _ & Hd). injection Hd as <-.
  repeat split; apply firstTruthy_textual.
Qed.

Lemma district_always_named_witness :
  normalizeDistrictAttributes printNothing emptyRecord
    = Ok (districtByKeys emptyRecord (JStr "District Unknown"))
  /\ truthy (District.NAME (districtByKeys emptyRecord (JStr "District Unknown"))) = true.
Proof.
  split; [reflexivity|].
  exact (proj1 (district_always_named printNothing emptyRecord
                  (districtByKeys emptyRecord (JStr "District Unknown")) eq_refl)).
Defined.

(** ** The districts of a search *)

Section Apartness.

Context {A : Type} (same : A -> A -> bool).
Hypothesis same_sym : forall x y, same x y = same y x.

Lemma Apart_snoc l x :
  Apart same l -> Forall (fun y => same y x = false) l -> Apart same (l ++ [x]).
Proof.
  induction 1 as [|y l Hy Hl IH]; simpl; intros Hx.
  - constructor; constructor.
  - apply Forall_cons in Hx as [Hyx Hx]. constructor; [|by apply IH].
    apply Forall_app. split; [exact Hy|]. by constructor.
Qed.

Lemma Apart_Permutation l l' : l ≡ₚ l' -> Apart same l -> Apart same l'.
Proof.
  induction 1 as [|x l l' Hp IH|x y l|l l' l'' _ IH1 _ IH2]; intros Hl.
  - exact Hl.
  - inversion Hl as [|? ? Hx Hrest]; subst. constructor; [by rewrite <- Hp | by apply IH].
  - inversion Hl as [|? ? Hy Hrest]; subst. inversion Hrest as [|? ? Hx Hrest']; subst.
    apply Forall_cons in Hy as [Hyx Hy].
    constructor; [|by constructor].
    constructor; [by rewrite same_sym | exact Hx].
  - by apply IH2, IH1.
Qed.

End Apartness.

Lemma forEach_snoc {A S} (body : S -> A -> Res S) l x s :
  forEach body (l ++ [x]) s = (s' ← forEach body l s; body s' x).
Proof.
  revert s. induction l as [|y l IH]; intros s; simpl.
  - by destruct (body s x).
  - destruct (body s y) as [s'|]; simpl; [apply IH | done].
Qed.

Lemma attributesOf_not_nullish f : nullish f = false -> nullish (attributesOf f) = false.
Proof.
  intros Hf. unfold attributesOf. simpl.
  destruct (truthy (prop f "attributes")) eqn:E; [by apply truthy_not_nullish | exact Hf].
Qed.

Lemma same_value_zero_truthy a b :
  truthy b = true -> same_value_zero a b = strict_equals a b.
Proof. intros Hb. destruct a as [| | |[]| | |]; try done. by destruct b as [| | |[]| | |]. Qed.

Lemma leaKey_districtId a : truthy (leaKey a) = true -> districtId a = leaKey a.
Proof.
  unfold districtId, leaKey, pick. simpl.
  destruct (truthy (prop a "LEAID")); [done|].
  destruct (truthy (prop a "LEA_ID")); [done|]. by intros ->.
Qed.

Section DistrictFacts.

Variable number_to_string : spec_float -> string.

(** One turn of the [forEach], on a feature that is an object or a primitive. *)
Lemma collect_closed districtMap f :
  nullish f = false ->
  collect number_to_string districtMap f =
    if truthy (leaKey (attributesOf f)) && negb (map_has districtMap (leaKey (attributesOf f)))
    then district ← normalizeDistrictAttributes number_to_string (attributesOf f);
         Ok (map_set districtMap (leaKey (attributesOf f)) district)
    else Ok districtMap.
Proof.
  intros Hf. unfold collect. rewrite (get_prop _ _ Hf), js_or_values, bind_Ok.
  fold (attributesOf f).
  rewrite !(get_prop _ _ (attributesOf_not_nullish _ Hf)). by chains.
Qed.

Lemma collect_returns districtMap f m : 
  collect number_to_string districtMap f = Ok m -> nullish f = false.
Proof. intros H. destruct f; try done; discriminate H. Qed.

Lemma map_has_false (m : DistrictMap) k kd :
  truthy k = true -> map_has m k = false -> kd ∈ m -> strict_equals kd.1 k = false.
Proof.
  intros Hk Hm Hkd. unfold map_has in Hm.
  destruct (strict_equals kd.1 k) eqn:E; [|done].
  assert (existsb (fun kv => same_value_zero kv.1 k) m = true); [|congruence].
  apply existsb_exists. exists kd. split; [by apply list_elem_of_In|].
  by rewrite same_value_zero_truthy.
Qed.

Lemma map_has_true (m : DistrictMap) k :
  truthy k = true -> map_has m k = true -> exists kd, kd ∈ m /\ strict_equals kd.1 k = true.
Proof.
  intros Hk (kd & Hkd & Hs)%existsb_exists. exists kd.
  split; [by apply list_elem_of_In|]. by rewrite same_value_zero_truthy in Hs.
Qed.

Lemma strict_equals_other_key k k' c :
  truthy k = true -> strict_equals c k' = true -> strict_equals c k = false ->
  strict_equals k' k = false.
Proof.
  intros Hk Hc Hck.
  rewrite (strict_equals_sym k' k), <- (strict_equals_congruence c k' k Hc).
  by rewrite strict_equals_sym.
Qed.

Lemma collected_step fs m f m' :
  Collected number_to_string fs m ->
  collect number_to_string m f = Ok m' ->
  Collected number_to_string (fs ++ [f]) m'.
Proof.
  intros (Hentries & Hapart & Hfirst & Hall) Hstep.
  pose proof (collect_returns _ _ _ Hstep) as Hf.
  rewrite (collect_closed _ _ Hf) in Hstep.
  set (k := leaKey (attributesOf f)) in *.
  assert (Hold : forall k0 d0, (k0, d0) ∈ m ->
            exists i f0, (fs ++ [f]) !! i = Some f0
              /\ leaKey (attributesOf f0) = k0
              /\ normalizeDistrictAttributes number_to_string (attributesOf f0) = Ok d0
              /\ forall j f', j < i -> (fs ++ [f]) !! j = Some f' ->
                   strict_equals (leaKey (attributesOf f')) k0 = false).
  { intros k0 d0 Hin. destruct (Hfirst k0 d0 Hin) as (i & f0 & Hi & Hk0 & Hd0 & Hbefore).
    pose proof (lookup_lt_Some _ _ _ Hi) as Hlt.
    exists i, f0. split; [by rewrite lookup_app_l|]. split; [done|]. split; [done|].
    intros j f' Hj Hf'. rewrite lookup_app_l in Hf' by lia. by apply (Hbefore j). }
  destruct (truthy k) eqn:Hk; simpl in Hstep.
  2:{ injection Hstep as <-. split; [done|]. split; [done|]. split; [exact Hold|].
      intros i f0 Hi Ht. destruct (decide (i < length fs)) as [Hlt|Hge].
      - rewrite lookup_app_l in Hi by done. by apply (Hall i).
      - rewrite lookup_app_r in Hi by lia.
        destruct (i - length fs) as [|n]; simpl in Hi; [|done].
        injection Hi as <-. fold k in Ht. congruence. }
  destruct (map_has m k) eqn:Hhas; simpl in Hstep.
  { injection Hstep as <-. split; [done|]. split; [done|]. split; [exact Hold|].
    intros i f0 Hi Ht. destruct (decide (i < length fs)) as [Hlt|Hge].
    - rewrite lookup_app_l in Hi by done. by apply (Hall i).
    - rewrite lookup_app_r in Hi by lia.
      destruct (i - length fs) as [|n]; simpl in Hi; [|done].
      injection Hi as <-. fold k.
      destruct (map_has_true m k Hk Hhas) as ([k0 d0] & Hin & Hs). exists d0.
      split; [apply list_elem_of_fmap; by exists (k0, d0)|].
      apply Forall_forall with (x := (k0, d0)) in Hentries as (_ & Hk0 & _); [|done].
      simpl in Hk0, Hs. by rewrite Hk0. }
  apply bind_returns in Hstep as (d & Hd & Hstep). injection Hstep as <-.
  destruct (normalizeDistrictAttributes_fields _ _ _ Hd) as (_ & Hid & Hname).
  rewrite (leaKey_districtId _ Hk) in Hid. fold k in Hid.
  unfold Collected, map_set, map_values. rewrite fmap_app. simpl.
  split; [|split; [|split]].
  - apply Forall_app. split; [exact Hentries|]. by constructor.
  - apply Apart_snoc; [exact Hapart|].
    apply Forall_fmap, Forall_forall. intros [k0 d0] Hin. simpl.
    apply Forall_forall with (x := (k0, d0)) in Hentries as (_ & Hk0 & _); [|done].
    unfold sameDistrict. simpl in Hk0. rewrite Hk0, Hid.
    apply (map_has_false m k (k0, d0) Hk Hhas Hin).
  - intros k0 d0 [Hin|Hin%list_elem_of_singleton]%elem_of_app; [by apply Hold|].
    injection Hin as -> ->. exists (length fs), f.
    split; [by rewrite lookup_app_r, Nat.sub_diag by lia|]. split; [done|]. split; [done|].
    intros j f' Hj Hf'. rewrite lookup_app_l in Hf' by done.
    destruct (truthy (leaKey (attributesOf f'))) eqn:Ht.
    + destruct (Hall j f' Hf' Ht) as (d0 & (kd & -> & Hin)%list_elem_of_fmap & Hs).
      apply (strict_equals_other_key k _ (District.LEAID kd.2) Hk Hs).
      apply Forall_forall with (x := kd) in Hentries as (_ & -> & _); [|done].
      by apply (map_has_false m k kd Hk Hhas).
    + destruct (strict_equals _ k) eqn:E; [|done].
      apply strict_equals_truthy in E. congruence.
  - intros i f0 Hi Ht. destruct (decide (i < length fs)) as [Hlt|Hge].
    + rewrite lookup_app_l in Hi by done.
      destruct (Hall i f0 Hi Ht) as (d0 & Hin & Hs). exists d0.
      split; [|done]. apply elem_of_app. by left.
    + rewrite lookup_app_r in Hi by lia.
      destruct (i - length fs) as [|n]; simpl in Hi; [|done].
      injection Hi as <-. exists d. split; [apply elem_of_app; right; by constructor|].
      fold k. rewrite Hid. by apply strict_equals_refl.
Qed.

Lemma first_feature_wins_invariant fs districtMap :
  forEach (collect number_to_string) fs [] = Ok districtMap ->
  Collected number_to_string fs districtMap.
Proof.
  revert districtMap. induction fs as [|f fs IH] using rev_ind; intros m.
  - intros [= <-]. split; [constructor|]. split; [constructor|].
    split; [by intros ? ? ?%elem_of_nil | by intros ? ? ?].
  - rewrite forEach_snoc. intros (m0 & Hm0 & Hstep)%bind_returns.
    apply (collected_step fs m0); [by apply IH | exact Hstep].
Qed.

(** The [forEach] of the district search keeps one district per identifier, the
    one of the first feature that carries it, and misses no identified
    feature. *)
Theorem first_feature_wins fs districtMap :
  forEach (collect number_to_string) fs [] = Ok districtMap ->
  Collected number_to_string fs districtMap.
Proof. apply first_feature_wins_invariant. Qed.

End DistrictFacts.

Lemma first_feature_wins_witness :
  forEach (collect printNothing) threeFeatures [] = Ok twoDistricts
  /\ Collected printNothing threeFeatures twoDistricts.
Proof.
  split; [reflexivity|].
  exact (first_feature_wins printNothing threeFeatures twoDistricts eq_refl).
Defined.

(** ** A failing source *)

Lemma featuresOf_array body ref fs :
  prop body "features" = JArr ref fs -> featuresOf body = Ok fs.
Proof.
  intros H.
  assert (Hb : nullish body = false) by (destruct body; done || discriminate H).
  unfold featuresOf. by rewrite (get_prop _ _ Hb), bind_Ok, H.
Qed.

Lemma normalizeFeature_closed f :
  nullish f = false -> normalizeFeature f = Ok (recordOf f).
Proof.
  intros Hf. unfold normalizeFeature.
  rewrite !(get_prop _ _ Hf), js_or_values, !bind_Ok.
  fold (attributesOf f).
  by rewrite (normalizeSchoolAttributes_closed _ _ (attributesOf_not_nullish _ Hf)).
Qed.

Lemma sequence_map_closed {A B} (g : A -> Res B) (h : A -> B) l :
  Forall (fun x => g x = Ok (h x)) l -> sequence (map g l) = Ok (h <$> l).
Proof.
  induction 1 as [|x l Hx _ IH]; simpl; [done|]. by rewrite Hx, IH.
Qed.

Lemma insertBy_returns {A} (cmp : A -> A -> Res Z) x l :
  (forall y, y ∈ l -> returns (cmp x y)) -> returns (insertBy cmp x l).
Proof.
  induction l as [|y l IH]; intros Hcmp; simpl; [by eexists|].
  destruct (Hcmp y) as [c ->]; [by left|]. simpl.
  destruct (c <=? 0)%Z; [by eexists|].
  destruct IH as [rest ->]; [|by eexists].
  intros z Hz. apply Hcmp. by right.
Qed.

Lemma sortBy_returns A (cmp : A -> A -> Res Z) l :
  (forall a b, a ∈ l -> b ∈ l -> returns (cmp a b)) -> returns (sortBy A cmp l).
Proof.
  induction l as [|x l IH]; intros Hcmp; simpl; [by eexists|].
  destruct IH as [sorted Hsorted].
  { intros a b Ha Hb. apply Hcmp; by right. }
  rewrite Hsorted. simpl. apply insertBy_returns.
  intros y Hy. apply Hcmp; [by left|]. right.
  apply sortBy_permutes in Hsorted. by rewrite <- Hsorted.
Qed.

Section Survivor.

Variable number_to_string : spec_float -> string.
Variable localeCompare : string -> string -> Z.

Lemma normalizeDistrictAttributes_plain f :
  plainFeature f ->
  exists d s, normalizeDistrictAttributes number_to_string (attributesOf f) = Ok d
              /\ District.NAME d = JStr s.
Proof.
  intros [Hf Hplain]. set (a := attributesOf f) in *.
  assert (Ha : nullish a = false) by by apply attributesOf_not_nullish.
  apply Forall_cons in Hplain as [Hid Hnames].
  rewrite (normalizeDistrictAttributes_closed _ _ Ha).
  destruct (truthy (pick a districtNameKeys JUndefined)) eqn:Hn.
  - assert (Hs : exists s, pick a districtNameKeys JUndefined = JStr s).
    { unfold pick, districtNameKeys in *. simpl in Hn |- *.
      apply Forall_cons in Hnames as [H1 Hnames].
      apply Forall_cons in Hnames as [H2 Hnames].
      apply Forall_cons in Hnames as [H3 _].
      destruct (truthy (prop a "DISTRICT")) eqn:E1;
        [destruct (prop a "DISTRICT"); try done; by eexists|].
      destruct (truthy (prop a "LEA_NAME")) eqn:E2;
        [destruct (prop a "LEA_NAME"); try done; by eexists|].
      destruct (truthy (prop a "LEANM")) eqn:E3;
        [destruct (prop a "LEANM"); try done; by eexists|].
      done. }
    destruct Hs as [s Hs]. eexists _, s. split; [reflexivity | exact Hs].
  - rewrite (districtLabel_closed _ _ Ha). simpl firstTruthy.
    destruct (truthy (prop a "LEAID")) eqn:E.
    + destruct (prop a "LEAID") as [| | | |s| |]; try done.
      simpl. eexists _, _. split; reflexivity.
    + simpl. eexists _, _. split; reflexivity.
Qed.

Lemma forEach_collect_plain fs districtMap :
  Forall plainFeature fs ->
  returns (forEach (collect number_to_string) fs districtMap).
Proof.
  intros Hfs. revert districtMap.
  induction Hfs as [|f fs Hf _ IH]; intros m; simpl; [by eexists|].
  rewrite (collect_closed _ _ _ (proj1 Hf)).
  destruct (truthy _ && negb _); [|apply IH].
  destruct (normalizeDistrictAttributes_plain f Hf) as (d & s & -> & _). simpl. apply IH.
Qed.

Lemma byName_returns a b s t :
  District.NAME a = JStr s -> District.NAME b = JStr t ->
  returns (byName number_to_string localeCompare a b).
Proof.
  intros Ha Hb. unfold byName, str. rewrite !js_or_Ok, Ha, Hb. simpl.
  destruct (negb (String.eqb s "")), (negb (String.eqb t "")); by eexists.
Qed.

End Survivor.

(** C4. Neither executor fails, whatever the sources do. A source that
    fails (rejected request or non-success response) changes nothing else: the
    result is the one obtained had that source answered with no feature. With
    one source failing and the other answering, the result is made of the
    features of the answer: their normalized records, deduplicated, for a school
    search; the districts collected from them, sorted, for a district search.
    The records of the surviving source are returned indeed: when its answer
    holds an array of features none of which is [null], a school search
    resolves with the records of those features that are the first of their
    kind, in their order; and a district search resolves with one district for
    each identifier among those features, whenever their identifiers and names
    are strings and the engine's sort returns a rearrangement of an array whose
    comparisons do not throw. *)
Theorem failing_source_contributes_nothing
    number_to_string localeCompare array_sort net name districtLEAID :
  returns (outcome (searchSchools number_to_string net false name districtLEAID))
  /\ returns (outcome (searchSchoolDistricts number_to_string localeCompare array_sort
                         net false name))
  /\ (forall layer whereClause,
        layer ∈ [privateLayer; publicLayer] ->
        schoolWhere number_to_string name districtLEAID = Ok whereClause ->
        fails (net (endpoint layer whereClause "100")) = true ->
        outcome (searchSchools number_to_string net false name districtLEAID)
        = outcome (searchSchools number_to_string
                     (emptyAt (endpoint layer whereClause "100") net)
                     false name districtLEAID))
  /\ (forall layer,
        layer ∈ [privateLayer; publicLayer] ->
        fails (net (endpoint layer (likeName (trim name)) "500")) = true ->
        outcome (searchSchoolDistricts number_to_string localeCompare array_sort
                   net false name)
        = outcome (searchSchoolDistricts number_to_string localeCompare array_sort
                     (emptyAt (endpoint layer (likeName (trim name)) "500") net)
                     false name))
  /\ (forall failing surviving whereClause res fs,
        (failing, surviving) ∈ [(privateLayer, publicLayer); (publicLayer, privateLayer)] ->
        schoolWhere number_to_string name districtLEAID = Ok whereClause ->
        fails (net (endpoint failing whereClause "100")) = true ->
        net (endpoint surviving whereClause "100") = Arrives res ->
        ok res = true ->
        (json res ≫= featuresOf) = Ok fs ->
        outcome (searchSchools number_to_string net false name districtLEAID)
        = recovered (normalized ← sequence (map normalizeFeature fs);
                     Ok (unique normalized)))
  /\ (forall failing surviving res fs,
        (failing, surviving) ∈ [(privateLayer, publicLayer); (publicLayer, privateLayer)] ->
        2 <= String.length (trim name) ->
        fails (net (endpoint failing (likeName (trim name)) "500")) = true ->
        net (endpoint surviving (likeName (trim name)) "500") = Arrives res ->
        ok res = true ->
        (json res ≫= featuresOf) = Ok fs ->
        outcome (searchSchoolDistricts number_to_string localeCompare array_sort
                   net false name)
        = recovered (districtMap ← forEach (collect number_to_string) fs [];
                     array_sort _ (byName number_to_string localeCompare)
                       (map_values districtMap)))
  /\ (forall failing surviving whereClause res body ref fs,
        (failing, surviving) ∈ [(privateLayer, publicLayer); (publicLayer, privateLayer)] ->
        schoolWhere number_to_string name districtLEAID = Ok whereClause ->
        fails (net (endpoint failing whereClause "100")) = true ->
        net (endpoint surviving whereClause "100") = Arrives res ->
        ok res = true -> json res = Ok body ->
        prop body "features" = JArr ref fs ->
        Forall (fun f => nullish f = false) fs ->
        exists out,
          outcome (searchSchools number_to_string net false name districtLEAID) = Ok out
          /\ firstSeenOnly (recordOf <$> fs) out)
  /\ (forall failing surviving res body ref fs,
        (failing, surviving) ∈ [(privateLayer, publicLayer); (publicLayer, privateLayer)] ->
        2 <= String.length (trim name) ->
        fails (net (endpoint failing (likeName (trim name)) "500")) = true ->
        net (endpoint surviving (likeName (trim name)) "500") = Arrives res ->
        ok res = true -> json res = Ok body ->
        prop body "features" = JArr ref fs ->
        Forall plainFeature fs ->
        (forall l,
           (forall a b, a ∈ l -> b ∈ l ->
                        returns (byName number_to_string localeCompare a b)) ->
           exists l', array_sort _ (byName number_to_string localeCompare) l = Ok l'
                      /\ l' ≡ₚ l) ->
        exists districtMap out,
          outcome (searchSchoolDistricts number_to_string localeCompare array_sort
                     net false name) = Ok out
          /\ Collected number_to_string fs districtMap
          /\ out ≡ₚ map_values districtMap).
Proof.
  split; [apply searchSchools_returns|]. split; [apply searchSchoolDistricts_returns|].
  split; [|split; [|split; [|split; [|split]]]].
  - intros layer w Hlayer Hw Hfails.
    rewrite !searchSchools_outcome, Hw, !bind_Ok. by rewrite merged_emptyAt.
  - intros layer Hlayer Hfails.
    destruct (Nat.lt_ge_cases (String.length (trim name)) 2) as [Hshort|Hlong].
    + by rewrite !searchSchoolDistricts_short.
    + rewrite !searchSchoolDistricts_outcome by done. cbv zeta. by rewrite merged_emptyAt.
  - intros failing surviving w res fs Hpair Hw Hfails Hres Hok Hfs.
    rewrite searchSchools_outcome, Hw, bind_Ok.
    by rewrite (merged_survivor _ _ _ _ _ _ _ Hpair Hfails Hres Hok Hfs).
  - intros failing surviving res fs Hpair Hlong Hfails Hres Hok Hfs.
    rewrite searchSchoolDistricts_outcome by done. cbv zeta.
    by rewrite (merged_survivor _ _ _ _ _ _ _ Hpair Hfails Hres Hok Hfs).
  - intros failing surviving w res body ref fs Hpair Hw Hfails Hres Hok Hbody Hfeatures Hfs.
    assert (Hjson : (json res ≫= featuresOf) = Ok fs).
    { by rewrite Hbody, bind_Ok, (featuresOf_array body ref fs). }
    rewrite searchSchools_outcome, Hw, bind_Ok.
    rewrite (merged_survivor _ _ _ _ _ _ _ Hpair Hfails Hres Hok Hjson), bind_Ok.
    rewrite (sequence_map_closed normalizeFeature recordOf).
    + simpl. eexists. split; [reflexivity | apply unique_first_seen].
    + eapply Forall_impl; [exact Hfs|]. intros f Hf. by apply normalizeFeature_closed.
  - intros failing surviving res body ref fs Hpair Hlong Hfails Hres Hok Hbody Hfeatures
      Hfs Hsort.
    assert (Hjson : (json res ≫= featuresOf) = Ok fs).
    { by rewrite Hbody, bind_Ok, (featuresOf_array body ref fs). }
    rewrite searchSchoolDistricts_outcome by done. cbv zeta.
    rewrite (merged_survivor _ _ _ _ _ _ _ Hpair Hfails Hres Hok Hjson), bind_Ok.
    destruct (forEach_collect_plain number_to_string fs [] Hfs) as [m Hm].
    rewrite Hm, bind_Ok.
    pose proof (first_feature_wins_invariant number_to_string fs m Hm) as Hcollected.
    destruct (Hsort (map_values m)) as (out & Hout & Hperm).
    { assert (Hnamed : forall d, d ∈ map_values m -> exists s, District.NAME d = JStr s).
      { intros d ([k d'] & -> & Hkd)%list_elem_of_fmap.
        destruct Hcollected as (_ & _ & Hfrom & _).
        destruct (Hfrom k d' Hkd) as (i & f & Hi & _ & Hd & _).
        rewrite Forall_forall in Hfs.
        destruct (normalizeDistrictAttributes_plain number_to_string f) as (d0 & s & Hd0 & Hs).
        { apply Hfs. by apply list_elem_of_lookup_2 in Hi. }
        exists s. simpl. congruence. }
      intros a b Ha Hb. destruct (Hnamed a Ha) as [s Hs], (Hnamed b Hb) as [t Ht].
      by apply (byName_returns _ _ a b s t). }
    exists m, out. rewrite Hout.
    split; [reflexivity|]. split; [exact Hcollected | exact Hperm].
Qed.

(** The private request is rejected and the public service knows Lincoln
    High: the school search resolves with its record, the district search with
    its district. *)
Lemma failing_source_contributes_nothing_witness :
  (exists out,
     outcome (searchSchools printNothing privateDown false "Lincoln" JUndefined) = Ok out
     /\ firstSeenOnly (recordOf <$> [lincolnOfOgden]) out)
  /\ exists districtMap out,
       outcome (searchSchoolDistricts printNothing codeUnitCompare sortBy
                  privateDown false "Lincoln") = Ok out
       /\ Collected printNothing [lincolnOfOgden] districtMap
       /\ out ≡ₚ map_values districtMap.
Proof.
  pose proof (failing_source_contributes_nothing printNothing codeUnitCompare sortBy
                privateDown "Lincoln" JUndefined)
    as (_ & _ & _ & _ & _ & _ & Hschools & Hdistricts).
  assert (Hpair : (privateLayer, publicLayer)
                  ∈ [(privateLayer, publicLayer); (publicLayer, privateLayer)])
    by apply list_elem_of_here.
  split.
  - refine (Hschools privateLayer publicLayer _ _ _ _ [lincolnOfOgden]
              Hpair eq_refl eq_refl eq_refl eq_refl eq_refl eq_refl _).
    by repeat constructor.
  - assert (Hlong : 2 <= String.length (trim "Lincoln")) by (simpl; lia).
    refine (Hdistricts privateLayer publicLayer _ _ _ [lincolnOfOgden]
              Hpair Hlong eq_refl eq_refl eq_refl eq_refl eq_refl _ _).
    + constructor; [|constructor]. split; [reflexivity|]. by repeat constructor.
    + intros l Hl.
      destruct (sortBy_returns _ (byName printNothing codeUnitCompare) l Hl) as [l' Hl'].
      exists l'. split; [exact Hl'|]. by apply sortBy_permutes in Hl'.
Defined.

Lemma sameDistrict_sym d d' : sameDistrict d d' = sameDistrict d' d.
Proof. apply strict_equals_sym. Qed.

Section DistrictResults.

Variable number_to_string : spec_float -> string.
Variable localeCompare : string -> string -> Z.
Variable array_sort : forall A : Type, (A -> A -> Res Z) -> list A -> Res (list A).

Hypothesis array_sort_permutes :
  forall A (cmp : A -> A -> Res Z) l l', array_sort A cmp l = Ok l' -> l' ≡ₚ l.

(** The districts a search resolves with have pairwise different identifiers,
    none of them empty, and each district has a name. *)
Theorem districts_are_distinct net aborted name ds :
  outcome (searchSchoolDistricts number_to_string localeCompare array_sort net aborted name)
    = Ok ds ->
  Apart sameDistrict ds
  /\ Forall (fun d => truthy (District.LEAID d) = true
                      /\ truthy (District.NAME d) = true) ds.
Proof.
  assert (Hnil : Apart sameDistrict [] /\
            Forall (fun d => truthy (District.LEAID d) = true
                             /\ truthy (District.NAME d) = true) []).
  { split; constructor. }
  destruct (Nat.lt_ge_cases (String.length (trim name)) 2) as [Hshort|Hlong].
  { rewrite searchSchoolDistricts_short by done. by intros [= <-]. }
  rewrite searchSchoolDistricts_outcome by done. cbv zeta.
  destruct (merged _ _) as [fs|]; simpl; [|by intros [= <-]].
  destruct (forEach (collect number_to_string) fs []) as [m|] eqn:Hm; simpl;
    [|by intros [= <-]].
  destruct (array_sort _ _ _) as [sorted|] eqn:Hsort; simpl; [|by intros [= <-]].
  intros [= <-]. apply array_sort_permutes in Hsort.
  destruct (first_feature_wins_invariant number_to_string fs m Hm) as (Hentries & Hapart & _).
  split.
  - apply (Apart_Permutation sameDistrict sameDistrict_sym (map_values m)); [done|exact Hapart].
  - rewrite Hsort. unfold map_values. apply Forall_fmap.
    eapply Forall_impl; [exact Hentries|]. intros [k d] (Hk & Hid & Hname). simpl in *.
    split; [congruence | done].
Qed.

End DistrictResults.

Lemma districts_are_distinct_witness :
  (forall A (cmp : A -> A -> Res Z) l l', sortBy A cmp l = Ok l' -> l' ≡ₚ l)
  /\ outcome (searchSchoolDistricts printNothing codeUnitCompare sortBy
                (answering [lincolnAttrs; leaIdOnly] [lincolnAttrs]) false "Lincoln")
     = Ok (map_values twoDistricts)
  /\ Apart sameDistrict (map_values twoDistricts).
Proof.
  split; [exact sortBy_permutes|]. split; [vm_compute; reflexivity|].
  refine (proj1 (districts_are_distinct printNothing codeUnitCompare sortBy sortBy_permutes
                   (answering [lincolnAttrs; leaIdOnly] [lincolnAttrs]) false "Lincoln"
                   (map_values twoDistricts) _)).
  vm_compute. reflexivity.
Defined.

(** ** What the executors send and log *)

Lemma trace_try_catch_onError {A} (body : Eff (list A)) label :
  trace (try_catch body (onError label)) = trace body ++ swallowed label (outcome body).
Proof.
  unfold try_catch, swallowed. destruct (outcome body) as [l|e]; [by rewrite app_nil_r|].
  simpl. f_equal. unfold onError.
  by destruct (negb (String.eqb (ename e) "AbortError")).
Qed.

Lemma trace_fetchBoth_logged net aborted url1 label1 url2 label2 :
  trace (fetchBoth net aborted url1 (caughtLogged label1) url2 (caughtLogged label2))
  = [Fetch url1; Fetch url2]
    ++ rejection label1 (fetched net aborted url1)
    ++ rejection label2 (fetched net aborted url2).
Proof.
  unfold fetchBoth, fetch, fetched.
  by destruct (if aborted then Rejects AbortError else net url1),
              (if aborted then Rejects AbortError else net url2).
Qed.

Section Traces.

Variable number_to_string : spec_float -> string.
Variable localeCompare : string -> string -> Z.
Variable array_sort : forall A : Type, (A -> A -> Res Z) -> list A -> Res (list A).

(** For a text of code units 0..255: when the where clause can be built, a
    school search sends exactly two requests, the private one first, both under
    that clause and capped at 100 records; it writes nothing to the console for
    a rejected request, and one line exactly when the rest of its [try] block
    throws something other than an AbortError, in which case it resolves with
    the empty list. When the district filter cannot be printed the search sends
    no request, writes that one line and resolves with the empty list. *)
Theorem school_search_trace net aborted name districtLEAID :
  match schoolWhere number_to_string name districtLEAID with
  | Ok whereClause =>
      let rest :=
        combined ← merged (settled net aborted (endpoint privateLayer whereClause "100"))
                          (settled net aborted (endpoint publicLayer whereClause "100"));
        normalized ← sequence (map normalizeFeature combined);
        Ok (unique normalized) in
      trace (searchSchools number_to_string net aborted name districtLEAID)
      = [Fetch (endpoint privateLayer whereClause "100");
         Fetch (endpoint publicLayer whereClause "100")]
        ++ swallowed "School search error:" rest
      /\ outcome (searchSchools number_to_string net aborted name districtLEAID)
         = recovered rest
  | Throw e =>
      trace (searchSchools number_to_string net aborted name districtLEAID)
      = (if negb (String.eqb (ename e) "AbortError")
         then [ConsoleError "School search error:" e] else [])
      /\ outcome (searchSchools number_to_string net aborted name districtLEAID) = Ok []
  end.
Proof.
  rewrite searchSchools_outcome. unfold searchSchools.
  rewrite trace_try_catch_onError, trace_lift_bind, outcome_bind, outcome_lift.
  destruct (schoolWhere number_to_string name districtLEAID) as [w|e]; [|by split].
  cbv zeta. rewrite !bind_Ok. split; [|reflexivity].
  rewrite trace_bind, trace_fetchBoth_quiet, outcome_fetchBoth by apply outcome_caughtQuiet.
  rewrite outcome_bind, outcome_fetchBoth, bind_Ok by apply outcome_caughtQuiet.
  unfold merged.
  assert (Hquiet : forall rest : Eff (list School.t),
            trace rest = [] ->
            ([Fetch (endpoint privateLayer w "100"); Fetch (endpoint publicLayer w "100")]
               ++ trace rest) ++ swallowed "School search error:" (outcome rest)
            = [Fetch (endpoint privateLayer w "100"); Fetch (endpoint publicLayer w "100")]
                ++ swallowed "School search error:" (outcome rest)).
  { intros rest ->. by rewrite app_nil_r. }
  match goal with |- (_ ++ trace ?r) ++ swallowed _ (outcome ?r) = _ =>
    rewrite (Hquiet r); [f_equal; f_equal|]
  end.
  - rewrite outcome_bind, outcome_lift.
    destruct (bodyOf (settled net aborted (endpoint privateLayer w "100"))); [|done].
    rewrite !bind_Ok, outcome_bind, outcome_lift.
    destruct (bodyOf (settled net aborted (endpoint publicLayer w "100"))); [|done].
    rewrite !bind_Ok, outcome_bind, outcome_lift.
    destruct (featuresOf a); [|done].
    rewrite !bind_Ok, outcome_bind, outcome_lift.
    destruct (featuresOf a0); [|done].
    rewrite !bind_Ok, outcome_bind, outcome_lift.
    by destruct (sequence _).
  - rewrite trace_lift_bind. destruct (bodyOf _); [|done].
    rewrite trace_lift_bind. destruct (bodyOf _); [|done].
    rewrite trace_lift_bind. destruct (featuresOf _); [|done].
    rewrite trace_lift_bind. destruct (featuresOf _); [|done].
    rewrite trace_lift_bind. by destruct (sequence _).
Qed.

(** For a text of code units 0..255 that passes the length check, a district
    search sends exactly two requests, the private one first, capped at 500
    records. It then writes one console line for each rejected request, an
    abort included (in an order that is the network's), and one more exactly
    when the rest of its [try] block throws something other than an
    AbortError, in which case it resolves with the empty list. *)
Theorem district_search_trace net aborted name :
  2 <= String.length (trim name) ->
  let whereClause := likeName (trim name) in
  let rest :=
    allSchools ← merged (settled net aborted (endpoint privateLayer whereClause "500"))
                        (settled net aborted (endpoint publicLayer whereClause "500"));
    districtMap ← forEach (collect number_to_string) allSchools [];
    array_sort _ (byName number_to_string localeCompare) (map_values districtMap) in
  exists lines,
    trace (searchSchoolDistricts number_to_string localeCompare array_sort net aborted name)
    = [Fetch (endpoint privateLayer whereClause "500");
       Fetch (endpoint publicLayer whereClause "500")]
      ++ lines ++ swallowed "District search error:" rest
    /\ lines ≡ₚ rejection "Private fetch error:"
                  (fetched net aborted (endpoint privateLayer whereClause "500"))
                ++ rejection "Public fetch error:"
                     (fetched net aborted (endpoint publicLayer whereClause "500"))
    /\ outcome (searchSchoolDistricts number_to_string localeCompare array_sort
                  net aborted name) = recovered rest.
Proof.
  intros Hlong whereClause rest.
  exists (rejection "Private fetch error:"
            (fetched net aborted (endpoint privateLayer whereClause "500"))
          ++ rejection "Public fetch error:"
               (fetched net aborted (endpoint publicLayer whereClause "500"))).
  split; [|split; [reflexivity|]];
    [|unfold rest, whereClause; by rewrite searchSchoolDistricts_outcome].
  unfold searchSchoolDistricts.
  assert (String.eqb name "" = false) as ->.
  { apply String.eqb_neq. intros ->. simpl in Hlong. lia. }
  assert (Nat.ltb (String.length (trim name)) 2 = false) as -> by (apply Nat.ltb_ge; lia).
  simpl orb. cbv iota. rewrite trace_try_catch_onError. cbv zeta.
  rewrite trace_bind, trace_fetchBoth_logged, outcome_fetchBoth
    by apply outcome_caughtLogged.
  rewrite outcome_bind, outcome_fetchBoth, bind_Ok by apply outcome_caughtLogged.
  fold whereClause.
  assert (Hquiet : forall (sent lines : list Event) (r : Eff (list District.t)),
            trace r = [] -> outcome r = rest ->
            ((sent ++ lines) ++ trace r) ++ swallowed "District search error:" (outcome r)
            = sent ++ lines ++ swallowed "District search error:" rest).
  { intros sent lines r -> ->. by rewrite app_nil_r, <- app_assoc. }
  apply Hquiet.
  - rewrite trace_lift_bind. destruct (bodyOf _); [|done].
    rewrite trace_lift_bind. destruct (bodyOf _); [|done].
    rewrite trace_lift_bind. destruct (featuresOf _); [|done].
    rewrite trace_lift_bind. destruct (featuresOf _); [|done].
    rewrite trace_lift_bind. by destruct (forEach _ _ _).
  - unfold rest, merged.
    rewrite outcome_bind, outcome_lift.
    destruct (bodyOf (settled net aborted (endpoint privateLayer _ "500"))); [|done].
    rewrite !bind_Ok, outcome_bind, outcome_lift.
    destruct (bodyOf (settled net aborted (endpoint publicLayer _ "500"))); [|done].
    rewrite !bind_Ok, outcome_bind, outcome_lift.
    destruct (featuresOf a); [|done].
    rewrite !bind_Ok, outcome_bind, outcome_lift.
    destruct (featuresOf a0); [|done].
    rewrite !bind_Ok, outcome_bind, outcome_lift.
    by destruct (forEach _ _ _).
Qed.

End Traces.

(** An aborted school search: two requests, no console line, no school. A
    search whose district filter cannot be printed: no request, one line. *)
Example school_search_traces :
  searchSchools printNothing lincolnEverywhere true "Lincoln" (JStr "4900600")
  = mkEff [Fetch (endpoint privateLayer
                    "UPPER(NAME) LIKE UPPER('%Lincoln%') AND LEAID = '4900600'" "100");
           Fetch (endpoint publicLayer
                    "UPPER(NAME) LIKE UPPER('%Lincoln%') AND LEAID = '4900600'" "100")]
          (Ok [])
  /\ searchSchools printNothing lincolnEverywhere false "Lincoln"
       (JObj 5 [("toString", JStr "x")])
     = mkEff [ConsoleError "School search error:" TypeError] (Ok []).
Proof. split; vm_compute; reflexivity. Qed.

Lemma district_search_trace_witness :
  2 <= String.length (trim "Lincoln")
  /\ exists lines,
       trace (searchSchoolDistricts printNothing codeUnitCompare sortBy
                lincolnEverywhere true "Lincoln")
       = [Fetch (endpoint privateLayer (likeName "Lincoln") "500");
          Fetch (endpoint publicLayer (likeName "Lincoln") "500")]
         ++ lines
       /\ lines ≡ₚ [ConsoleError "Private fetch error:" AbortError;
                    ConsoleError "Public fetch error:" AbortError]
       /\ outcome (searchSchoolDistricts printNothing codeUnitCompare sortBy
                     lincolnEverywhere true "Lincoln") = Ok [].
Proof.
  assert (Hlong : 2 <= String.length (trim "Lincoln")) by (simpl; lia).
  split; [exact Hlong|].
  destruct (district_search_trace printNothing codeUnitCompare sortBy lincolnEverywhere true
              "Lincoln" Hlong) as (lines & Htrace & Hlines & Hout).
  exists lines. split; [|split; [exact Hlines | exact Hout]].
  rewrite Htrace. by rewrite app_nil_r.
Defined.

(** ** The deduplicator, applied twice *)

Lemma filter_from_all {A} (keep : A -> nat -> bool) n l :
  (forall i x, l !! i = Some x -> keep x (n + i) = true) -> filter_from n keep l = l.
Proof.
  revert n. induction l as [|z l IH]; intros n Hall; simpl; [done|].
  rewrite <- (Nat.add_0_r n) at 1. rewrite (Hall 0 z eq_refl). f_equal.
  apply IH. intros i x Hi. rewrite Nat.add_succ_l, <- Nat.add_succ_r. by apply (Hall (S i)).
Qed.

(** Deduplicating a deduplicated list changes nothing. *)
Theorem unique_idempotent normalized : unique (unique normalized) = unique normalized.
Proof.
  unfold unique at 1. apply filter_from_all. intros a x Ha. simpl.
  destruct (filter_from_lookup 0 _ _ _ _ Ha) as (m & Hm & Hkeep). simpl in Hkeep.
  unfold firstOfItsKind in *.
  set (p := if truthy (School.NCESSCH x) then sameId x else samePlace x).
  assert (Hp : is_index (findIndex p normalized) m = true).
  { unfold p. by destruct (truthy (School.NCESSCH x)). }
  assert (Hgoal : is_index (findIndex p (unique normalized)) a = true).
  { apply is_index_Some, findIndex_Some in Hp as [(x' & Hx' & Hpx) _].
    assert (x' = x) as -> by congruence.
    rewrite (findIndex_exact p (unique normalized) a x Ha Hpx); [simpl; apply Nat.eqb_refl|].
    intros b y Hb Hy.
    assert (He : earlier (unique normalized) y x) by by exists b, a.
    apply filter_from_earlier in He as (m' & n' & Hlt & Hm' & Hn' & _ & Hx).
    simpl in Hx. unfold firstOfItsKind in Hx. fold p in Hx.
    assert (Hx2 : is_index (findIndex p normalized) n' = true).
    { unfold p. by destruct (truthy (School.NCESSCH x)). }
    apply is_index_Some, findIndex_Some in Hx2 as [_ Hbefore]. by apply (Hbefore m'). }
  unfold p in Hgoal. by destruct (truthy (School.NCESSCH x)).
Qed.

(** ** Text and URLs *)

Lemma append_cons c (s t : string) : String c s +:+ t = String c (s +:+ t).
Proof. reflexivity. Qed.

Lemma append_assoc (s t u : string) : (s +:+ t) +:+ u = s +:+ (t +:+ u).
Proof. induction s as [|c s IH]; [done|]. rewrite !append_cons. by f_equal. Qed.

Lemma append_nil_r (s : string) : s +:+ "" = s.
Proof. induction s as [|c s IH]; [done|]. rewrite append_cons. by f_equal. Qed.

Lemma rev_app_spec s t : String.rev_app s t = String.rev s +:+ t.
Proof.
  revert t. induction s as [|c s IH]; intros t; [done|].
  change (String.rev (String c s)) with (String.rev_app s (String c "")).
  simpl String.rev_app at 1.
  by rewrite (IH (String c t)), (IH (String c "")), append_assoc.
Qed.

Lemma rev_app_append s t u : String.rev_app (s +:+ t) u = String.rev_app t (String.rev_app s u).
Proof. revert u. induction s as [|c s IH]; intros u; simpl; [done | apply IH]. Qed.

Lemma rev_append s t : String.rev (s +:+ t) = String.rev t +:+ String.rev s.
Proof. unfold String.rev at 1. by rewrite rev_app_append, rev_app_spec. Qed.

Lemma rev_cons c s : String.rev (String c s) = String.rev s +:+ String c "".
Proof. unfold String.rev at 1. simpl. apply rev_app_spec. Qed.

Lemma rev_involutive s : String.rev (String.rev s) = s.
Proof.
  induction s as [|c s IH]; [done|].
  by rewrite rev_cons, rev_append, IH.
Qed.

Lemma length_trimStart s : String.length (trimStart s) <= String.length s.
Proof.
  induction s as [|c s IH]; simpl; [done|].
  destruct (is_white c); simpl; lia.
Qed.

Lemma trimStart_fixed c s : trimStart (String c s) = String c s -> is_white c = false.
Proof.
  simpl. destruct (is_white c); [|done]. intros H.
  pose proof (length_trimStart s) as Hlen. rewrite H in Hlen. simpl in Hlen. lia.
Qed.

Lemma trimStart_idempotent s : trimStart (trimStart s) = trimStart s.
Proof.
  induction s as [|c s IH]; simpl; [done|].
  destruct (is_white c) eqn:E; [exact IH|]. simpl. by rewrite E.
Qed.

Lemma trimStart_suffix s : exists w, s = w +:+ trimStart s.
Proof.
  induction s as [|c s [w IH]]; simpl; [by exists ""|].
  destruct (is_white c); [|by exists ""].
  exists (String c w). rewrite append_cons. by f_equal.
Qed.

Lemma trimStart_rev_clean u :
  trimStart u = u -> trimStart (String.rev (trimStart (String.rev u)))
                     = String.rev (trimStart (String.rev u)).
Proof.
  intros Hu. destruct (trimStart_suffix (String.rev u)) as [w Hw].
  set (v := trimStart (String.rev u)) in *.
  assert (Hsplit : u = String.rev v +:+ String.rev w).
  { by rewrite <- rev_append, <- Hw, rev_involutive. }
  destruct (String.rev v) as [|c r] eqn:Hv; [done|].
  simpl in Hsplit. rewrite Hsplit in Hu. apply trimStart_fixed in Hu. simpl. by rewrite Hu.
Qed.

Lemma trim_idempotent s : trim (trim s) = trim s.
Proof.
  unfold trim.
  rewrite (trimStart_rev_clean (trimStart s)) by apply trimStart_idempotent.
  by rewrite rev_involutive, trimStart_idempotent.
Qed.

(** White space around the text of a search changes nothing: the executors
    send the same requests and resolve with the same list for a text and for the
    text trimmed. *)
Theorem surrounding_space_is_ignored
    number_to_string localeCompare array_sort net aborted name districtLEAID :
  searchSchoolDistricts number_to_string localeCompare array_sort net aborted (trim name)
  = searchSchoolDistricts number_to_string localeCompare array_sort net aborted name
  /\ searchSchools number_to_string net aborted (trim name) districtLEAID
     = searchSchools number_to_string net aborted name districtLEAID.
Proof.
  split.
  - unfold searchSchoolDistricts. rewrite trim_idempotent.
    destruct (Nat.ltb (String.length (trim name)) 2) eqn:Hshort;
      [by rewrite !orb_true_r|].
    rewrite !orb_false_r.
    assert (String.eqb name "" = false) as ->.
    { apply String.eqb_neq. intros ->. discriminate Hshort. }
    assert (String.eqb (trim name) "" = false) as ->; [|done].
    apply String.eqb_neq. intros H. rewrite H in Hshort. discriminate Hshort.
  - unfold searchSchools, schoolWhere. by rewrite trim_idempotent.
Qed.

Lemma urlSafe_percent n : n < 256 -> Forall (fun c => urlSafe c = true)
                                       (String.list_ascii_of_string (percent n)).
Proof.
  intros Hn.
  assert (Hall : forallb (fun n => forallb urlSafe (String.list_ascii_of_string (percent n)))
                   (seq 0 256) = true) by (vm_compute; reflexivity).
  rewrite forallb_forall in Hall. specialize (Hall n).
  apply Forall_forall. intros c Hc. apply list_elem_of_In in Hc.
  assert (Hin : In n (seq 0 256)) by (apply in_seq; lia).
  specialize (Hall Hin). rewrite forallb_forall in Hall. by apply Hall.
Qed.

Lemma list_ascii_of_append s t :
  String.list_ascii_of_string (s +:+ t)
  = String.list_ascii_of_string s ++ String.list_ascii_of_string t.
Proof. induction s as [|c s IH]; [done|]. rewrite append_cons. simpl. by f_equal. Qed.

Lemma nat_of_ascii_bound c : Ascii.nat_of_ascii c < 256.
Proof. apply Ascii.nat_ascii_bounded. Qed.

Lemma encodeURIComponent_cons c s :
  encodeURIComponent (String c s) =
    (if unreserved c then String c ""
     else if Nat.ltb (Ascii.nat_of_ascii c) 128 then percent (Ascii.nat_of_ascii c)
     else percent (192 + Ascii.nat_of_ascii c / 64)
          +:+ percent (128 + Ascii.nat_of_ascii c mod 64))
    +:+ encodeURIComponent s.
Proof. reflexivity. Qed.

Lemma urlSafe_encodeURIComponent s :
  Forall (fun c => urlSafe c = true) (String.list_ascii_of_string (encodeURIComponent s)).
Proof.
  induction s as [|c s IH]; [constructor|].
  rewrite encodeURIComponent_cons, list_ascii_of_append. apply Forall_app. split; [|exact IH].
  pose proof (nat_of_ascii_bound c) as Hc.
  destruct (unreserved c) eqn:Hu.
  - constructor; [|constructor]. unfold urlSafe. by rewrite Hu.
  - destruct (Nat.ltb (Ascii.nat_of_ascii c) 128) eqn:Hlt.
    + by apply urlSafe_percent.
    + rewrite list_ascii_of_append. apply Forall_app.
      split; apply urlSafe_percent.
      * assert (Ascii.nat_of_ascii c / 64 < 4)
          by (apply Nat.Div0.div_lt_upper_bound; lia).
        lia.
      * assert (Ascii.nat_of_ascii c mod 64 < 64) by (apply Nat.mod_upper_bound; lia).
        lia.
Qed.

(** Whatever the where clause holds, its encoding in the URL of a request has
    no character that delimits query parameters (ampersand, equals sign,
    question mark, hash, slash, plus) and no space: the text of a search cannot
    add or change a parameter of the request. *)
Theorem where_clause_stays_a_parameter whereClause c :
  c ∈ String.list_ascii_of_string (encodeURIComponent whereClause) ->
  c ∉ delimiters.
Proof.
  intros Hc Hd.
  pose proof (urlSafe_encodeURIComponent whereClause) as Hsafe.
  rewrite Forall_forall in Hsafe. specialize (Hsafe c Hc).
  unfold delimiters in Hd. simpl in Hd.
  repeat (apply elem_of_cons in Hd as [->|Hd]; [by vm_compute in Hsafe|]).
  by apply elem_of_nil in Hd.
Qed.

(** ** One malformed answer *)

Lemma sequence_throws {A} (l : list (Res A)) e :
  Throw e ∈ l -> exists e', sequence l = Throw e'.
Proof.
  induction l as [|m l IH]; [by intros ?%elem_of_nil|].
  intros [<-|Hin]%elem_of_cons; simpl; [by eexists|].
  destruct m; simpl; [|by eexists]. destruct (IH Hin) as [e' ->]. by eexists.
Qed.

Lemma forEach_throws_on_null number_to_string fs m f :
  f ∈ fs -> nullish f = true ->
  exists e, forEach (collect number_to_string) fs m = Throw e.
Proof.
  intros Hin Hf. revert m. induction fs as [|g fs IH]; intros m; [by apply elem_of_nil in Hin|].
  apply elem_of_cons in Hin as [<-|Hin]; simpl.
  - destruct f; try discriminate Hf; by eexists.
  - destruct (collect number_to_string m g) as [m'|]; simpl; [by apply IH | by eexists].
Qed.

(** One [null] among the features of either source voids the whole search:
    both executors resolve with the empty list, whatever the other features
    are. *)
Theorem null_feature_voids_search
    number_to_string localeCompare array_sort net aborted name districtLEAID f :
  nullish f = true ->
  (forall whereClause combined,
     schoolWhere number_to_string name districtLEAID = Ok whereClause ->
     merged (settled net aborted (endpoint privateLayer whereClause "100"))
            (settled net aborted (endpoint publicLayer whereClause "100")) = Ok combined ->
     f ∈ combined ->
     outcome (searchSchools number_to_string net aborted name districtLEAID) = Ok [])
  /\ (forall allSchools,
        merged (settled net aborted (endpoint privateLayer (likeName (trim name)) "500"))
               (settled net aborted (endpoint publicLayer (likeName (trim name)) "500"))
          = Ok allSchools ->
        f ∈ allSchools ->
        outcome (searchSchoolDistricts number_to_string localeCompare array_sort
                   net aborted name) = Ok []).
Proof.
  intros Hf. split.
  - intros w combined Hw Hm Hin. rewrite searchSchools_outcome, Hw, bind_Ok, Hm, bind_Ok.
    destruct (sequence_throws (map normalizeFeature combined) TypeError) as [e ->]; [|done].
    apply list_elem_of_In, in_map_iff. exists f. split; [|by apply list_elem_of_In].
    by destruct f.
  - intros fs Hm Hin.
    destruct (Nat.lt_ge_cases (String.length (trim name)) 2) as [Hshort|Hlong].
    + by rewrite searchSchoolDistricts_short.
    + rewrite searchSchoolDistricts_outcome by done. cbv zeta. rewrite Hm, bind_Ok.
      by destruct (forEach_throws_on_null number_to_string fs [] f Hin Hf) as [e ->].
Qed.

Lemma null_feature_voids_search_witness :
  nullish JNull = true
  /\ outcome (searchSchools printNothing
                (answering [feature 20 (lincoln111 7)] [JNull]) false "Lincoln" JUndefined)
     = Ok [].
Proof.
  split; [reflexivity|].
  refine (proj1 (null_feature_voids_search printNothing codeUnitCompare sortBy
                   (answering [feature 20 (lincoln111 7)] [JNull]) false "Lincoln"
                   JUndefined JNull eq_refl) _ [feature 20 (lincoln111 7); JNull]
            eq_refl eq_refl _).
  apply elem_of_cons. right. by constructor.
Defined.

Lemma coordinates_of_normalized a geometry r :
  normalizeSchoolAttributes a geometry = Ok r ->
  (School.LAT r, School.LON r) = coordinatesOf (attrLat a) (attrLon a) geometry.
Proof.
  intros Hr.
  assert (Ha : nullish a = false) by (destruct a; try done; discriminate Hr).
  rewrite (normalizeSchoolAttributes_closed _ _ Ha) in Hr. injection Hr as <-.
  simpl. by destruct (coordinatesOf _ _ _).
Qed.

Lemma merged_without_features net layer w count res body :
  layer ∈ [privateLayer; publicLayer] ->
  net (endpoint layer w count) = Arrives res ->
  ok res = true -> json res = Ok body -> featuresOf body = Ok [] ->
  merged (settled (emptyAt (endpoint layer w count) net) false (endpoint privateLayer w count))
         (settled (emptyAt (endpoint layer w count) net) false (endpoint publicLayer w count))
  = merged (settled net false (endpoint privateLayer w count))
           (settled net false (endpoint publicLayer w count)).
Proof.
  intros Hlayer Hres Hok Hbody Hfs.
  assert (Hhere : bodyOf (settled net false (endpoint layer w count)) = Ok body).
  { unfold settled, caught, bodyOf. by rewrite Hres, Hok. }
  assert (Hthere : bodyOf (settled (emptyAt (endpoint layer w count) net) false
                             (endpoint layer w count)) = Ok noFeatures).
  { unfold settled, caught, emptyAt, bodyOf. by rewrite String.eqb_refl. }
  apply list_elem_of_In in Hlayer. destruct Hlayer as [<-|[<-|[]]]; unfold merged.
  - rewrite Hhere, Hthere, settled_emptyAt_other, !bind_Ok.
    + destruct (bodyOf _) as [publicJson|]; [|done].
      unfold mbind, Res_bind. by rewrite Hfs.
    + intros H. symmetry in H. by apply endpoint_layers_differ in H.
  - rewrite Hhere, Hthere, settled_emptyAt_other by apply endpoint_layers_differ.
    destruct (bodyOf _) as [privateJson|]; [|done].
    unfold mbind, Res_bind. rewrite Hfs.
    by destruct (featuresOf privateJson).
Qed.

(** A successful response whose JSON has no [features] array, an error
    envelope for instance, counts as an answer with no feature: the result is
    the one obtained had that source found nothing. *)
Theorem answer_without_features_is_empty
    number_to_string localeCompare array_sort net name districtLEAID layer res body :
  layer ∈ [privateLayer; publicLayer] ->
  ok res = true -> json res = Ok body ->
  nullish body = false ->
  (forall ref elems, prop body "features" <> JArr ref elems) ->
  (forall whereClause,
     schoolWhere number_to_string name districtLEAID = Ok whereClause ->
     net (endpoint layer whereClause "100") = Arrives res ->
     outcome (searchSchools number_to_string net false name districtLEAID)
     = outcome (searchSchools number_to_string
                  (emptyAt (endpoint layer whereClause "100") net) false name districtLEAID))
  /\ (net (endpoint layer (likeName (trim name)) "500") = Arrives res ->
      outcome (searchSchoolDistricts number_to_string localeCompare array_sort net false name)
      = outcome (searchSchoolDistricts number_to_string localeCompare array_sort
                   (emptyAt (endpoint layer (likeName (trim name)) "500") net) false name)).
Proof.
  intros Hlayer Hok Hbody Hnull Hshape.
  assert (Hfs : featuresOf body = Ok []).
  { unfold featuresOf. rewrite (get_prop _ _ Hnull), bind_Ok.
    destruct (prop body "features") eqn:E; try done. by destruct (Hshape ref elems). }
  split.
  - intros w Hw Hres. rewrite !searchSchools_outcome, Hw, !bind_Ok.
    by rewrite (merged_without_features _ _ _ _ _ _ Hlayer Hres Hok Hbody Hfs).
  - intros Hres.
    destruct (Nat.lt_ge_cases (String.length (trim name)) 2) as [Hshort|Hlong].
    + by rewrite !searchSchoolDistricts_short.
    + rewrite !searchSchoolDistricts_outcome by done. cbv zeta.
      by rewrite (merged_without_features _ _ _ _ _ _ Hlayer Hres Hok Hbody Hfs).
Qed.

(** ** More of the controller *)

Lemma schoolThen_fields query res st :
  debouncedSchoolQuery (schoolThen query res st) = debouncedSchoolQuery st
  /\ selectedDistrict (schoolThen query res st) = selectedDistrict st
  /\ schoolCache (schoolThen query res st) = <[q_cacheKey query := res]> (schoolCache st)
  /\ schools (schoolThen query res st) = res.
Proof.
  unfold schoolThen. destruct (q_selectedSchool query) as [selected|]; [|done].
  by destruct (existsb (stillMatches selected) res).
Qed.

Section MoreController.

Variable number_to_string : spec_float -> string.

(** Once the request for the current text and filter has settled, however it
    went, the effect serves the list it resolved with from the cache and starts
    no request: the list of an answered search, and the empty list of an aborted
    or failed one. *)
Theorem settled_list_is_served net query st :
  searchable st = true ->
  cacheKeyOf number_to_string st (trim (debouncedSchoolQuery st)) = Ok (q_cacheKey query) ->
  exists res,
    outcome (searchSchools number_to_string net (q_aborted query) (q_text query)
               (q_district query)) = Ok res
    /\ schoolEffect number_to_string (schoolSettles number_to_string net query st).1
       = Ok (setSchools res (schoolSettles number_to_string net query st).1, None).
Proof.
  intros Hsearch Hkey.
  destruct (searchSchools_returns number_to_string net (q_aborted query) (q_text query)
              (q_district query)) as [res Hres].
  exists res. split; [exact Hres|].
  unfold schoolSettles. rewrite Hres. simpl fst.
  destruct (schoolThen_fields query res st) as (Htext & Hdistrict & Hcache & _).
  set (st' := setLoadingSchools false (schoolThen query res st)).
  assert (Htext' : debouncedSchoolQuery st' = debouncedSchoolQuery st) by exact Htext.
  assert (Hdistrict' : selectedDistrict st' = selectedDistrict st) by exact Hdistrict.
  assert (Hcache' : schoolCache st' = <[q_cacheKey query := res]> (schoolCache st))
    by exact Hcache.
  unfold schoolEffect. rewrite Htext', Hdistrict'.
  unfold searchable in Hsearch. apply negb_true_iff in Hsearch. rewrite Hsearch.
  assert (Hkey' : cacheKeyOf number_to_string st' (trim (debouncedSchoolQuery st))
                  = Ok (q_cacheKey query)).
  { unfold cacheKeyOf, districtFilter in *. by rewrite Hdistrict'. }
  by rewrite Hkey', bind_Ok, Hcache', lookup_insert_eq.
Qed.

Lemma schoolEffect_starts st st' query :
  schoolEffect number_to_string st = Ok (st', Some query) -> q_aborted query = false.
Proof.
  unfold schoolEffect. destruct (_ && _); [discriminate|].
  destruct (cacheKeyOf number_to_string st _) as [key|]; simpl; [|discriminate].
  destruct (schoolCache st !! key); [discriminate|]. by intros [= _ <-].
Qed.

Lemma step_keeps_latest_live p a p' :
  OnlyLatestLive p -> step number_to_string p a = Ok p' -> OnlyLatestLive p'.
Proof.
  intros [Hlast Hlive]. destruct a as [text|i net]; simpl.
  - set (started' := match cleanup p with
                     | Some i => alter abort i (started p)
                     | None => started p
                     end).
    assert (Hdead : forall i query, started' !! i = Some query -> q_aborted query = true).
    { intros i query Hi. unfold started' in Hi.
      destruct (cleanup p) as [c|] eqn:Hc.
      - destruct (decide (c = i)) as [->|Hne].
        + rewrite list_lookup_alter_eq in Hi.
          destruct (started p !! i); simpl in Hi; [|done]. by injection Hi as <-.
        + rewrite list_lookup_alter_ne in Hi by done.
          destruct (q_aborted query) eqn:E; [done|].
          specialize (Hlive i query Hi E). congruence.
      - destruct (q_aborted query) eqn:E; [done|].
        specialize (Hlive i query Hi E). congruence. }
    destruct (schoolEffect number_to_string _) as [[st query]|] eqn:Heffect; simpl;
      [|discriminate].
    destruct query as [query|]; intros [= <-]; split; simpl.
    + intros i [= <-]. rewrite length_app. simpl. lia.
    + intros i q Hi Hq. destruct (decide (i < length started')) as [Hlt|Hge].
      * rewrite lookup_app_l in Hi by done. rewrite (Hdead i q Hi) in Hq. discriminate.
      * rewrite lookup_app_r in Hi by lia.
        destruct (i - length started') as [|n] eqn:E; simpl in Hi; [|done].
        f_equal. lia.
    + intros i [=].
    + intros i q Hi Hq. rewrite (Hdead i q Hi) in Hq. discriminate.
  - destruct (started p !! i); by intros [= <-].
Qed.

(** Through any sequence of text changes and settled requests, at most one
    school request has a signal that is not aborted: the last one started,
    which is the one the pending cleanup will abort. *)
Theorem only_latest_request_is_live actions p :
  steps number_to_string initialPage actions = Ok p -> OnlyLatestLive p.
Proof.
  assert (Hinit : OnlyLatestLive initialPage).
  { split; [by intros i [=] | by intros i q ?]. }
  revert Hinit. generalize initialPage as p0. revert p.
  induction actions as [|a actions IH]; intros p p0 Hp0; simpl.
  - by intros [= <-].
  - intros (p1 & Hstep & Hrest)%bind_returns.
    apply (IH p p1); [by apply (step_keeps_latest_live p0 a) | exact Hrest].
Qed.

(** The details panel shows a map exactly when the selected school has both
    coordinates. A school normalized from a feature whose geometry has both [x]
    and [y] always has them. Its marker sits at the attributes' coordinates when
    both are present and at the geometry's otherwise, and carries a non-empty
    id and label; the marker is built whenever the school has an identifier or
    its object id can be printed, and building it throws when the school has no
    identifier and its object id is an object that cannot be printed. *)
Theorem located_school_has_marker a geometry r :
  normalizeSchoolAttributes a geometry = Ok r ->
  (truthy (School.LAT r) && truthy (School.LON r) = false ->
   mapMarker number_to_string r = Ok None)
  /\ (truthy (prop geometry "x") = true -> truthy (prop geometry "y") = true ->
      (truthy (School.NCESSCH r) = true
       \/ returns (optionalToString number_to_string (School.OBJECTID r)) ->
       exists m, mapMarker number_to_string r = Ok (Some m)
         /\ (m_lat m, m_lng m)
            = (if truthy (attrLat a) && truthy (attrLon a)
               then (attrLat a, attrLon a)
               else (prop geometry "y", prop geometry "x"))
         /\ truthy (m_id m) = true /\ truthy (m_label m) = true)
      /\ (truthy (School.NCESSCH r) = false ->
          forall e, optionalToString number_to_string (School.OBJECTID r) = Throw e ->
                    mapMarker number_to_string r = Throw e)
      /\ (primitive (School.OBJECTID r) = true ->
          returns (optionalToString number_to_string (School.OBJECTID r)))).
Proof.
  intros Hr. split.
  { intros Hcoords. unfold mapMarker. by rewrite Hcoords. }
  intros Hx Hy.
  assert (Hg : truthy geometry = true) by (by destruct geometry).
  pose proof (coordinates_of_normalized a geometry r Hr) as Hcoords.
  assert (Hboth : (School.LAT r, School.LON r)
                  = (if truthy (attrLat a) && truthy (attrLon a)
                     then (attrLat a, attrLon a)
                     else (prop geometry "y", prop geometry "x"))).
  { rewrite Hcoords. unfold coordinatesOf. rewrite Hg, andb_true_r.
    simpl firstTruthy. rewrite Hx, Hy.
    by destruct (truthy (attrLat a)), (truthy (attrLon a)). }
  assert (Hlat : truthy (School.LAT r) = true /\ truthy (School.LON r) = true).
  { destruct (truthy (attrLat a)) eqn:E1, (truthy (attrLon a)) eqn:E2;
      simpl in Hboth; injection Hboth as -> ->; by split. }
  destruct Hlat as [Hlat Hlon].
  assert (Hlabel : exists label,
            (Ok (School.NAME r) ||| str "School") = Ok label /\ truthy label = true).
  { unfold str. rewrite js_or_Ok.
    destruct (truthy (School.NAME r)) eqn:E; by eexists. }
  destruct Hlabel as (label & Hlabel & Hlabelled).
  unfold mapMarker. rewrite Hlat, Hlon. simpl andb. cbv iota.
  unfold str in *. rewrite (js_or_Ok (School.NCESSCH r)).
  split; [|split].
  - intros Hid.
    assert (Hsome : exists id,
              ((if truthy (School.NCESSCH r) then Ok (School.NCESSCH r)
                else optionalToString number_to_string (School.OBJECTID r))
               ||| Ok (JStr "school")) = Ok id /\ truthy id = true).
    { destruct (truthy (School.NCESSCH r)) eqn:E.
      - rewrite js_or_Ok, E. by eexists.
      - destruct Hid as [Hid|[v Hv]]; [done|]. rewrite Hv, js_or_Ok.
        destruct (truthy v) eqn:Ev; by eexists. }
    destruct Hsome as (id & -> & Hidentified). rewrite bind_Ok, Hlabel, bind_Ok.
    eexists. split; [reflexivity|]. simpl. by rewrite Hboth.
  - intros Hnone e He. by rewrite Hnone, He.
  - intros Hprim. unfold optionalToString.
    destruct (nullish (School.OBJECTID r)); [by eexists|].
    destruct (toString_primitive number_to_string _ Hprim) as [s ->]. by eexists.
Qed.

End MoreController.

(** Changing the district selects a district of the list that carries the
    chosen identifier, and none only when the choice is empty or no district
    carries it; the lists, the text and the loading flag are left alone. *)
Theorem district_change_selects_listed leaId st :
  let st' := handleDistrictChange leaId st in
  (forall d, selectedDistrict st' = Some d ->
     leaId <> "" /\ d ∈ districts st /\ District.LEAID d = JStr leaId)
  /\ (selectedDistrict st' = None ->
      leaId = "" \/ forall d, d ∈ districts st -> District.LEAID d <> JStr leaId)
  /\ districts st' = districts st /\ schools st' = schools st
  /\ debouncedSchoolQuery st' = debouncedSchoolQuery st
  /\ loadingSchools st' = loadingSchools st.
Proof.
  intros st'. unfold st'. rewrite handleDistrictChange_district.
  split; [|split].
  - intros d Hd. destruct (String.eqb leaId "") eqn:E; [discriminate|].
    apply String.eqb_neq in E. split; [exact E|].
    apply find_some in Hd as [Hin Hd]. split; [by apply list_elem_of_In|].
    by apply strict_equals_JStr.
  - intros Hnone. destruct (String.eqb leaId "") eqn:E; [left; by apply String.eqb_eq|].
    right. intros d Hin Hid. apply list_elem_of_In in Hin.
    apply (find_none _ _ Hnone) in Hin. simpl in Hin.
    rewrite Hid in Hin. simpl in Hin. by rewrite String.eqb_refl in Hin.
  - unfold handleDistrictChange.
    by destruct (schoolCache _ !! _), (String.eqb leaId "").
Qed.

(** ** Instances of the properties above *)

Lemma where_clause_stays_a_parameter_witness :
  Ascii.ascii_of_nat 37 ∈ String.list_ascii_of_string (encodeURIComponent "a b")
  /\ Ascii.ascii_of_nat 37 ∉ delimiters.
Proof.
  assert (Hin : Ascii.ascii_of_nat 37
                ∈ String.list_ascii_of_string (encodeURIComponent "a b")).
  { apply list_elem_of_In. vm_compute. right. left. reflexivity. }
  split; [exact Hin|].
  exact (where_clause_stays_a_parameter "a b" (Ascii.ascii_of_nat 37) Hin).
Defined.

Lemma answer_without_features_is_empty_witness :
  privateLayer ∈ [privateLayer; publicLayer]
  /\ nullish errorEnvelope = false
  /\ outcome (searchSchools printNothing privateInError false "Lincoln" JUndefined)
     = outcome (searchSchools printNothing
                  (emptyAt (endpoint privateLayer (likeName "Lincoln") "100") privateInError)
                  false "Lincoln" JUndefined).
Proof.
  assert (Hlayer : privateLayer ∈ [privateLayer; publicLayer]) by constructor.
  split; [exact Hlayer|]. split; [reflexivity|].
  refine (proj1 (answer_without_features_is_empty printNothing codeUnitCompare sortBy
                   privateInError "Lincoln" JUndefined privateLayer
                   (mkResponse true (Ok errorEnvelope)) errorEnvelope
                   Hlayer eq_refl eq_refl eq_refl _) (likeName "Lincoln") eq_refl eq_refl).
  intros ref elems. discriminate.
Defined.

Lemma settled_list_is_served_witness :
  searchable browsingOgden = true
  /\ cacheKeyOf printNothing browsingOgden (trim (debouncedSchoolQuery browsingOgden))
     = Ok (q_cacheKey lincolnQuery)
  /\ exists res,
       outcome (searchSchools printNothing nothingFound (q_aborted lincolnQuery)
                  (q_text lincolnQuery) (q_district lincolnQuery)) = Ok res
       /\ schoolEffect printNothing
            (schoolSettles printNothing nothingFound lincolnQuery browsingOgden).1
          = Ok (setSchools res
                  (schoolSettles printNothing nothingFound lincolnQuery browsingOgden).1,
                None).
Proof.
  split; [reflexivity|]. split; [reflexivity|].
  exact (settled_list_is_served printNothing nothingFound lincolnQuery browsingOgden
           eq_refl eq_refl).
Defined.

Lemma only_latest_request_is_live_witness :
  exists p,
    steps printNothing initialPage [Debounced "Lincoln"; Debounced "Lincoln High"] = Ok p
    /\ OnlyLatestLive p.
Proof.
  eexists. split; [vm_compute; reflexivity|].
  eapply (only_latest_request_is_live printNothing
            [Debounced "Lincoln"; Debounced "Lincoln High"]).
  vm_compute. reflexivity.
Defined.

Lemma located_school_has_marker_witness :
  normalizeSchoolAttributes unlocated ogdenPoint = Ok (schoolByKeys unlocated ogdenPoint)
  /\ exists m, mapMarker printNothing (schoolByKeys unlocated ogdenPoint) = Ok (Some m)
       /\ (m_lat m, m_lng m) = (number 41, number (-112))
       /\ truthy (m_id m) = true /\ truthy (m_label m) = true.
Proof.
  split; [reflexivity|].
  refine (proj1 (proj2 (located_school_has_marker printNothing unlocated ogdenPoint
                          (schoolByKeys unlocated ogdenPoint) eq_refl) eq_refl eq_refl) _).
  right. eexists. reflexivity.
Defined.

(** A school without identifier whose object id is an object with an own
    [toString] property: rendering its location throws. *)
Example unprintable_object_id_breaks_marker :
  mapMarker printNothing
    (schoolByKeys (JObj 61 [("OBJECTID", JObj 62 [("toString", JStr "x")])]) ogdenPoint)
  = Throw TypeError.
Proof. reflexivity. Qed.

(** ** The district pipeline *)

Section DistrictControllerFacts.

Variable number_to_string : spec_float -> string.
Variable localeCompare : string -> string -> Z.
Variable array_sort : forall A : Type, (A -> A -> Res Z) -> list A -> Res (list A).

#[local] Abbreviation settles := (districtSettles number_to_string localeCompare array_sort).
#[local] Abbreviation dstep := (districtStep number_to_string localeCompare array_sort).
#[local] Abbreviation dsteps := (districtSteps number_to_string localeCompare array_sort).

(** Once the district request for the current text has settled, however it
    went, the district effect serves the list it resolved with from the cache
    and starts no request; a rejected promise alone leaves the cache as it
    was. *)
Theorem settled_districts_are_served net query st side :
  2 <= String.length (trim (debouncedDistrictQuery side)) ->
  trim (debouncedDistrictQuery side) = dq_text query ->
  forall res,
    outcome (searchSchoolDistricts number_to_string localeCompare array_sort
               net (dq_aborted query) (dq_text query)) = Ok res ->
    districtEffect (settles net query st side).1 (settles net query st side).2
    = Shows (setDistricts res (settles net query st side).1) (settles net query st side).2.
Proof.
  intros Hlong Hq res Hres. unfold districtSettles. rewrite Hres. simpl fst. simpl snd.
  unfold districtEffect. simpl debouncedDistrictQuery. simpl districtCache.
  assert (String.eqb (trim (debouncedDistrictQuery side)) "" = false) as ->.
  { apply String.eqb_neq. intros H. rewrite H in Hlong. simpl in Hlong. lia. }
  assert (Nat.ltb (String.length (trim (debouncedDistrictQuery side))) 2 = false) as ->
    by (apply Nat.ltb_ge; lia).
  simpl orb. cbv iota. unfold readDistrictCache. by rewrite Hq, lookup_insert_eq.
Qed.

Lemma districtEffect_starts st side st' side' q :
  districtEffect st side = Starts st' side' q ->
  (q ∉ objectPrototype) /\ districtCache side' = districtCache side.
Proof.
  unfold districtEffect. destruct (_ || _); [discriminate|].
  unfold readDistrictCache. destruct (districtCache side !! _); [discriminate|].
  destruct (bool_decide _) eqn:E; [by destruct (updaterKeepsState _)|].
  intros [= _ <- <-]. split; [|done]. by apply bool_decide_eq_false in E.
Qed.

Lemma districtEffect_shows st side st' side' :
  districtEffect st side = Shows st' side' -> side' = side.
Proof.
  unfold districtEffect. destruct (_ || _); [by intros [= _ <-]|].
  destruct (readDistrictCache _ _); try discriminate; [by intros [= _ <-]|].
  destruct (updaterKeepsState _); [by intros [= _ <-] | discriminate].
Qed.

Lemma districtStep_keeps_plain p a p' :
  PlainKeys p -> dstep p a = Some p' -> PlainKeys p'.
Proof.
  intros [Hcache Hstarted]. destruct a as [text|i net]; simpl.
  - set (started' := match d_cleanup p with
                     | Some i => alter abortDistrict i (d_started p)
                     | None => d_started p
                     end).
    assert (Hstarted' : Forall (fun query => dq_text query ∉ objectPrototype) started').
    { unfold started'. destruct (d_cleanup p) as [c|]; [|done].
      apply Forall_forall. intros query Hin.
      apply list_elem_of_lookup in Hin as [j Hj].
      rewrite list_lookup_alter in Hj. rewrite Forall_forall in Hstarted.
      destruct (decide (c = j)) as [->|].
      - destruct (d_started p !! j) as [query0|] eqn:E; simpl in Hj; [|done].
        injection Hj as <-. simpl. apply Hstarted. by apply list_elem_of_lookup_2 in E.
      - apply Hstarted. by apply list_elem_of_lookup_2 in Hj. }
    destruct (districtEffect _ _) as [st side'|st side' q|] eqn:Heffect; [| |discriminate].
    + intros [= <-]. apply districtEffect_shows in Heffect as ->. by split.
    + intros [= <-]. apply districtEffect_starts in Heffect as [Hq Hside].
      split; simpl; [by rewrite Hside|].
      apply Forall_app. split; [done|]. by constructor.
  - destruct (d_started p !! i) as [query|] eqn:Hi; [|by intros [= <-]].
    destruct (settles net query (d_session p) (d_side p)) as [st side] eqn:Hsettle.
    intros [= <-]. split; simpl; [|done].
    rewrite Forall_forall in Hstarted.
    assert (Hq : dq_text query ∉ objectPrototype)
      by (apply Hstarted; by apply list_elem_of_lookup_2 in Hi).
    unfold districtSettles in Hsettle.
    destruct (outcome _) as [res|]; injection Hsettle as <- <-; simpl; [|done].
    intros k l Hk. destruct (decide (dq_text query = k)) as [<-|Hne]; [done|].
    rewrite lookup_insert_ne in Hk by done. by apply (Hcache k l).
Qed.

Lemma districtSteps_keep_plain actions p p' :
  PlainKeys p -> dsteps p actions = Some p' -> PlainKeys p'.
Proof.
  revert p. induction actions as [|a actions IH]; intros p Hp; simpl.
  - by intros [= <-].
  - destruct (dstep p a) as [p1|] eqn:Hstep; simpl; [|discriminate].
    apply IH. by apply (districtStep_keeps_plain p a).
Qed.

(** Whatever was searched before, a district text that names a member of
    [Object.prototype] ("constructor", "toString", ...) is never searched: the
    effect takes the inherited member for a cached list. For "constructor" the
    page stays as it was, the list of the previous text on display, with no
    request started and nothing cached; for every other member the page
    breaks. *)
Theorem inherited_member_is_never_searched actions p text :
  dsteps initialDistrictPage actions = Some p ->
  trim text ∈ objectPrototype ->
  match dstep p (DebouncedDistrict text) with
  | Some p' =>
      trim text = "constructor"
      /\ d_session p' = d_session p
      /\ districtCache (d_side p') = districtCache (d_side p)
      /\ loadingDistricts (d_side p') = loadingDistricts (d_side p)
      /\ length (d_started p') = length (d_started p)
      /\ d_cleanup p' = None
  | None => trim text <> "constructor"
  end.
Proof.
  intros Hp Htext.
  assert (Hplain : PlainKeys initialDistrictPage).
  { split; [|constructor]. intros k l Hk. simpl in Hk. by rewrite lookup_empty in Hk. }
  apply (districtSteps_keep_plain actions _ p Hplain) in Hp as [Hcache _].
  simpl. unfold districtEffect. simpl debouncedDistrictQuery. simpl districtCache.
  assert (Hlong : (String.eqb (trim text) "" || Nat.ltb (String.length (trim text)) 2) = false).
  { unfold objectPrototype in Htext.
    repeat (apply elem_of_cons in Htext as [->|Htext]; [reflexivity|]).
    by apply elem_of_nil in Htext. }
  rewrite Hlong. unfold readDistrictCache.
  destruct (districtCache (d_side p) !! trim text) as [l|] eqn:E;
    [by destruct (Hcache _ _ E)|].
  rewrite bool_decide_eq_true_2 by done. unfold updaterKeepsState.
  destruct (String.eqb (trim text) "constructor") eqn:Hc.
  - apply String.eqb_eq in Hc. simpl. repeat split; try done.
    destruct (d_cleanup p); [apply length_alter | done].
  - by apply String.eqb_neq in Hc.
Qed.

(** A district text below two characters empties the district list and clears
    both selections without a request. The school effect that follows runs
    without a district filter: it empties the school list when the school text
    is short too, and otherwise looks up or searches the key of all
    districts. *)
Theorem short_district_text_cascades st side :
  String.length (trim (debouncedDistrictQuery side)) < 2 ->
  exists st',
    districtEffect st side = Shows st' side
    /\ districts st' = [] /\ selectedDistrict st' = None /\ selectedSchool st' = None
    /\ schools st' = schools st
    /\ (forall text, cacheKeyOf number_to_string st' text = Ok ("all-" +:+ text))
    /\ (String.length (trim (debouncedSchoolQuery st)) < 2 ->
        schoolEffect number_to_string st'
        = Ok (setSelectedSchool None (setSchools [] st'), None)).
Proof.
  intros Hshort. eexists. unfold districtEffect.
  apply Nat.ltb_lt in Hshort. rewrite Hshort, orb_true_r.
  split; [reflexivity|]. do 4 (split; [reflexivity|]). split; [reflexivity|].
  intros Hschool. unfold schoolEffect. simpl debouncedSchoolQuery. simpl selectedDistrict.
  apply Nat.ltb_lt in Hschool. by rewrite Hschool, orb_true_r.
Qed.

End DistrictControllerFacts.

Lemma settled_districts_are_served_witness :
  2 <= String.length (trim "Lincoln")
  /\ districtEffect
       (districtSettles printNothing codeUnitCompare sortBy
          (answering [lincolnAttrs; leaIdOnly] [lincolnAttrs])
          (mkDistrictQuery "Lincoln" false) initialSession
          (mkDistrictSide "Lincoln" true ∅)).1
       (districtSettles printNothing codeUnitCompare sortBy
          (answering [lincolnAttrs; leaIdOnly] [lincolnAttrs])
          (mkDistrictQuery "Lincoln" false) initialSession
          (mkDistrictSide "Lincoln" true ∅)).2
     = Shows
         (setDistricts (map_values twoDistricts)
            (districtSettles printNothing codeUnitCompare sortBy
               (answering [lincolnAttrs; leaIdOnly] [lincolnAttrs])
               (mkDistrictQuery "Lincoln" false) initialSession
               (mkDistrictSide "Lincoln" true ∅)).1)
         (districtSettles printNothing codeUnitCompare sortBy
            (answering [lincolnAttrs; leaIdOnly] [lincolnAttrs])
            (mkDistrictQuery "Lincoln" false) initialSession
            (mkDistrictSide "Lincoln" true ∅)).2.
Proof.
  assert (Hlong : 2 <= String.length (trim "Lincoln")) by (simpl; lia).
  split; [exact Hlong|].
  refine (settled_districts_are_served printNothing codeUnitCompare sortBy
            (answering [lincolnAttrs; leaIdOnly] [lincolnAttrs])
            (mkDistrictQuery "Lincoln" false) initialSession
            (mkDistrictSide "Lincoln" true ∅) Hlong eq_refl (map_values twoDistricts) _).
  vm_compute. reflexivity.
Defined.

(** "Lincoln" has been searched and answered. The text " toString " then
    breaks the page; the text "constructor" leaves the districts of "Lincoln"
    on display and starts nothing. *)
Lemma inherited_member_is_never_searched_witness :
  exists p,
    districtSteps printNothing codeUnitCompare sortBy initialDistrictPage
      [DebouncedDistrict "Lincoln"; SettlesDistrict 0 (answering [lincolnAttrs] [])] = Some p
    /\ districts (d_session p) = [districtByKeys lincolnAttrs (JStr "District 4900600")]
    /\ districtStep printNothing codeUnitCompare sortBy p (DebouncedDistrict " toString ")
       = None
    /\ exists p',
         districtStep printNothing codeUnitCompare sortBy p (DebouncedDistrict "constructor")
         = Some p'
         /\ districts (d_session p')
            = [districtByKeys lincolnAttrs (JStr "District 4900600")]
         /\ length (d_started p') = 1 /\ d_cleanup p' = None.
Proof.
  eexists. split; [vm_compute; reflexivity|]. split; [vm_compute; reflexivity|].
  match goal with |- ?step1 = None /\ (exists p', ?step2 = Some p' /\ _) =>
    match step1 with districtStep _ _ _ ?p _ =>
      assert (Hreached : districtSteps printNothing codeUnitCompare sortBy initialDistrictPage
                [DebouncedDistrict "Lincoln"; SettlesDistrict 0 (answering [lincolnAttrs] [])]
              = Some p) by (vm_compute; reflexivity);
      pose proof (inherited_member_is_never_searched printNothing codeUnitCompare sortBy
                    _ p " toString " Hreached) as Hbreaks;
      pose proof (inherited_member_is_never_searched printNothing codeUnitCompare sortBy
                    _ p "constructor" Hreached) as Hkeeps
    end
  end.
  split.
  - assert (Hmember : trim " toString " ∈ objectPrototype)
      by (apply list_elem_of_In; vm_compute; tauto).
    specialize (Hbreaks Hmember).
    destruct (districtStep _ _ _ _ (DebouncedDistrict " toString ")); [|reflexivity].
    destruct Hbreaks as [Habsurd _]. vm_compute in Habsurd. discriminate Habsurd.
  - assert (Hmember : trim "constructor" ∈ objectPrototype)
      by (apply list_elem_of_In; vm_compute; tauto).
    specialize (Hkeeps Hmember).
    destruct (districtStep _ _ _ _ (DebouncedDistrict "constructor")) as [p'|];
      [|exfalso; apply Hkeeps; vm_compute; reflexivity].
    destruct Hkeeps as (_ & Hsession & _ & _ & Hstarted & Hcleanup).
    exists p'. split; [reflexivity|]. rewrite Hsession, Hstarted, Hcleanup.
    by repeat split.
Defined.

Lemma short_district_text_cascades_witness :
  String.length (trim (debouncedDistrictQuery (mkDistrictSide " L " false ∅))) < 2
  /\ exists st',
       districtEffect browsingOgden (mkDistrictSide " L " false ∅)
         = Shows st' (mkDistrictSide " L " false ∅)
       /\ districts st' = [] /\ selectedDistrict st' = None /\ selectedSchool st' = None.
Proof.
  assert (Hshort : String.length (trim (debouncedDistrictQuery
                                          (mkDistrictSide " L " false ∅))) < 2)
    by (simpl; lia).
  split; [exact Hshort|].
  destruct (short_district_text_cascades printNothing browsingOgden
              (mkDistrictSide " L " false ∅) Hshort)
    as (st' & Hshows & Hd & Hsd & Hss & _).
  exists st'. by repeat split.
Defined.
